(** * rpi-paper-eta: the transit-provider normalisation layer (libs/hketa)

    A shallow embedding of the Python package [paper_eta/src/libs/hketa]
    (enums.py, models.py, exceptions.py, transport.py, route.py and
    eta_processor.py) together with the properties its specification states
    about the catalog cache, route construction and the ETA processors.

    Python values are kept dynamically typed, as the code has them: the
    upstream responses and the catalog documents are JSON-shaped values that
    the code indexes with string keys, so a missing key is a [KeyError] here
    as well.  Dictionaries are insertion-ordered association lists, because
    [Route.origin] and [Route.destination] rely on that order.  The file
    system is a finite map from paths to JSON documents. *)

From Stdlib Require Import ZArith List String Ascii Bool Lia DecimalString.
From stdpp Require Import gmap strings.
Import ListNotations.

Local Open Scope string_scope.
Local Open Scope Z_scope.

(** ** enums.py *)

Inductive Locale := TC | EN.

Definition Locale_value (l : Locale) : string :=
  match l with TC => "tc" | EN => "en" end.

Inductive Company := KMB | MTRBUS | MTRLRT | MTRTRAIN | CTB | NLB.

Definition Company_value (c : Company) : string :=
  match c with
  | KMB => "kmb" | MTRBUS => "mtr_bus" | MTRLRT => "mtr_lrt"
  | MTRTRAIN => "mtr_train" | CTB => "ctb" | NLB => "nlb"
  end.

Definition Company_eqb (a b : Company) : bool :=
  String.eqb (Company_value a) (Company_value b).

Inductive Direction := OUTBOUND | INBOUND.

Definition Direction_value (d : Direction) : string :=
  match d with OUTBOUND => "outbound" | INBOUND => "inbound" end.

Inductive StopType := ORIG | STOP | DEST.

(** ** Python's [datetime] (standard library)

    A [datetime] object stores its calendar fields; [tzinfo] is the UTC
    offset in seconds of an aware value and [None] for a naive one. *)

Record datetime := mkdt {
  year : Z; month : Z; day : Z;
  hour : Z; minute : Z; second : Z; microsecond : Z;
  tzinfo : option Z
}.

Definition is_leap (y : Z) : bool :=
  (y mod 4 =? 0) && (negb (y mod 100 =? 0) || (y mod 400 =? 0)).

Definition days_in_month (y m : Z) : Z :=
  if m =? 2 then (if is_leap y then 29 else 28)
  else if (m =? 4) || (m =? 6) || (m =? 9) || (m =? 11) then 30
  else 31.

Definition days_before_year (y : Z) : Z :=
  let p := y - 1 in p * 365 + p / 4 - p / 100 + p / 400.

Fixpoint days_before_month_aux (y : Z) (m : nat) : Z :=
  match m with
  | O => 0
  | S k => days_before_month_aux y k + days_in_month y (Z.of_nat m)
  end.

Definition days_before_month (y m : Z) : Z :=
  days_before_month_aux y (Z.to_nat (m - 1)).

Definition toordinal (d : datetime) : Z :=
  days_before_year (year d) + days_before_month (year d) (month d) + day d.

Definition valid_datetime (d : datetime) : bool :=
  (1 <=? year d) && (year d <=? 9999)
  && (1 <=? month d) && (month d <=? 12)
  && (1 <=? day d) && (day d <=? days_in_month (year d) (month d))
  && (0 <=? hour d) && (hour d <? 24)
  && (0 <=? minute d) && (minute d <? 60)
  && (0 <=? second d) && (second d <? 60)
  && (0 <=? microsecond d) && (microsecond d <? 1000000).

(** A [timedelta] is its total length in microseconds; Python normalises it
    to days, seconds and microseconds with a floor division, so [.days] is
    the floor of the length in days. *)

Definition timedelta := Z.

Definition us_per_second : Z := 1000000.
Definition us_per_day : Z := 86400 * us_per_second.

Definition timedelta_days (td : timedelta) : Z := td / us_per_day.

(** [td.total_seconds() < n] for an integer [n]. *)
Definition total_seconds_lt (td : timedelta) (n : Z) : bool :=
  td <? n * us_per_second.

(** [int(td.total_seconds() / 60)]: [int] truncates towards zero. *)
Definition total_minutes_int (td : timedelta) : Z :=
  Z.quot td (60 * us_per_second).

Definition timedelta_of (days secs us : Z) : timedelta :=
  days * us_per_day + secs * us_per_second + us.

Definition day_seconds (d : datetime) : Z :=
  second d + minute d * 60 + hour d * 3600.

(** [datetime.__sub__]: mixing a naive and an aware value is a [TypeError]
    ([None] here). *)
Definition datetime_sub (a b : datetime) : option timedelta :=
  let base := timedelta_of (toordinal a - toordinal b)
                           (day_seconds a - day_seconds b)
                           (microsecond a - microsecond b) in
  match tzinfo a, tzinfo b with
  | None, None => Some base
  | Some oa, Some ob => Some (base + (ob - oa) * us_per_second)
  | _, _ => None
  end.

(** [dt.replace(tzinfo=...)] and [dt.replace(microsecond=...)]. *)
Definition replace_tzinfo (d : datetime) (tz : option Z) : datetime :=
  mkdt (year d) (month d) (day d) (hour d) (minute d) (second d)
       (microsecond d) tz.

Definition replace_microsecond (d : datetime) (us : Z) : datetime :=
  mkdt (year d) (month d) (day d) (hour d) (minute d) (second d) us
       (tzinfo d).

(** [datetime.fromordinal], as CPython's [_ord2ymd] computes it. *)
Definition ord2ymd (n0 : Z) : Z * Z * Z :=
  let n := n0 - 1 in
  let n400 := n / 146097 in let n := n mod 146097 in
  let n100 := n / 36524 in let n := n mod 36524 in
  let n4 := n / 1461 in let n := n mod 1461 in
  let n1 := n / 365 in let n := n mod 365 in
  let y := n400 * 400 + 1 + n100 * 100 + n4 * 4 + n1 in
  if (n1 =? 4) || (n100 =? 4) then (y - 1, 12, 31)
  else
    let leap := (n1 =? 3) && (negb (n4 =? 24) || (n100 =? 3)) in
    let m := Z.shiftr (n + 50) 5 in
    let preceding :=
      days_before_month 1 m + (if (2 <? m) && leap then 1 else 0) in
    if n <? preceding then
      let m' := m - 1 in
      let preceding' :=
        preceding - (days_in_month 1 m'
                     + (if (m' =? 2) && leap then 1 else 0)) in
      (y, m', n - preceding' + 1)
    else (y, m, n - preceding + 1).

(** [dt + timedelta(seconds=s)] for a whole number of seconds. *)
Definition datetime_add_seconds (d : datetime) (s : Z) : datetime :=
  let total := day_seconds d + s in
  let '(y, m, dd) := ord2ymd (toordinal d + total / 86400) in
  let r := total mod 86400 in
  mkdt y m dd (r / 3600) ((r mod 3600) / 60) (r mod 60) (microsecond d)
       (tzinfo d).

(** [dt.astimezone(tz)] for a fixed-offset zone [tz]; a naive [dt] is read
    in the system's local zone, whose offset is [local]. *)
Definition astimezone (local : Z) (d : datetime) (tz : Z) : datetime :=
  let from := match tzinfo d with Some o => o | None => local end in
  replace_tzinfo (datetime_add_seconds d (tz - from)) (Some tz).

(** Offset of the fixed zones the code names: Asia/Hong_Kong and Etc/GMT-8
    are both UTC+8. *)
Definition HKT : Z := 8 * 3600.

(** *** ISO-8601 text

    [isoformat(sep='T', timespec='seconds')] and [fromisoformat], for the
    spellings that [isoformat] emits and the providers send: a date, one
    separator character, [HH:MM:SS] and an optional [+HH:MM] or [-HH:MM]
    offset.  A text outside this form is a [ValueError] ([None]). *)

Definition ascii_of_digit (d : Z) : ascii :=
  ascii_of_nat (Z.to_nat (48 + d)).

Definition digit_of_ascii (c : ascii) : option Z :=
  let n := Z.of_nat (nat_of_ascii c) in
  if (48 <=? n) && (n <=? 57) then Some (n - 48) else None.

Fixpoint fmt_digits (w : nat) (n : Z) (rest : string) : string :=
  match w with
  | O => rest
  | S k => fmt_digits k (n / 10) (String (ascii_of_digit (n mod 10)) rest)
  end.

Fixpoint read_digits (w : nat) (acc : Z) (s : string) : option (Z * string) :=
  match w with
  | O => Some (acc, s)
  | S k =>
      match s with
      | String c r =>
          match digit_of_ascii c with
          | Some d => read_digits k (10 * acc + d) r
          | None => None
          end
      | EmptyString => None
      end
  end.

Definition expect (c : ascii) (s : string) : option string :=
  match s with
  | String c' r => if Ascii.eqb c c' then Some r else None
  | EmptyString => None
  end.

Definition fmt_offset (tz : option Z) : string :=
  match tz with
  | None => ""
  | Some o =>
      let a := Z.abs o in
      String (if o <? 0 then "-"%char else "+"%char)
        (fmt_digits 2 (a / 3600)
           (String ":"%char (fmt_digits 2 ((a mod 3600) / 60) "")))
  end.

Definition isoformat_seconds (d : datetime) : string :=
  fmt_digits 4 (year d) (String "-"%char
  (fmt_digits 2 (month d) (String "-"%char
  (fmt_digits 2 (day d) (String "T"%char
  (fmt_digits 2 (hour d) (String ":"%char
  (fmt_digits 2 (minute d) (String ":"%char
  (fmt_digits 2 (second d) (fmt_offset (tzinfo d)))))))))))).

Definition read_offset (s : string) : option (option Z) :=
  match s with
  | EmptyString => Some None
  | String c r =>
      let sign :=
        if Ascii.eqb c "+"%char then Some 1
        else if Ascii.eqb c "-"%char then Some (-1) else None in
      match sign with
      | None => None
      | Some sg =>
          match read_digits 2 0 r with
          | Some (hh, r1) =>
              match expect ":"%char r1 with
              | Some r2 =>
                  match read_digits 2 0 r2 with
                  | Some (mm, EmptyString) =>
                      if (hh <? 24) && (mm <? 60)
                      then Some (Some (sg * (hh * 3600 + mm * 60)))
                      else None
                  | _ => None
                  end
              | None => None
              end
          | None => None
          end
      end
  end.

Definition fromisoformat (s : string) : option datetime :=
  match read_digits 4 0 s with
  | Some (y, s) =>
  match expect "-"%char s with
  | Some s =>
  match read_digits 2 0 s with
  | Some (mo, s) =>
  match expect "-"%char s with
  | Some s =>
  match read_digits 2 0 s with
  | Some (dd, String _ s) =>
  match read_digits 2 0 s with
  | Some (hh, s) =>
  match expect ":"%char s with
  | Some s =>
  match read_digits 2 0 s with
  | Some (mi, s) =>
  match expect ":"%char s with
  | Some s =>
  match read_digits 2 0 s with
  | Some (ss, s) =>
  match read_offset s with
  | Some tz =>
      let d := mkdt y mo dd hh mi ss 0 tz in
      if valid_datetime d then Some d else None
  | None => None end
  | None => None end
  | None => None end
  | None => None end
  | None => None end
  | None => None end
  | _ => None end
  | None => None end
  | None => None end
  | None => None end
  | None => None end.

(** [_8601str] (eta_processor.py). *)
Definition _8601str (dt : datetime) : string := isoformat_seconds dt.

(** ** Python values, exceptions and dictionaries *)

Set Warnings "-register-all".

Inductive pyval :=
| VNone
| VBool (b : bool)
| VInt (z : Z)
| VStr (s : string)
| VBytes (s : string)
| VDatetime (d : datetime)
| VList (l : list pyval)
| VTuple (l : list pyval)
| VDict (d : list (string * pyval))
| VObj (cls : string) (fields : list (string * pyval)).

(** exceptions.py, and the built-in exceptions the modelled code can raise.
    [TransportError] stands for any failure of an upstream call. *)
Inductive exn :=
| KeyError (k : string)
| IndexError
| TypeError
| ValueError
| AttributeError (a : string)
| ValidationError (field : string)
| FileNotFoundError (p : string)
| TransportError
| RouteError (s : string)
| RouteNotExist (s : string)
| StopNotExist (s : string)
| ServiceTypeNotExist (s : string).

Inductive res (A : Type) :=
| Ok (a : A)
| Raise (e : exn).
Arguments Ok {A} a.
Arguments Raise {A} e.

#[global] Instance res_ret : MRet res := fun A a => Ok a.
#[global] Instance res_bind : MBind res := fun A B f m =>
  match m with Ok a => f a | Raise e => Raise e end.

Definition of_option {A} (e : exn) (o : option A) : res A :=
  match o with Some a => Ok a | None => Raise e end.

(** A [dict] keeps its keys in insertion order; assigning to a key that is
    present replaces the value in place.  Keys are compared with [eqb]:
    string equality for the JSON-shaped dictionaries, Python's [==] for a
    dictionary whose keys are arbitrary values. *)
Section Dict.
Context {K A : Type} (eqb : K -> K -> bool).

Fixpoint dict_get (k : K) (d : list (K * A)) : option A :=
  match d with
  | [] => None
  | (k', v) :: r => if eqb k k' then Some v else dict_get k r
  end.

Fixpoint dict_set (k : K) (v : A) (d : list (K * A)) : list (K * A) :=
  match d with
  | [] => [(k, v)]
  | (k', v') :: r =>
      if eqb k k' then (k', v) :: r else (k', v') :: dict_set k v r
  end.

Definition dict_mem (k : K) (d : list (K * A)) : bool :=
  match dict_get k d with Some _ => true | None => false end.

(** [{k: v for (k, v) in l}] and [dict(l)]. *)
Definition dict_of_list (l : list (K * A)) : list (K * A) :=
  fold_left (fun d kv => dict_set (fst kv) (snd kv) d) l [].
End Dict.

Definition dict_keys {K A} (d : list (K * A)) : list K := map fst d.
Definition dict_values {K A} (d : list (K * A)) : list A := map snd d.

Abbreviation sget := (dict_get String.eqb).
Abbreviation sset := (dict_set String.eqb).
Abbreviation smem := (dict_mem String.eqb).

(** [d[k]] for a string key. *)
Definition dict_item {A} (k : string) (d : list (string * A)) : res A :=
  of_option (KeyError k) (sget k d).

(** [v[k]] on a value: only a [dict] can be indexed by a string. *)
Definition py_item (v : pyval) (k : string) : res pyval :=
  match v with
  | VDict d => dict_item k d
  | _ => Raise TypeError
  end.

(** [v.get(k, default)]. *)
Definition py_get (v : pyval) (k : string) (default : pyval) : res pyval :=
  match v with
  | VDict d => Ok (match sget k d with Some x => x | None => default end)
  | _ => Raise (AttributeError "get")
  end.

(** [len(v)]. *)
Definition py_len (v : pyval) : res Z :=
  match v with
  | VStr s => Ok (Z.of_nat (String.length s))
  | VBytes s => Ok (Z.of_nat (String.length s))
  | VList l | VTuple l => Ok (Z.of_nat (List.length l))
  | VDict d => Ok (Z.of_nat (List.length d))
  | _ => Raise TypeError
  end.

(** Truth value of an object. *)
Definition py_truthy (v : pyval) : bool :=
  match v with
  | VNone => false
  | VBool b => b
  | VInt z => negb (z =? 0)
  | VStr s | VBytes s => negb (String.eqb s "")
  | VList l | VTuple l => match l with [] => false | _ => true end
  | VDict d => match d with [] => false | _ => true end
  | VDatetime _ | VObj _ _ => true
  end.

Definition datetime_eqb (a b : datetime) : bool :=
  match tzinfo a, tzinfo b, datetime_sub a b with
  | None, None, Some td | Some _, Some _, Some td => td =? 0
  | _, _, _ => false
  end.

(** [a == b].  [bool] is a subclass of [int]; dictionaries compare as
    unordered maps; a list never equals a tuple. *)
Fixpoint py_eq (a b : pyval) {struct a} : bool :=
  let fix seq_eq (x y : list pyval) {struct x} : bool :=
    match x, y with
    | [], [] => true
    | u :: x', v :: y' => py_eq u v && seq_eq x' y'
    | _, _ => false
    end in
  let fix sub_eq (x y : list (string * pyval)) {struct x} : bool :=
    match x with
    | [] => true
    | (k, u) :: x' =>
        match sget k y with
        | Some v => py_eq u v && sub_eq x' y
        | None => false
        end
    end in
  match a, b with
  | VNone, VNone => true
  | VBool x, VBool y => Bool.eqb x y
  | VBool x, VInt y => (if x then 1 else 0) =? y
  | VInt x, VBool y => x =? (if y then 1 else 0)
  | VInt x, VInt y => x =? y
  | VStr x, VStr y => String.eqb x y
  | VBytes x, VBytes y => String.eqb x y
  | VDatetime x, VDatetime y => datetime_eqb x y
  | VList x, VList y => seq_eq x y
  | VTuple x, VTuple y => seq_eq x y
  | VDict x, VDict y =>
      (Nat.eqb (List.length x) (List.length y)) && sub_eq x y
  | VObj c x, VObj c' y =>
      String.eqb c c' && (Nat.eqb (List.length x) (List.length y))
      && sub_eq x y
  | _, _ => false
  end.

(** [v is None]. *)
Definition is_None (v : pyval) : bool :=
  match v with VNone => true | _ => false end.

(** [int(v)]: an [int] or [bool] as it is, a [str] of decimal digits with
    an optional sign; anything else is an error. *)
Fixpoint read_decimal (acc : Z) (s : string) : option Z :=
  match s with
  | EmptyString => Some acc
  | String c r =>
      match digit_of_ascii c with
      | Some d => read_decimal (10 * acc + d) r
      | None => None
      end
  end.

Definition int_of_string (s : string) : option Z :=
  match s with
  | EmptyString => None
  | String c r =>
      if Ascii.eqb c "-"%char then
        match r with
        | EmptyString => None
        | _ => option_map Z.opp (read_decimal 0 r)
        end
      else if Ascii.eqb c "+"%char then
        match r with EmptyString => None | _ => read_decimal 0 r end
      else read_decimal 0 s
  end.

Definition py_int (v : pyval) : res Z :=
  match v with
  | VInt z => Ok z
  | VBool b => Ok (if b then 1 else 0)
  | VStr s => of_option ValueError (int_of_string s)
  | _ => Raise TypeError
  end.

(** [str.upper()] and [str.lower()] on the ASCII letters (route numbers,
    directions and service types are ASCII). *)
Definition ascii_upper (c : ascii) : ascii :=
  let n := nat_of_ascii c in
  if (Nat.leb 97 n && Nat.leb n 122)%bool then ascii_of_nat (n - 32) else c.

Definition ascii_lower (c : ascii) : ascii :=
  let n := nat_of_ascii c in
  if (Nat.leb 65 n && Nat.leb n 90)%bool then ascii_of_nat (n + 32) else c.

Fixpoint str_map (f : ascii -> ascii) (s : string) : string :=
  match s with
  | EmptyString => EmptyString
  | String c r => String (f c) (str_map f r)
  end.

Definition str_upper : string -> string := str_map ascii_upper.
Definition str_lower : string -> string := str_map ascii_lower.

(** [s[0]], a one-character string. *)
Definition str_first (s : string) : res string :=
  match s with
  | EmptyString => Raise IndexError
  | String c _ => Ok (String c EmptyString)
  end.

(** [tuple(v)]. *)
Fixpoint chars_of (s : string) : list pyval :=
  match s with
  | EmptyString => []
  | String c r => VStr (String c EmptyString) :: chars_of r
  end.

Definition py_tuple (v : pyval) : res pyval :=
  match v with
  | VList l | VTuple l => Ok (VTuple l)
  | VDict d => Ok (VTuple (map VStr (dict_keys d)))
  | VStr s => Ok (VTuple (chars_of s))
  | _ => Raise TypeError
  end.

(** Iterating over a value in a [for] loop or a comprehension. *)
Definition py_iter (v : pyval) : res (list pyval) :=
  match v with
  | VList l | VTuple l => Ok l
  | VDict d => Ok (map VStr (dict_keys d))
  | VStr s => Ok (chars_of s)
  | _ => Raise TypeError
  end.

(** ** The [json] module (standard library)

    A file written by [json.dump] holds a JSON document; [json.dump] and
    [json.load] are modelled by what they do to values: tuples and lists
    both become arrays, an array is read back as a list, an object is read
    back by inserting its members in order. *)

Inductive json :=
| JNull
| JBool (b : bool)
| JNum (z : Z)
| JStr (s : string)
| JArr (l : list json)
| JObj (m : list (string * json)).

(** [f] applied to each element in turn, stopping at the first error. *)
Definition res_map {A B} (f : A -> res B) : list A -> res (list B) :=
  fix go (l : list A) : res (list B) :=
    match l with
    | [] => Ok []
    | x :: r =>
        match f x with
        | Ok y => match go r with Ok ys => Ok (y :: ys) | Raise e => Raise e end
        | Raise e => Raise e
        end
    end.

Fixpoint json_dump (v : pyval) : res json :=
  match v with
  | VNone => Ok JNull
  | VBool b => Ok (JBool b)
  | VInt z => Ok (JNum z)
  | VStr s => Ok (JStr s)
  | VList l | VTuple l =>
      match res_map json_dump l with
      | Ok js => Ok (JArr js)
      | Raise e => Raise e
      end
  | VDict d =>
      match res_map (fun kx => match json_dump (snd kx) with
                               | Ok j => Ok (fst kx, j)
                               | Raise e => Raise e
                               end) d with
      | Ok js => Ok (JObj js)
      | Raise e => Raise e
      end
  | VBytes _ | VDatetime _ | VObj _ _ => Raise TypeError
  end.

Fixpoint json_load (j : json) : pyval :=
  match j with
  | JNull => VNone
  | JBool b => VBool b
  | JNum z => VInt z
  | JStr s => VStr s
  | JArr l => VList (map json_load l)
  | JObj m =>
      VDict (fold_left (fun acc kx => sset (fst kx) (json_load (snd kx)) acc)
                       m [])
  end.

(** ** The world the package runs in

    [clock] lists the successive readings of [datetime.now()] and [ticks]
    counts how many were taken; [fs] is the file system; [fetched] logs the
    calls made to the provider's upstream fetchers; [_routes] is the
    provider instance's memoised route list ([None] until first loaded).
    A file holds a JSON document, or the partial text a failed write left
    behind. *)

Inductive file :=
| Doc (j : json)
| Partial.

Inductive fetch_call :=
| FetchRouteList
| FetchStopList (route_no : string) (direction : Direction)
                (service_type : string).

Record State := mkState {
  clock : nat -> datetime;
  ticks : nat;
  fs : gmap string file;
  fetched : list fetch_call;
  _routes : pyval
}.

Definition M (A : Type) : Type := State -> res A * State.

#[global] Instance M_ret : MRet M := fun A a st => (Ok a, st).
#[global] Instance M_bind : MBind M := fun A B f m st =>
  match m st with
  | (Ok a, st') => f a st'
  | (Raise e, st') => (Raise e, st')
  end.

Definition lift {A} (r : res A) : M A := fun st => (r, st).
Definition raise {A} (e : exn) : M A := fun st => (Raise e, st).

Definition datetime_now : M datetime := fun st =>
  (Ok (clock st (ticks st)),
   mkState (clock st) (S (ticks st)) (fs st) (fetched st) (_routes st)).

Definition get_routes : M pyval := fun st => (Ok (_routes st), st).

Definition set_routes (v : pyval) : M unit := fun st =>
  (Ok tt, mkState (clock st) (ticks st) (fs st) (fetched st) v).

Definition lookup_file (path : string) : M (option file) := fun st =>
  (Ok (fs st !! path), st).

Definition write_file (path : string) (f : file) : M unit := fun st =>
  (Ok tt,
   mkState (clock st) (ticks st) (<[path := f]> (fs st)) (fetched st)
           (_routes st)).

Definition log_fetch (c : fetch_call) : M nat := fun st =>
  (Ok (List.length (fetched st)),
   mkState (clock st) (ticks st) (fs st) (fetched st ++ [c]) (_routes st)).

(** [json.load(open(path))]. *)
Definition load_file (path : string) : M pyval :=
  f ← lookup_file path;
  match f with
  | Some (Doc j) => mret (json_load j)
  | Some Partial => raise ValueError
  | None => raise (FileNotFoundError path)
  end.

(** ** transport.py *)

Definition path_join (a b : string) : string := a ++ "/" ++ b.

(** [stop_list_fname]. *)
Definition stop_list_fname (no : string) (direction : Direction)
  (service_type : string) : string :=
  str_upper no ++ "-" ++ str_lower (Direction_value direction) ++ "-"
  ++ str_lower service_type ++ ".json".

(** [_append_timestamp]. *)
Definition _append_timestamp (data : pyval) : M pyval :=
  now ← datetime_now;
  mret (VDict [("last_update", VStr (isoformat_seconds now));
               ("data", data)]).

(** [_put_data_file]: [open(path, "w")] truncates the file before
    [json.dump] runs, so a value that cannot be serialised leaves a partial
    file behind. *)
Definition _put_data_file (path : string) (data : pyval) : M unit :=
  match json_dump data with
  | Ok j => write_file path (Doc j)
  | Raise e => write_file path Partial;; raise e
  end.

(** The concrete subclasses of the abstract class [Transport]. *)
Inductive Provider :=
| KowloonMotorBus | MTRBus | MTRLightRail | MTRTrain | CityBus
| NewLantaoBus.

Definition path_prefix (p : Provider) : string :=
  match p with
  | KowloonMotorBus => "kmb" | MTRBus => "mtr_bus"
  | MTRLightRail => "mtr_lrt" | MTRTrain => "mtr_train"
  | CityBus => "ctb" | NewLantaoBus => "nlb"
  end.

Definition Provider_transport (p : Provider) : Company :=
  match p with
  | KowloonMotorBus => KMB | MTRBus => MTRBUS | MTRLightRail => MTRLRT
  | MTRTrain => MTRTRAIN | CityBus => CTB | NewLantaoBus => NLB
  end.

(** A [Transport] instance.  The methods [_fetch_route_list] and
    [_fetch_stop_list] of the concrete classes talk to the operator's
    servers: what the [n]-th upstream call returns (or raises), with what
    the method builds from it, is given by [upstream_route_list] and, for
    the stops of a route, direction and service type, by
    [upstream_stop_list].  [NewLantaoBus] asks its operator for the stops
    of a route id: [upstream_stops_by_id]. *)
Record Transport := mkTransport {
  cls : Provider;
  root : string;
  threshold : Z;
  upstream_route_list : nat -> res pyval;
  upstream_stop_list :
    string -> Direction -> string -> nat -> res (list pyval);
  upstream_stops_by_id : pyval -> nat -> res (list pyval);
  logo_file : res pyval
}.

Definition transport (self : Transport) : Company :=
  Provider_transport (cls self).

Definition _root (self : Transport) : string :=
  path_join (root self) (path_prefix (cls self)).

Definition route_list_path (self : Transport) : string :=
  path_join (_root self) "routes.json".

Definition stops_list_dir (self : Transport) : string :=
  path_join (_root self) "routes".

Definition logo (self : Transport) : res pyval := logo_file self.

Definition _fetch_route_list (self : Transport) : M pyval :=
  n ← log_fetch FetchRouteList;
  lift (upstream_route_list self n).

(** [datetime.fromisoformat(v)]. *)
Definition py_fromisoformat (v : pyval) : res datetime :=
  match v with
  | VStr s => of_option ValueError (fromisoformat s)
  | _ => Raise TypeError
  end.

(** [(datetime.now() - lastupd).days > self.threshold]. *)
Definition older_than_threshold (self : Transport) (lastupd : datetime)
  : M bool :=
  now ← datetime_now;
  td ← lift (of_option TypeError (datetime_sub now lastupd));
  mret (threshold self <? timedelta_days td).

(** [Transport._is_outdated]. *)
Definition _is_outdated (self : Transport) (target : pyval) : M bool :=
  match target with
  | VStr fpath =>
      f ← lookup_file fpath;
      match f with
      | Some _ =>
          doc ← load_file fpath;
          lu ← lift (py_item doc "last_update");
          lastupd ← lift (py_fromisoformat lu);
          older_than_threshold self lastupd
      | None => mret true
      end
  | _ =>
      lu ← lift (py_item target "last_update");
      lastupd ← lift (py_fromisoformat lu);
      older_than_threshold self lastupd
  end.

(** The refresh both branches of [route_list] perform. *)
Definition refresh_route_list (self : Transport) : M unit :=
  data ← _fetch_route_list self;
  record ← _append_timestamp data;
  set_routes record;;
  _put_data_file (route_list_path self) record.

(** [Transport.route_list].  The code also treats a file it may not read
    ([PermissionError]) as a missing one; the file system here has no
    permissions. *)
Definition route_list (self : Transport) : M pyval :=
  cached ← get_routes;
  (if is_None cached then
     f ← lookup_file (route_list_path self);
     match f with
     | Some _ =>
         doc ← load_file (route_list_path self);
         set_routes doc
     | None => refresh_route_list self
     end
   else mret tt);;
  cached ← get_routes;
  outdated ← _is_outdated self cached;
  (if outdated : bool then refresh_route_list self else mret tt);;
  cached ← get_routes;
  lift (py_item cached "data").

(** [k in v.keys()]. *)
Definition py_has_key (v : pyval) (k : string) : res bool :=
  match v with
  | VDict d => Ok (smem k d)
  | _ => Raise (AttributeError "keys")
  end.

(** The guards at the head of the providers' [_fetch_stop_list]:
    [if service_type != "default": raise ServiceTypeNotExist(service_type)]
    and
    [if route_no not in self.route_list().keys(): raise RouteNotExist(route_no)],
    which reads the route list again. *)
Definition check_service_type (service_type : string) : M unit :=
  if negb (String.eqb service_type "default")
  then raise (ServiceTypeNotExist service_type)
  else mret tt.

Definition check_route (self : Transport) (route_no : string) : M unit :=
  routes ← route_list self;
  known ← lift (py_has_key routes route_no);
  if negb known then raise (RouteNotExist route_no) else mret tt.

(** The loop of [NewLantaoBus._fetch_stop_list] over the services of the
    bound: the route id of the first service of the queried type. *)
Fixpoint NewLantaoBus_route_id (service_type : string)
  (services : list pyval) : res pyval :=
  match services with
  | [] => Raise (ServiceTypeNotExist service_type)
  | service :: rest =>
      t ← py_item service "service_type";
      if py_eq t (VStr service_type) then py_item service "route_id"
      else NewLantaoBus_route_id service_type rest
  end.

(** [for service in self.route_list()[route_no][direction]: ...], one more
    read of the route list. *)
Definition NewLantaoBus_service (self : Transport) (route_no : string)
  (direction : Direction) (service_type : string) : M pyval :=
  routes ← route_list self;
  info ← lift (py_item routes route_no);
  bounds ← lift (py_item info (Direction_value direction));
  services ← lift (py_iter bounds);
  lift (NewLantaoBus_route_id service_type services).

(** The call to the operator that ends [_fetch_stop_list]. *)
Definition fetch_stops (self : Transport) (route_no : string)
  (direction : Direction) (service_type : string) : M (list pyval) :=
  n ← log_fetch (FetchStopList route_no direction service_type);
  lift (upstream_stop_list self route_no direction service_type n).

(** [_fetch_stop_list], as each concrete class defines it. *)
Definition _fetch_stop_list (self : Transport) (route_no : string)
  (direction : Direction) (service_type : string) : M (list pyval) :=
  match cls self with
  | KowloonMotorBus =>
      check_route self route_no;;
      fetch_stops self route_no direction service_type
  | MTRBus =>
      check_service_type service_type;;
      fetch_stops self route_no direction service_type
  | MTRLightRail | MTRTrain | CityBus =>
      check_service_type service_type;;
      check_route self route_no;;
      fetch_stops self route_no direction service_type
  | NewLantaoBus =>
      check_route self route_no;;
      id_ ← NewLantaoBus_service self route_no direction service_type;
      n ← log_fetch (FetchStopList route_no direction service_type);
      lift (upstream_stops_by_id self id_ n)
  end.

(** [Transport.stop_list]. *)
Definition stop_list (self : Transport) (route_no : string)
  (direction : Direction) (service_type : string) : M pyval :=
  routes ← route_list self;
  known ← lift (py_has_key routes route_no);
  if negb known then raise (RouteNotExist route_no)
  else
    let fpath :=
      path_join (stops_list_dir self)
                (stop_list_fname route_no direction service_type) in
    outdated ← _is_outdated self (VStr fpath);
    if outdated : bool then
      stops ← _fetch_stop_list self route_no direction service_type;
      record ← _append_timestamp (VTuple stops);
      _put_data_file fpath record;;
      mret (VTuple stops)
    else
      doc ← load_file fpath;
      stops ← lift (py_item doc "data");
      lift (py_tuple stops).

(** ** models.py *)

Module RouteQuery.
Record t := mk {
  transport : Company;
  no : string;
  direction : Direction;
  stop_id : string;
  service_type : string;
  locale : Locale
}.
End RouteQuery.

(** [RouteInfo.Stop(k1=v1, ...)]: a [TypedDict] is a plain [dict] at run time
    and its constructor does not check the keys it is given. *)
Definition RouteInfo_Stop (kwargs : list (string * pyval)) : pyval :=
  VDict (dict_of_list String.eqb kwargs).

(** *** pydantic models

    A model class declares its fields; constructing an instance validates
    the keyword arguments of the declared fields, fills in defaults and,
    under the default configuration ([extra='ignore']), drops every keyword
    that is not a declared field.  Only the coercions the package relies on
    are modelled: an ISO-8601 string is accepted for a [datetime]. *)

Inductive ftype :=
| FStr | FBool | FOptStr | FOptDatetime | FDatetime | FDict | FLocale
| FOptBytes | FEtas.

Record field := mkField {
  fname : string;
  ftyp : ftype;
  fdefault : option pyval
}.

Definition as_datetime (v : pyval) : option pyval :=
  match v with
  | VDatetime _ => Some v
  | VStr s => option_map VDatetime (fromisoformat s)
  | _ => None
  end.

Definition is_instance_of (c : string) (v : pyval) : bool :=
  match v with
  | VObj c' _ => String.eqb c c'
  | _ => false
  end.

Definition validate (t : ftype) (v : pyval) : option pyval :=
  match t, v with
  | FStr, VStr _ => Some v
  | FBool, VBool _ => Some v
  | FBool, VInt z =>
      if z =? 0 then Some (VBool false)
      else if z =? 1 then Some (VBool true) else None
  | FOptStr, VNone | FOptStr, VStr _ => Some v
  | FOptDatetime, VNone => Some v
  | FOptDatetime, _ | FDatetime, _ => as_datetime v
  | FDict, VDict _ => Some v
  | FLocale, VStr s =>
      if String.eqb s "tc" || String.eqb s "en" then Some v else None
  | FOptBytes, VNone | FOptBytes, VBytes _ => Some v
  | FEtas, VList l =>
      if forallb (is_instance_of "Eta.Time") l then Some v else None
  | FEtas, VObj c _ => if String.eqb c "Eta.Error" then Some v else None
  | _, _ => None
  end.

Fixpoint pydantic_fields (schema : list field)
  (kwargs : list (string * pyval)) : res (list (string * pyval)) :=
  match schema with
  | [] => Ok []
  | f :: rest =>
      v ← (match sget (fname f) kwargs with
           | Some v => of_option (ValidationError (fname f))
                                 (validate (ftyp f) v)
           | None => of_option (ValidationError (fname f)) (fdefault f)
           end);
      fs ← pydantic_fields rest kwargs;
      Ok ((fname f, v) :: fs)
  end.

Definition pydantic_init (cls : string) (schema : list field)
  (kwargs : list (string * pyval)) : res pyval :=
  fs ← pydantic_fields schema kwargs;
  Ok (VObj cls fs).

(** [getattr(obj, name)] on a model instance. *)
Definition py_getattr (v : pyval) (name : string) : res pyval :=
  match v with
  | VObj _ fs => of_option (AttributeError name) (sget name fs)
  | _ => Raise (AttributeError name)
  end.

(** [class Eta.Time]. *)
Definition Time_fields : list field :=
  [ mkField "destination" FStr None;
    mkField "is_arriving" FBool None;
    mkField "is_scheduled" FBool None;
    mkField "eta" FOptDatetime (Some VNone);
    mkField "remark" FOptStr (Some VNone);
    mkField "extras" FDict (Some (VDict [])) ].

Definition Eta_Time (kwargs : list (string * pyval)) : res pyval :=
  pydantic_init "Eta.Time" Time_fields kwargs.

(** [class Eta.Error]. *)
Definition Error_fields : list field := [ mkField "message" FStr None ].

Definition Eta_Error (kwargs : list (string * pyval)) : res pyval :=
  pydantic_init "Eta.Error" Error_fields kwargs.

(** [class Eta].  The default of [timestamp] is computed once, when the
    class is defined; every caller in the package passes the field. *)
Definition Eta_fields (class_time : datetime) : list field :=
  [ mkField "no" FStr None;
    mkField "origin" FStr None;
    mkField "destination" FStr None;
    mkField "stop_name" FStr None;
    mkField "locale" FLocale None;
    mkField "logo" FOptBytes (Some VNone);
    mkField "etas" FEtas None;
    mkField "timestamp" FDatetime
            (Some (VDatetime (replace_tzinfo class_time (Some HKT)))) ].

Definition Eta (class_time : datetime) (kwargs : list (string * pyval))
  : res pyval :=
  pydantic_init "Eta" (Eta_fields class_time) kwargs.

(** ** Classes and [isinstance]

    The classes that matter to [Route.name]: the providers, their abstract
    base [Transport], [ABC] and its metaclass [ABCMeta].  [type_of_class c]
    is [type(c)], the metaclass of the class [c]; [mro c] lists [c] and its
    ancestors. *)

Inductive PyClass :=
| Cobject | Ctype | CABCMeta | CABC | CTransport
| CProvider (p : Provider).

Definition PyClass_eqb (a b : PyClass) : bool :=
  match a, b with
  | Cobject, Cobject | Ctype, Ctype | CABCMeta, CABCMeta | CABC, CABC
  | CTransport, CTransport => true
  | CProvider p, CProvider q =>
      String.eqb (path_prefix p) (path_prefix q)
  | _, _ => false
  end.

Definition type_of_class (c : PyClass) : PyClass :=
  match c with
  | Cobject | Ctype | CABCMeta => Ctype
  | CABC | CTransport | CProvider _ => CABCMeta
  end.

Definition mro (c : PyClass) : list PyClass :=
  match c with
  | Cobject => [Cobject]
  | Ctype => [Ctype; Cobject]
  | CABCMeta => [CABCMeta; Ctype; Cobject]
  | CABC => [CABC; Cobject]
  | CTransport => [CTransport; CABC; Cobject]
  | CProvider p => [CProvider p; CTransport; CABC; Cobject]
  end.

(** [isinstance(obj, c)] for an object [obj] whose class is [cls_of_obj]. *)
Definition isinstance (cls_of_obj c : PyClass) : bool :=
  existsb (PyClass_eqb c) (mro cls_of_obj).

(** ** route.py *)

Definition locale_names (tc en : string) : pyval :=
  VDict [("tc", VStr tc); ("en", VStr en)].

(** [MTR_TRAIN_NAMES]. *)
Definition MTR_TRAIN_NAMES : list (string * pyval) :=
  [ ("AEL", locale_names "機場快線" "Airport Express Line");
    ("TCL", locale_names "東涌線" "Tung Chung Line");
    ("TML", locale_names "屯馬線" "Tuen Ma Line");
    ("TKL", locale_names "將軍澳線" "Tseung Kwan O Line");
    ("TKL-TKS", locale_names "將軍澳線" "Tseung Kwan O Line");
    ("EAL", locale_names "東鐵線" "East Rail Line");
    ("EAL-LMC", locale_names "東鐵線" "East Rail Line");
    ("DRL", locale_names "迪士尼線" "Disneyland Resort Line");
    ("KTL", locale_names "觀塘線" "Kwun Tong Line");
    ("TWL", locale_names "荃灣線" "Tsuen Wan Line");
    ("ISL", locale_names "港島線" "Island Line");
    ("SIL", locale_names "南港島線" "South Island Line") ].

(** A [Route] object.  [_stop_list] is the dictionary built by
    [__init__]: stop id to stop, in the order of the resolved stop list. *)
Record Route := mkRoute {
  entry : RouteQuery.t;
  provider : Transport;
  _stop_list : list (pyval * pyval)
}.

(** Values a [dict] accepts as keys. *)
Fixpoint py_hashable (v : pyval) : bool :=
  match v with
  | VList _ | VDict _ | VObj _ _ => false
  | VTuple l => forallb py_hashable l
  | _ => true
  end.

(** [{stop["id"]: stop for stop in stops}]. *)
Fixpoint index_stops (stops : list pyval) (acc : list (pyval * pyval))
  : res (list (pyval * pyval)) :=
  match stops with
  | [] => Ok acc
  | stop :: rest =>
      k ← py_item stop "id";
      if py_hashable k then index_stops rest (dict_set py_eq k stop acc)
      else Raise TypeError
  end.

(** [Route.__init__]. *)
Definition Route_init (entry : RouteQuery.t) (transport_ : Transport)
  : M Route :=
  stops ← stop_list transport_ (RouteQuery.no entry)
                    (RouteQuery.direction entry)
                    (RouteQuery.service_type entry);
  l ← lift (py_iter stops);
  d ← lift (index_stops l []);
  if negb (dict_mem py_eq (VStr (RouteQuery.stop_id entry)) d)
  then raise (StopNotExist (RouteQuery.stop_id entry))
  else mret (mkRoute entry transport_ d).

(** [Route.name]. *)
Definition Route_name (self : Route) : pyval :=
  if isinstance (CProvider (cls (provider self)))
                (type_of_class (CProvider MTRTrain))
  then match sget (RouteQuery.stop_id (entry self)) MTR_TRAIN_NAMES with
       | Some names => names
       | None => VStr (RouteQuery.stop_id (entry self))
       end
  else VStr (RouteQuery.no (entry self)).

(** [self._stop_list[stop_id]]. *)
Definition Route_stop_details (self : Route) (stop_id : string) : res pyval :=
  of_option (KeyError stop_id) (dict_get py_eq (VStr stop_id) (_stop_list self)).

(** [Route.stop_seq]. *)
Definition Route_stop_seq (self : Route) : res Z :=
  stop ← Route_stop_details self (RouteQuery.stop_id (entry self));
  seq ← py_item stop "seq";
  py_int seq.

(** [Route.origin]. *)
Definition Route_origin (self : Route) : res pyval :=
  of_option IndexError (head (dict_values (_stop_list self))).

(** [Route.destination]. *)
Definition Route_destination (self : Route) : res pyval :=
  stop ← of_option IndexError (last (dict_values (_stop_list self)));
  if Company_eqb (RouteQuery.transport (entry self)) MTRLRT
     && (String.eqb (RouteQuery.no (entry self)) "705"
         || String.eqb (RouteQuery.no (entry self)) "706")
  then
    id ← py_item stop "id";
    seq ← py_item stop "seq";
    Ok (RouteInfo_Stop
          [("stop_id", id); ("seq", seq);
           ("name", VDict [("en", VStr "TSW Circular");
                           ("tc", VStr "天水圍循環綫")])])
  else Ok stop.

(** [Route.stop_type]. *)
Definition Route_stop_type (self : Route) : res StopType :=
  o ← Route_origin self;
  oid ← py_item o "id";
  if py_eq oid (VStr (RouteQuery.stop_id (entry self))) then Ok ORIG
  else
    d ← Route_destination self;
    did ← py_item d "id";
    if py_eq did (VStr (RouteQuery.stop_id (entry self))) then Ok DEST
    else Ok STOP.

(** [d[locale]] for a name dictionary keyed by locale. *)
Definition locale_item (names : pyval) (l : Locale) : res pyval :=
  py_item names (Locale_value l).

(** [Route.stop_name]. *)
Definition Route_stop_name (self : Route) : res pyval :=
  stop ← Route_stop_details self (RouteQuery.stop_id (entry self));
  names ← py_item stop "name";
  locale_item names (RouteQuery.locale (entry self)).

(** [Route.orig_name]. *)
Definition Route_orig_name (self : Route) : res pyval :=
  o ← Route_origin self;
  names ← py_item o "name";
  locale_item names (RouteQuery.locale (entry self)).

(** [Route.dest_name]. *)
Definition Route_dest_name (self : Route) : res pyval :=
  d ← Route_destination self;
  names ← py_item d "name";
  locale_item names (RouteQuery.locale (entry self)).

(** [Route.logo]. *)
Definition Route_logo (self : Route) : res pyval := logo (provider self).

(** ** eta_processor.py *)

(** [EtaProcessor._em]. *)
Definition _em (self : Route) (code : string) : res string :=
  let l := RouteQuery.locale (entry self) in
  if String.eqb code "api-error" then
    Ok (match l with EN => "API Error" | TC => "API 錯誤" end)
  else if String.eqb code "empty" then
    Ok (match l with EN => "No Data" | TC => "沒有預報" end)
  else if String.eqb code "eos" then
    Ok (match l with EN => "Not in Service" | TC => "服務時間已過" end)
  else if String.eqb code "ss-effect" then
    Ok (match l with
        | EN => "Special Service in Effect" | TC => "特別車務安排" end)
  else Raise (KeyError code).

(** [EtaProcessor._g_eta].  [class_time] is the reading of the clock taken
    when models.py was imported (the default of [Eta.timestamp]). *)
Definition _g_eta (class_time : datetime) (self : Route) (etas : pyval)
  : M pyval :=
  origin ← lift (Route_orig_name self);
  destination ← lift (Route_dest_name self);
  stop_name ← lift (Route_stop_name self);
  logo ← lift (Route_logo self);
  now ← datetime_now;
  lift (Eta class_time
          [("no", VStr (RouteQuery.no (entry self)));
           ("origin", origin);
           ("destination", destination);
           ("stop_name", stop_name);
           ("locale", VStr (Locale_value (RouteQuery.locale (entry self))));
           ("logo", logo);
           ("etas", etas);
           ("timestamp", VDatetime (replace_tzinfo now (Some HKT)))]).

(** [self._g_eta(Eta.Error(message=self._em(code)))]. *)
Definition error_eta (class_time : datetime) (self : Route) (code : string)
  : M pyval :=
  msg ← lift (_em self code);
  e ← lift (Eta_Error [("message", VStr msg)]);
  _g_eta class_time self e.

(** [self._g_eta(Eta.Error(message=v))] for a message taken from the
    response. *)
Definition message_eta (class_time : datetime) (self : Route) (v : pyval)
  : M pyval :=
  e ← lift (Eta_Error [("message", v)]);
  _g_eta class_time self e.

(** [a - b] on two [datetime] values. *)
Definition py_datetime_sub (a b : datetime) : res timedelta :=
  of_option TypeError (datetime_sub a b).

(** *** [KmbEta] *)

Definition KmbEta_locale_map (l : Locale) : string :=
  match l with TC => "tc" | EN => "en" end.

Definition final_bus_remark : string :=
  "The final bus has departed from this stop".

(** The test at the head of the loop body: [True] when the entry is
    skipped. *)
Definition KmbEta_skips (self : Route) (stop : pyval) : res bool :=
  seq ← py_item stop "seq";
  mine ← Route_stop_seq self;
  if negb (py_eq seq (VInt mine)) then Ok true
  else
    dir ← py_item stop "dir";
    d0 ← str_first (Direction_value (RouteQuery.direction (entry self)));
    Ok (negb (py_eq dir (VStr (str_upper d0)))).

(** The [Eta.Time] built for an entry that carries an [eta]. *)
Definition KmbEta_time (timestamp : datetime) (locale : string)
  (stop eta : pyval) : res pyval :=
  eta_dt ← py_fromisoformat eta;
  destination ← py_item stop ("dest_" ++ locale);
  td ← py_datetime_sub eta_dt timestamp;
  rmk ← py_get stop ("rmk_" ++ locale) VNone;
  td' ← py_datetime_sub eta_dt timestamp;
  remark ← py_item stop ("rmk_" ++ locale);
  Eta_Time
    [("destination", destination);
     ("is_arriving", VBool (total_seconds_lt td 30));
     ("is_scheduled",
       VBool (py_eq rmk (VStr "原定班次") || py_eq rmk (VStr "Scheduled Bus")));
     ("eta", VStr (_8601str eta_dt));
     ("eta_minute", VInt (total_minutes_int td'));
     ("remark", remark)].

(** The [for stop in response['data']] loop of [KmbEta.etas], with the
    entries collected so far in [etas]. *)
Fixpoint KmbEta_loop (class_time : datetime) (self : Route)
  (timestamp : datetime) (locale : string) (data : list pyval)
  (etas : list pyval) : M pyval :=
  match data with
  | [] => _g_eta class_time self (VList etas)
  | stop :: rest =>
      skip ← lift (KmbEta_skips self stop);
      if skip : bool then
        KmbEta_loop class_time self timestamp locale rest etas
      else
        eta ← lift (py_item stop "eta");
        if is_None eta then
          rmk_en ← lift (py_item stop "rmk_en");
          if py_eq rmk_en (VStr final_bus_remark) then
            error_eta class_time self "eos"
          else if py_eq rmk_en (VStr "") then
            error_eta class_time self "empty"
          else
            rmk ← lift (py_item stop ("rmk_" ++ locale));
            message_eta class_time self rmk
        else
          t ← lift (KmbEta_time timestamp locale stop eta);
          let etas' := (etas ++ [t])%list in
          if Nat.eqb (List.length etas') 3 then
            _g_eta class_time self (VList etas')
          else KmbEta_loop class_time self timestamp locale rest etas'
  end.

(** [KmbEta.etas]; [response] is what [api.kmb_eta] returned or raised. *)
Definition KmbEta_etas (class_time : datetime) (self : Route)
  (response : res pyval) : M pyval :=
  response ← lift response;
  n ← lift (py_len response);
  if n =? 0 then error_eta class_time self "api-error"
  else
    data ← lift (py_get response "data" VNone);
    if is_None data then error_eta class_time self "empty"
    else
      ts ← lift (py_item response "generated_timestamp");
      timestamp ← lift (py_fromisoformat ts);
      let locale := KmbEta_locale_map (RouteQuery.locale (entry self)) in
      data ← lift (py_item response "data");
      l ← lift (py_iter data);
      KmbEta_loop class_time self timestamp locale l [].

(** *** [MtrLrtEta] *)

Definition MtrLrtEta_locale_map (l : Locale) : string :=
  match l with TC => "ch" | EN => "en" end.

(** [s.split(" ")[0]]: the text before the first space. *)
Fixpoint str_before_space (s : string) : string :=
  match s with
  | EmptyString => EmptyString
  | String c r =>
      if Ascii.eqb c " "%char then EmptyString
      else String c (str_before_space r)
  end.

Definition py_split_first (v : pyval) : res string :=
  match v with
  | VStr s => Ok (str_before_space s)
  | _ => Raise (AttributeError "split")
  end.

(** [s.isnumeric()], on ASCII text: at least one character, all digits. *)
Definition str_isnumeric (s : string) : bool :=
  match s with
  | EmptyString => false
  | _ => match read_decimal 0 s with Some _ => true | None => false end
  end.

(** [str(v)] for the scalars; the text of a container, of bytes, of a
    [datetime] or of an object is outside the model and reported as an
    error. *)
Definition py_str (v : pyval) : res string :=
  match v with
  | VNone => Ok "None"
  | VBool b => Ok (if b then "True" else "False")
  | VInt z => Ok (NilZero.string_of_int (Z.to_int z))
  | VStr s => Ok s
  | _ => Raise TypeError
  end.

(** [all(platform.get("end_service_status", False) for platform in l)]. *)
Fixpoint all_end_service (l : list pyval) : res bool :=
  match l with
  | [] => Ok true
  | platform :: rest =>
      v ← py_get platform "end_service_status" (VBool false);
      if py_truthy v then all_end_service rest else Ok false
  end.

(** The body of the inner loop of [MtrLrtEta.etas]: [acc] holds [etas] and
    [cnt_stopped]. *)
Definition MtrLrtEta_entry (self : Route) (timestamp : datetime)
  (lang_code : string) (platform eta : pyval) (acc : list pyval * Z)
  : res (list pyval * Z) :=
  destination ← py_get eta ("dest_" ++ lang_code) VNone;
  route_no ← py_item eta "route_no";
  if negb (py_eq route_no (VStr (RouteQuery.no (entry self)))) then Ok acc
  else
    stopped ← py_get eta "stop" VNone;
    if py_eq stopped (VInt 1) then Ok (fst acc, snd acc + 1)
    else
      d ← Route_destination self;
      names ← py_item d "name";
      mine ← py_get names (Locale_value (RouteQuery.locale (entry self)))
                    VNone;
      if negb (py_eq destination mine) then Ok acc
      else
        time ← py_item eta ("time_" ++ lang_code);
        eta_min ← py_split_first time;
        if str_isnumeric eta_min then
          minutes ← of_option ValueError (int_of_string eta_min);
          platform_id ← py_item platform "platform_id";
          platform_str ← py_str platform_id;
          car_length ← py_item eta "train_length";
          t ← Eta_Time
                [("destination", destination);
                 ("is_arriving", VBool false);
                 ("is_scheduled", VBool false);
                 ("eta",
                   VStr (_8601str
                           (datetime_add_seconds timestamp (minutes * 60))));
                 ("eta_minute", VInt minutes);
                 ("extras", VDict [("platform", VStr platform_str);
                                   ("car_length", car_length)])];
          Ok ((fst acc ++ [t])%list, snd acc)
        else
          platform_id ← py_item platform "platform_id";
          platform_str ← py_str platform_id;
          car_length ← py_item eta "train_length";
          t ← Eta_Time
                [("destination", destination);
                 ("is_arriving", VBool true);
                 ("is_scheduled", VBool false);
                 ("eta", VStr (_8601str timestamp));
                 ("eta_minute", VInt 0);
                 ("remark", VStr eta_min);
                 ("extras", VDict [("platform", VStr platform_str);
                                   ("car_length", car_length)])];
          Ok ((fst acc ++ [t])%list, snd acc).

(** [for eta in platform.get("route_list", [])]. *)
Fixpoint MtrLrtEta_platform (self : Route) (timestamp : datetime)
  (lang_code : string) (platform : pyval) (etas : list pyval)
  (acc : list pyval * Z) : res (list pyval * Z) :=
  match etas with
  | [] => Ok acc
  | eta :: rest =>
      acc' ← MtrLrtEta_entry self timestamp lang_code platform eta acc;
      MtrLrtEta_platform self timestamp lang_code platform rest acc'
  end.

(** [for platform in response['platform_list']]. *)
Fixpoint MtrLrtEta_loop (self : Route) (timestamp : datetime)
  (lang_code : string) (platforms : list pyval) (acc : list pyval * Z)
  : res (list pyval * Z) :=
  match platforms with
  | [] => Ok acc
  | platform :: rest =>
      rl ← py_get platform "route_list" (VList []);
      etas ← py_iter rl;
      acc' ← MtrLrtEta_platform self timestamp lang_code platform etas acc;
      MtrLrtEta_loop self timestamp lang_code rest acc'
  end.

(** [MtrLrtEta.etas]; [response] is what [api.mtr_lrt_eta] returned or
    raised and [local] the UTC offset of the system's zone.  A Python
    function that runs off its end returns [None]. *)
Definition MtrLrtEta_etas (class_time : datetime) (local : Z) (self : Route)
  (response : res pyval) : M pyval :=
  response ← lift response;
  n ← lift (py_len response);
  status ← lift (if n =? 0 then Ok VNone else py_get response "status" (VInt 0));
  if (n =? 0) || py_eq status (VInt 0) then
    error_eta class_time self "api-error"
  else
    pl ← lift (py_item response "platform_list");
    platforms ← lift (py_iter pl);
    ended ← lift (all_end_service platforms);
    if ended : bool then error_eta class_time self "eos"
    else
      st ← lift (py_item response "system_time");
      parsed ← lift (py_fromisoformat st);
      let timestamp := astimezone local parsed HKT in
      let lang_code :=
        MtrLrtEta_locale_map (RouteQuery.locale (entry self)) in
      pl ← lift (py_item response "platform_list");
      platforms ← lift (py_iter pl);
      '(etas, cnt_stopped) ←
        lift (MtrLrtEta_loop self timestamp lang_code platforms ([], 0));
      if (0 <? Z.of_nat (List.length etas)) then
        _g_eta class_time self (VList etas)
      else
        known ← lift (py_has_key response "red_alert_status");
        if known : bool then
          msg ← lift (py_item response ("red_alert_message_" ++ lang_code));
          message_eta class_time self msg
        else if 0 <? cnt_stopped then error_eta class_time self "eos"
        else mret VNone.

(** ** Notions the properties are stated with *)

(** The routes [Route.destination] treats as circular: light-rail routes
    705 and 706. *)
Definition is_circular_lrt (self : Route) : bool :=
  Company_eqb (RouteQuery.transport (entry self)) MTRLRT
  && (String.eqb (RouteQuery.no (entry self)) "705"
      || String.eqb (RouteQuery.no (entry self)) "706").

(** [int(stop["seq"])], the sequence number of a stop. *)
Definition stop_seq_of (stop : pyval) : res Z :=
  seq ← py_item stop "seq";
  py_int seq.

(** [stop["name"][locale]], the name of a stop. *)
Definition stop_name_of (stop : pyval) (l : Locale) : res pyval :=
  names ← py_item stop "name";
  locale_item names l.

(** The data-model invariant of a bound: the stops come in strictly
    ascending sequence order. *)
Fixpoint ascending_seq (stops : list pyval) : bool :=
  match stops with
  | [] => true
  | s :: r =>
      match r with
      | [] => true
      | t :: _ =>
          match stop_seq_of s, stop_seq_of t with
          | Ok a, Ok b => (a <? b) && ascending_seq r
          | _, _ => false
          end
      end
  end.

(** [s] comes before [d] in sequence. *)
Definition seq_lt (s d : pyval) : Prop :=
  exists a b, stop_seq_of s = Ok a /\ stop_seq_of d = Ok b /\ a < b.

(** ** Sample data used by the examples *)

Definition eal_query : RouteQuery.t :=
  RouteQuery.mk MTRTRAIN "EAL" OUTBOUND "MKK" "default" EN.

Definition eal_route (t : Transport) : Route :=
  mkRoute eal_query t
    [(VStr "ADM", VDict [("id", VStr "ADM"); ("seq", VInt 1);
                         ("name", locale_names "金鐘" "Admiralty")]);
     (VStr "MKK", VDict [("id", VStr "MKK"); ("seq", VInt 5);
                         ("name", locale_names "旺角東" "Mong Kok East")])].

Definition sample_time_kwargs : list (string * pyval) :=
  [("destination", VStr "Chuk Yuen Estate");
   ("is_arriving", VBool false);
   ("is_scheduled", VBool false);
   ("eta", VStr "2024-03-01T00:06:00+08:00");
   ("eta_minute", VInt 6);
   ("remark", VStr "")].


Definition stop_dict (id : string) (seq : Z) (tc en : string) : pyval :=
  VDict [("id", VStr id); ("seq", VInt seq); ("name", locale_names tc en)].

Definition sample_transport (p : Provider) : Transport :=
  mkTransport p "/data" 30
    (fun _ => Raise TransportError)
    (fun _ _ _ _ => Raise TransportError)
    (fun _ _ => Raise TransportError)
    (Ok (VBytes "BM")).

(** The stop dictionary [Route.__init__] builds from a stop list. *)
Definition stops_indexed (stops : list pyval) : list (pyval * pyval) :=
  match index_stops stops [] with
  | Ok d => d
  | Raise _ => []
  end.

(** Light-rail route 705 (Tin Shui Wai circular), queried at its first stop
    and at a later one. *)
Definition tsw_stops : list pyval :=
  [ stop_dict "430" 1 "天水圍" "Tin Shui Wai";
    stop_dict "435" 2 "天慈" "Tin Tsz";
    stop_dict "445" 3 "天湖" "Tin Wu" ].

Definition tsw_route (stop_id : string) (l : Locale) : Route :=
  mkRoute (RouteQuery.mk MTRLRT "705" OUTBOUND stop_id "default" l)
          (sample_transport MTRLightRail)
          (stops_indexed tsw_stops).

(** KMB route 1, outbound, queried at its fifth stop. *)
Definition kmb1_stops : list pyval :=
  [ stop_dict "S1" 1 "尖沙咀碼頭" "Star Ferry";
    stop_dict "S5" 5 "康強苑" "Hong Keung Court";
    stop_dict "S9" 9 "竹園邨" "Chuk Yuen Estate" ].

Definition kmb1_route (l : Locale) : Route :=
  mkRoute (RouteQuery.mk KMB "1" OUTBOUND "S5" "1" l)
          (sample_transport KowloonMotorBus)
          (stops_indexed kmb1_stops).

(** Light-rail route 610 queried at Fung Nin Road, and a schedule response
    for that stop. *)
Definition lrt610_stops : list pyval :=
  [ stop_dict "560" 1 "元朗" "Yuen Long";
    stop_dict "550" 5 "豐年路" "Fung Nin Road";
    stop_dict "001" 9 "屯門碼頭" "Tuen Mun Ferry Pier" ].

Definition lrt610_route : Route :=
  mkRoute (RouteQuery.mk MTRLRT "610" OUTBOUND "550" "default" EN)
          (sample_transport MTRLightRail)
          (stops_indexed lrt610_stops).

Definition lrt_train (route_no dest time : string) : pyval :=
  VDict [("route_no", VStr route_no); ("dest_en", VStr dest);
         ("dest_ch", VStr "屯門碼頭"); ("time_en", VStr time);
         ("time_ch", VStr "-"); ("train_length", VInt 2)].

Definition lrt_response (trains : list pyval) : pyval :=
  VDict [("status", VInt 1);
         ("system_time", VStr "2024-03-01 07:30:00");
         ("platform_list",
           VList [VDict [("platform_id", VInt 1);
                         ("route_list", VList trains)]])].

Definition sample_clock (n : nat) : datetime :=
  mkdt 2024 3 1 7 30 (Z.of_nat n) 250000 None.

Definition sample_state : State :=
  mkState sample_clock 0 ∅ [] VNone.

(** The query's stop id occurs among the ids of the stops [l]. *)
Definition has_stop (stop_id : string) (l : list pyval) : Prop :=
  exists s, In s l /\ py_item s "id" = Ok (VStr stop_id).

(** Every stop of [l] has an id a dictionary can be keyed by. *)
Definition stops_have_ids (l : list pyval) : Prop :=
  Forall (fun s => exists k, py_item s "id" = Ok k /\ py_hashable k = true) l.

(** The stop [stop] has the id [s]. *)
Definition id_is (s : string) (stop : pyval) : bool :=
  match py_item stop "id" with
  | Ok k => py_eq (VStr s) k
  | Raise _ => false
  end.


(** A KMB provider whose servers know route 1 and its three stops. *)
Definition kmb_bound : pyval :=
  VDict [("route_id", VStr "1_outbound_1"); ("service_type", VStr "1");
         ("orig", stop_dict "S1" 1 "尖沙咀碼頭" "Star Ferry");
         ("dest", stop_dict "S9" 9 "竹園邨" "Chuk Yuen Estate")].

Definition kmb_routes : pyval :=
  VDict [("1", VDict [("inbound", VList []);
                      ("outbound", VList [kmb_bound])])].

Definition kmb_transport : Transport :=
  mkTransport KowloonMotorBus "/data" 30
    (fun _ => Ok kmb_routes)
    (fun no _ _ _ =>
       if String.eqb no "1" then Ok kmb1_stops else Raise (RouteError no))
    (fun _ _ => Raise TransportError)
    (Ok (VBytes "BM")).

Definition kmb1_query (stop_id : string) : RouteQuery.t :=
  RouteQuery.mk KMB "1" OUTBOUND stop_id "1" EN.

(** *** Notions for the KMB processor *)

(** The loop of [KmbEta.etas] does not skip the entry. *)
Definition kmb_matches (self : Route) (stop : pyval) : bool :=
  match KmbEta_skips self stop with
  | Ok false => true
  | _ => false
  end.

(** The entry is for the route's stop sequence and for the first letter,
    in upper case, of the queried direction. *)
Definition kmb_same_stop (self : Route) (stop : pyval) : Prop :=
  exists seq mine dir,
    py_item stop "seq" = Ok seq
    /\ Route_stop_seq self = Ok mine
    /\ py_eq seq (VInt mine) = true
    /\ py_item stop "dir" = Ok dir
    /\ py_eq dir (VStr (match RouteQuery.direction (entry self) with
                        | OUTBOUND => "O"
                        | INBOUND => "I"
                        end)) = true.

(** A KMB response: a non-empty object whose [data] is the list [data] and
    whose [generated_timestamp] reads as [timestamp]. *)
Definition kmb_response (response : pyval) (timestamp : datetime)
  (data : list pyval) : Prop :=
  exists d ts,
    response = VDict d
    /\ sget "data" d = Some (VList data)
    /\ sget "generated_timestamp" d = Some (VStr ts)
    /\ fromisoformat ts = Some timestamp.

(** The loop turns the entry [stop] into the time entry [t]. *)
Definition kmb_timed (self : Route) (timestamp : datetime) (stop t : pyval)
  : Prop :=
  KmbEta_skips self stop = Ok false
  /\ exists eta,
      py_item stop "eta" = Ok eta
      /\ is_None eta = false
      /\ KmbEta_time timestamp
           (KmbEta_locale_map (RouteQuery.locale (entry self))) stop eta
         = Ok t.

(** The loop passes over the entry: it skips it or appends a time entry. *)
Definition kmb_passes (self : Route) (timestamp : datetime) (stop : pyval)
  : Prop :=
  KmbEta_skips self stop = Ok true
  \/ exists t, kmb_timed self timestamp stop t.

(** The route can be rendered: its origin, destination and stop have names
    in the query's locale and the provider's logo can be read. *)
Definition renderable (self : Route) : Prop :=
  exists o d s lg,
    Route_orig_name self = Ok (VStr o)
    /\ Route_dest_name self = Ok (VStr d)
    /\ Route_stop_name self = Ok (VStr s)
    /\ Route_logo self = Ok lg
    /\ (lg = VNone \/ exists b, lg = VBytes b).

(** The error payload with the message [msg]. *)
Definition error_payload (msg : string) : pyval :=
  VObj "Eta.Error" [("message", VStr msg)].

(** What [time entry] says about the upstream entry it was built from:
    [is_arriving] holds exactly when the arrival is less than 30 seconds
    after the response was generated, the remark is the entry's remark in
    the query's locale and [eta] is the entry's time to the second. *)
Definition kmb_entry_of (self : Route) (timestamp : datetime)
  (stop t : pyval) : Prop :=
  kmb_same_stop self stop
  /\ exists eta_s eta_dt td remark arriving,
      py_item stop "eta" = Ok (VStr eta_s)
      /\ fromisoformat eta_s = Some eta_dt
      /\ datetime_sub eta_dt timestamp = Some td
      /\ py_item stop
           ("rmk_" ++ KmbEta_locale_map (RouteQuery.locale (entry self)))
         = Ok remark
      /\ py_getattr t "is_arriving" = Ok (VBool arriving)
      /\ (arriving = true <-> td < 30 * us_per_second)
      /\ py_getattr t "remark" = Ok remark
      /\ py_getattr t "eta"
         = of_option (ValidationError "eta")
                     (as_datetime (VStr (_8601str eta_dt))).

(** An upstream KMB entry for stop sequence 5, outbound. *)
Definition kmb_entry (eta : pyval) (rmk_en rmk_tc : string) : pyval :=
  VDict [("co", VStr "KMB"); ("route", VStr "1"); ("dir", VStr "O");
         ("service_type", VInt 1); ("seq", VInt 5);
         ("dest_tc", VStr "竹園邨"); ("dest_en", VStr "Chuk Yuen Estate");
         ("eta", eta); ("rmk_tc", VStr rmk_tc); ("rmk_en", VStr rmk_en)].

Definition kmb_reply (data : list pyval) : pyval :=
  VDict [("type", VStr "RouteETA");
         ("generated_timestamp", VStr "2024-03-01T07:30:00+08:00");
         ("data", VList data)].

Definition kmb_generated : datetime :=
  mkdt 2024 3 1 7 30 0 0 (Some HKT).

(** Three buses 6, 15 and 23 minutes out, the first one delayed. *)
Definition kmb_fixture : list pyval :=
  [ kmb_entry (VStr "2024-03-01T07:36:00+08:00") "Delayed journey" "行車受阻";
    kmb_entry (VStr "2024-03-01T07:45:00+08:00") "" "";
    kmb_entry (VStr "2024-03-01T07:53:00+08:00") "" "" ].

(** The entry KMB sends once the last bus has left. *)
Definition kmb_final_entry : pyval :=
  kmb_entry VNone final_bus_remark "尾班車已過本站".

(** The end-of-service message of [_em]. *)
Definition not_in_service (l : Locale) : string :=
  match l with EN => "Not in Service" | TC => "服務時間已過" end.

(** *** Notions for the catalog files *)


(** A value as JSON gives it back: tuples have become lists. *)
Fixpoint listify (v : pyval) : pyval :=
  match v with
  | VList l | VTuple l => VList (map listify l)
  | VDict d => VDict (map (fun kx => (fst kx, listify (snd kx))) d)
  | _ => v
  end.

Fixpoint distinct (keys : list string) : bool :=
  match keys with
  | [] => true
  | k :: r => negb (existsb (String.eqb k) r) && distinct r
  end.

(** Values [json.dump] accepts: [None], booleans, integers, strings, and
    lists, tuples and dictionaries of such values (a dictionary has each
    key once). *)
Fixpoint json_serialisable (v : pyval) : bool :=
  match v with
  | VNone | VBool _ | VInt _ | VStr _ => true
  | VList l | VTuple l => forallb json_serialisable l
  | VDict d =>
      distinct (dict_keys d)
      && forallb (fun kx => json_serialisable (snd kx)) d
  | _ => false
  end.

(** Values without a tuple inside. *)
Fixpoint tuple_free (v : pyval) : bool :=
  match v with
  | VList l => forallb tuple_free l
  | VTuple _ => false
  | VDict d => forallb (fun kx => tuple_free (snd kx)) d
  | VObj _ fs => forallb (fun kx => tuple_free (snd kx)) fs
  | _ => true
  end.

(** Induction over values, with the elements of a container as induction
    hypotheses. *)
Section PyvalInduction.
Variable P : pyval -> Prop.
Hypothesis HNone : P VNone.
Hypothesis HBool : forall b, P (VBool b).
Hypothesis HInt : forall z, P (VInt z).
Hypothesis HStr : forall s, P (VStr s).
Hypothesis HBytes : forall s, P (VBytes s).
Hypothesis HDatetime : forall d, P (VDatetime d).
Hypothesis HList : forall l, List.Forall P l -> P (VList l).
Hypothesis HTuple : forall l, List.Forall P l -> P (VTuple l).
Hypothesis HDict :
  forall d, List.Forall (fun kv => P (snd kv)) d -> P (VDict d).
Hypothesis HObj :
  forall c fs, List.Forall (fun kv => P (snd kv)) fs -> P (VObj c fs).

Fixpoint pyval_induction (v : pyval) : P v :=
  let fix seq (l : list pyval) : List.Forall P l :=
    match l with
    | [] => @List.Forall_nil _ P
    | x :: r => @List.Forall_cons _ P x r (pyval_induction x) (seq r)
    end in
  let fix members (d : list (string * pyval))
    : List.Forall (fun kv => P (snd kv)) d :=
    match d with
    | [] => @List.Forall_nil _ (fun kv => P (snd kv))
    | (k, x) :: r =>
        @List.Forall_cons _ (fun kv => P (snd kv)) (k, x) r
                          (pyval_induction x) (members r)
    end in
  match v with
  | VNone => HNone
  | VBool b => HBool b
  | VInt z => HInt z
  | VStr s => HStr s
  | VBytes s => HBytes s
  | VDatetime d => HDatetime d
  | VList l => HList l (seq l)
  | VTuple l => HTuple l (seq l)
  | VDict d => HDict d (members d)
  | VObj c fs => HObj c fs (members fs)
  end.
End PyvalInduction.

(** *** Notions for the staleness rule *)

(** [a - b] for two naive values. *)
Definition naive_sub (a b : datetime) : timedelta :=
  timedelta_of (toordinal a - toordinal b)
               (day_seconds a - day_seconds b)
               (microsecond a - microsecond b).

(** [(now - lastupd).days]: the age of a record in whole days. *)
Definition whole_days (now lastupd : datetime) : Z :=
  timedelta_days (naive_sub now lastupd).

(** [datetime.now()] returns naive values. *)
Definition naive_clock (st : State) : Prop :=
  forall n, tzinfo (clock st n) = None.

(** [record] is a catalog record last updated at [lastupd] and holding
    [data]. *)
Definition cache_record (record : pyval) (lastupd : datetime)
  (data : pyval) : Prop :=
  exists d lu,
    record = VDict d
    /\ sget "last_update" d = Some (VStr lu)
    /\ fromisoformat lu = Some lastupd
    /\ tzinfo lastupd = None
    /\ sget "data" d = Some data.

(** The record [_append_timestamp] builds at the clock reading [now]. *)
Definition wrapper (now : datetime) (data : pyval) : pyval :=
  VDict [("last_update", VStr (isoformat_seconds now)); ("data", data)].

(** The state after one reading of the clock. *)
Definition tick (st : State) : State :=
  mkState (clock st) (S (ticks st)) (fs st) (fetched st) (_routes st).

(** The path of a stop list file. *)
Definition stop_list_path (self : Transport) (route_no : string)
  (direction : Direction) (service_type : string) : string :=
  path_join (stops_list_dir self)
            (stop_list_fname route_no direction service_type).



(** The cached record of the route list, memoised or still on disk. *)
Definition route_list_cached (self : Transport) (st : State)
  (record : pyval) : Prop :=
  _routes st = record
  \/ (_routes st = VNone
      /\ exists j, fs st !! route_list_path self = Some (Doc j)
                   /\ json_load j = record).

(** States for the examples: the route list memoised [days] days and
    [hours] hours before the first reading of [sample_clock]. *)
Definition memo_time (day hour : Z) : datetime :=
  mkdt 2024 1 day hour 30 0 0 None.

Definition memo_state (day hour : Z) : State :=
  mkState sample_clock 0 ∅ []
          (wrapper (memo_time day hour) kmb_routes).

(** * More of the package

    The rest of route.py and eta_processor.py, the concrete fetchers of
    transport.py that read the operator's CSV files, factories.py, and the
    callers in utils.py and refresher.py. *)

(** ** route.py, continued *)

(** [self.provider.route_list()[self.entry.no][self.entry.direction.value]],
    the expression [Route.id] evaluates twice. *)
Definition Route_bounds (self : Route) : M pyval :=
  routes ← route_list (provider self);
  info ← lift (py_item routes (RouteQuery.no (entry self)));
  lift (py_item info (Direction_value (RouteQuery.direction (entry self)))).

(** The [for service in ...] loop of [Route.id]. *)
Fixpoint Route_id_loop (self : Route) (services : list pyval) : M pyval :=
  match services with
  | [] => raise (ServiceTypeNotExist (RouteQuery.service_type (entry self)))
  | service :: rest =>
      st ← lift (py_item service "service_type");
      if py_eq st (VStr (RouteQuery.service_type (entry self))) then
        bounds ← Route_bounds self;
        lift (py_item bounds "route_id")
      else Route_id_loop self rest
  end.

(** [Route.id]. *)
Definition Route_id (self : Route) : M pyval :=
  bounds ← Route_bounds self;
  services ← lift (py_iter bounds);
  Route_id_loop self services.

(** [Route.comanpy]. *)
Definition Route_comanpy (self : Route) : Company :=
  transport (provider self).

(** ** eta_processor.py, continued *)

(** *** [NlbEta] *)

Definition NlbEta_lang_map (l : Locale) : string :=
  match l with TC => "zh" | EN => "en" end.

(** The [Eta.Time] built for one estimated arrival. *)
Definition NlbEta_time (self : Route) (timestamp : datetime) (local : Z)
  (eta : pyval) : res pyval :=
  at_ ← py_item eta "estimatedArrivalTime";
  parsed ← py_fromisoformat at_;
  let eta_dt := astimezone local parsed HKT in
  d ← Route_destination self;
  names ← py_getattr d "name";
  destination ← py_get names (Locale_value (RouteQuery.locale (entry self)))
                       VNone;
  td ← py_datetime_sub eta_dt timestamp;
  departed ← py_get eta "departed" VNone;
  noGPS ← (if py_eq departed (VStr "1") then py_get eta "noGPS" VNone
           else Ok VNone);
  td' ← py_datetime_sub eta_dt timestamp;
  variant ← py_get eta "routeVariantName" VNone;
  Eta_Time
    [("destination", destination);
     ("is_arriving", VBool (total_seconds_lt td 60));
     ("is_scheduled",
       VBool (negb (py_eq departed (VStr "1") && py_eq noGPS (VStr "1"))));
     ("eta", VStr (_8601str eta_dt));
     ("eta_minute", VInt (total_minutes_int td'));
     ("extras", VDict [("route_variant", variant)])].

(** [NlbEta.etas]; [api] is [api.nlb_eta] as a function of the route id. *)
Definition NlbEta_etas (class_time : datetime) (local : Z) (self : Route)
  (api : pyval -> res pyval) : M pyval :=
  route_id ← Route_id self;
  response ← lift (api route_id);
  n ← lift (py_len response);
  if n =? 0 then error_eta class_time self "api-error"
  else
    arrivals ← lift (py_get response "estimatedArrivals" (VList []));
    if negb (py_truthy arrivals) then error_eta class_time self "empty"
    else
      now ← datetime_now;
      let timestamp := replace_tzinfo now (Some HKT) in
      arrivals ← lift (py_item response "estimatedArrivals");
      l ← lift (py_iter arrivals);
      etas ← lift (res_map (NlbEta_time self timestamp local) l);
      _g_eta class_time self (VList etas).

(** *** Notions for the further properties *)

(** The route list is memoised and not stale at the next [n] readings of
    the clock: the next [n] reads are served from memory. *)
Definition routes_memoised (self : Transport) (st : State) (routes : pyval)
  (n : nat) : Prop :=
  naive_clock st
  /\ exists lastupd,
      cache_record (_routes st) lastupd routes
      /\ forall k, (k < n)%nat ->
           whole_days (clock st (ticks st + k)) lastupd <= threshold self.

(** [n] readings of the clock. *)
Fixpoint ticks_by (n : nat) (st : State) : State :=
  match n with
  | O => st
  | S k => ticks_by k (tick st)
  end.

(** The service [s] of a bound list is of the service type [svc]. *)
Definition service_is (svc : string) (s : pyval) : bool :=
  match py_item s "service_type" with
  | Ok v => py_eq v (VStr svc)
  | Raise _ => false
  end.

(** A New Lantao Bus route list with route 11, memoised a week before the
    first reading of [sample_clock]. *)
Definition nlb_bound : pyval :=
  VDict [("service_type", VStr "1"); ("route_id", VStr "37");
         ("orig", stop_dict "101" 1 "東涌市中心" "Tung Chung Town Centre");
         ("dest", stop_dict "155" 30 "大澳" "Tai O")].

Definition nlb_routes : pyval :=
  VDict [("11", VDict [("outbound", VList [nlb_bound]);
                       ("inbound", VList [])])].

Definition nlb_state : State :=
  mkState sample_clock 0 ∅ []
          (wrapper (mkdt 2024 2 23 9 0 0 0 None) nlb_routes).

Definition nlb_route (service_type : string) : Route :=
  mkRoute (RouteQuery.mk NLB "11" OUTBOUND "101" service_type EN)
          (sample_transport NewLantaoBus)
          (stops_indexed
             [stop_dict "101" 1 "東涌市中心" "Tung Chung Town Centre";
              stop_dict "155" 30 "大澳" "Tai O"]).

(** The messages of [_em]. *)
Definition api_error_message (l : Locale) : string :=
  match l with EN => "API Error" | TC => "API 錯誤" end.

Definition no_data_message (l : Locale) : string :=
  match l with EN => "No Data" | TC => "沒有預報" end.

(** The unified ETA [eta] carries the error message [msg]. *)
Definition is_error_eta (r : res pyval * State) (msg : string) : Prop :=
  exists eta st',
    r = (Ok eta, st')
    /\ py_getattr eta "etas" = Ok (error_payload msg).

(** *** Notions for the stop dictionary of a route *)

(** The ids of the stops, when each stop has a string for its id. *)
Fixpoint stop_ids (stops : list pyval) : option (list string) :=
  match stops with
  | [] => Some []
  | stop :: rest =>
      match py_item stop "id", stop_ids rest with
      | Ok (VStr id), Some ids => Some (id :: ids)
      | _, _ => None
      end
  end.

(** The last stop of [stops] with the id [id]. *)
Definition last_with_id (id : string) (stops : list pyval) : option pyval :=
  find (id_is id) (rev stops).

(** A bus route whose terminus is listed twice, as its first and as its
    last stop. *)
Definition loop_stops : list pyval :=
  [ stop_dict "T1" 1 "總站" "Terminus";
    stop_dict "S2" 2 "街市" "Market";
    stop_dict "T1" 3 "總站" "Terminus" ].

(** The query is for one of the routes [Route.destination] treats as
    circular. *)
Definition circular_query (entry : RouteQuery.t) : bool :=
  Company_eqb (RouteQuery.transport entry) MTRLRT
  && (String.eqb (RouteQuery.no entry) "705"
      || String.eqb (RouteQuery.no entry) "706").

(** The position of the queried stop among the stops [first :: rest]. *)
Definition position_type (stop_id : string) (first : pyval)
  (rest : list pyval) : StopType :=
  if id_is stop_id first then ORIG
  else if id_is stop_id (List.last rest first) then DEST
  else STOP.

(** ** eta_processor.py: [BravoBusEta] *)

Definition BravoBusEta_locale_map (l : Locale) : string :=
  match l with TC => "tc" | EN => "en" end.

(** The test at the head of the loop body: [True] when the entry is
    skipped. *)
Definition BravoBusEta_skips (self : Route) (eta : pyval) : res bool :=
  dir ← py_item eta "dir";
  d0 ← str_first (Direction_value (RouteQuery.direction (entry self)));
  Ok (negb (py_eq dir (VStr (str_upper d0)))).

(** The [Eta.Time] appended for an entry of the queried direction. *)
Definition BravoBusEta_entry (timestamp : datetime) (lang_code : string)
  (eta : pyval) : res pyval :=
  e ← py_item eta "eta";
  if py_eq e (VStr "") then
    destination ← py_item eta ("dest_" ++ lang_code);
    remark ← py_item eta ("rmk_" ++ lang_code);
    Eta_Time
      [("destination", destination);
       ("is_arriving", VBool false);
       ("is_scheduled", VBool true);
       ("eta", VNone);
       ("eta_minute", VNone);
       ("remark", remark)]
  else
    e' ← py_item eta "eta";
    eta_dt ← py_fromisoformat e';
    destination ← py_item eta ("dest_" ++ lang_code);
    td ← py_datetime_sub eta_dt timestamp;
    td' ← py_datetime_sub eta_dt timestamp;
    remark ← py_item eta ("rmk_" ++ lang_code);
    Eta_Time
      [("destination", destination);
       ("is_arriving", VBool (total_seconds_lt td 60));
       ("is_scheduled", VBool false);
       ("eta", VStr (_8601str eta_dt));
       ("eta_minute", VInt (total_minutes_int td'));
       ("remark", remark)].

(** The [for eta in response['data']] loop of [BravoBusEta.etas], with the
    entries collected so far in [etas]. *)
Fixpoint BravoBusEta_loop (self : Route) (timestamp : datetime)
  (lang_code : string) (data : list pyval) (etas : list pyval)
  : res (list pyval) :=
  match data with
  | [] => Ok etas
  | eta :: rest =>
      skip ← BravoBusEta_skips self eta;
      if skip : bool then
        BravoBusEta_loop self timestamp lang_code rest etas
      else
        t ← BravoBusEta_entry timestamp lang_code eta;
        BravoBusEta_loop self timestamp lang_code rest (etas ++ [t])%list
  end.

(** [BravoBusEta.etas]; [response] is what [api.bravobus_eta] returned or
    raised. *)
Definition BravoBusEta_etas (class_time : datetime) (self : Route)
  (response : res pyval) : M pyval :=
  response ← lift response;
  n ← lift (py_len response);
  if n =? 0 then error_eta class_time self "api-error"
  else
    data ← lift (py_get response "data" VNone);
    if is_None data then error_eta class_time self "api-error"
    else
      data ← lift (py_item response "data");
      m ← lift (py_len data);
      if m =? 0 then error_eta class_time self "empty"
      else
        ts ← lift (py_item response "generated_timestamp");
        timestamp ← lift (py_fromisoformat ts);
        let lang_code :=
          BravoBusEta_locale_map (RouteQuery.locale (entry self)) in
        data ← lift (py_item response "data");
        l ← lift (py_iter data);
        etas ← lift (BravoBusEta_loop self timestamp lang_code l []);
        _g_eta class_time self (VList etas).

(** *** Notions for the Citybus processor *)




(** A Citybus route and the entries of a response for it. *)
Definition ctb_route (l : Locale) : Route :=
  mkRoute (RouteQuery.mk CTB "1" OUTBOUND "S5" "1" l)
          (sample_transport CityBus)
          (stops_indexed kmb1_stops).



Definition ctb_reply (data : list pyval) : pyval :=
  VDict [("type", VStr "ETA");
         ("generated_timestamp", VStr "2024-03-01T07:30:00+08:00");
         ("data", VList data)].


(** ** eta_processor.py: [MtrTrainEta] *)

(** [s.split("-")[0]]: the text before the first dash. *)
Fixpoint str_before_dash (s : string) : string :=
  match s with
  | EmptyString => EmptyString
  | String c r =>
      if Ascii.eqb c "-"%char then EmptyString
      else String c (str_before_dash r)
  end.

(** [MtrTrainEta._bound_map]. *)
Definition MtrTrainEta_bound_map (d : Direction) : string :=
  match d with INBOUND => "UP" | OUTBOUND => "DOWN" end.

(** The attributes [MtrTrainEta.__init__] sets. *)
Definition MtrTrainEta_linename (self : Route) : string :=
  str_before_dash (RouteQuery.no (entry self)).

Definition MtrTrainEta_direction (self : Route) : string :=
  MtrTrainEta_bound_map (RouteQuery.direction (entry self)).

(** [sub in s] on two strings. *)
Fixpoint str_contains (sub s : string) : bool :=
  String.prefix sub s
  || match s with
     | EmptyString => false
     | String _ r => str_contains sub r
     end.

(** [needle in v] for a string [needle]: a substring of a string, an
    element of a list or tuple, a key of a dictionary. *)
Definition py_contains (needle : string) (v : pyval) : res bool :=
  match v with
  | VStr s => Ok (str_contains needle s)
  | VList l | VTuple l => Ok (existsb (py_eq (VStr needle)) l)
  | VDict d => Ok (smem needle d)
  | _ => Raise TypeError
  end.

(** [self._stop_list[k]] for a key of any type; the [KeyError] of a key
    that is not a string records the key's text. *)
Definition stop_details_of (self : Route) (k : pyval) : res pyval :=
  match k with
  | VStr s => Route_stop_details self s
  | _ =>
      if py_hashable k then
        of_option (KeyError (match py_str k with Ok s => s | Raise _ => "" end))
                  (dict_get py_eq k (_stop_list self))
      else Raise TypeError
  end.

(** The [Eta.Time] appended for an entry of the response. *)
Definition MtrTrainEta_entry (local : Z) (self : Route)
  (timestamp : datetime) (entry_ : pyval) : res pyval :=
  time ← py_item entry_ "time";
  parsed ← py_fromisoformat time;
  let eta_dt := astimezone local parsed HKT in
  dest ← py_item entry_ "dest";
  details ← stop_details_of self dest;
  names ← py_item details "name";
  destination ← py_get names (Locale_value (RouteQuery.locale (entry self)))
                       VNone;
  td ← py_datetime_sub eta_dt timestamp;
  td' ← py_datetime_sub eta_dt timestamp;
  plat ← py_item entry_ "plat";
  Eta_Time
    [("destination", destination);
     ("is_arriving", VBool (total_seconds_lt td 90));
     ("is_scheduled", VBool false);
     ("eta", VStr (_8601str eta_dt));
     ("eta_minute", VInt (total_minutes_int td'));
     ("extras", VDict [("platform", plat)])].

(** [for entry in etadata], with the entries collected so far in [etas]. *)
Fixpoint MtrTrainEta_loop (local : Z) (self : Route) (timestamp : datetime)
  (etadata : list pyval) (etas : list pyval) : res (list pyval) :=
  match etadata with
  | [] => Ok etas
  | entry_ :: rest =>
      t ← MtrTrainEta_entry local self timestamp entry_;
      MtrTrainEta_loop local self timestamp rest (etas ++ [t])%list
  end.

(** [MtrTrainEta.etas]; [response] is what [api.mtr_train_eta] returned or
    raised and [local] the UTC offset of the system's zone. *)
Definition MtrTrainEta_etas (class_time : datetime) (local : Z)
  (self : Route) (response : res pyval) : M pyval :=
  response ← lift response;
  n ← lift (py_len response);
  if n =? 0 then error_eta class_time self "api-error"
  else
    status ← lift (py_get response "status" (VInt 0));
    if py_eq status (VInt 0) then
      message ← lift (py_item response "message");
      suspended ← lift (py_contains "suspended" message);
      if suspended : bool then
        message ← lift (py_item response "message");
        message_eta class_time self message
      else
        url ← lift (py_get response "url" VNone);
        if negb (is_None url) then error_eta class_time self "ss-effect"
        else error_eta class_time self "api-error"
    else
      let key := MtrTrainEta_linename self ++ "-"
                 ++ RouteQuery.stop_id (entry self) in
      data ← lift (py_item response "data");
      line ← lift (py_item data key);
      bound ← lift (py_get line (MtrTrainEta_direction self) VNone);
      if is_None bound then error_eta class_time self "empty"
      else
        ct ← lift (py_item response "curr_time");
        parsed ← lift (py_fromisoformat ct);
        let timestamp := astimezone local parsed HKT in
        data ← lift (py_item response "data");
        line ← lift (py_item data key);
        etadata ← lift (py_get line (MtrTrainEta_direction self) (VList []));
        l ← lift (py_iter etadata);
        etas ← lift (MtrTrainEta_loop local self timestamp l []);
        _g_eta class_time self (VList etas).

(** The special-service message of [_em]. *)
Definition special_service_message (l : Locale) : string :=
  match l with
  | EN => "Special Service in Effect"
  | TC => "特別車務安排"
  end.

(** The response reports a failure: its [status] is 0 or missing. *)
Definition mtr_failed (d : list (string * pyval)) : Prop :=
  d <> []
  /\ (sget "status" d = None
      \/ exists v, sget "status" d = Some v /\ py_eq v (VInt 0) = true).

(** The reading of a unified ETA raised [e]. *)
Definition raises (r : res pyval * State) (e : exn) : Prop :=
  exists st', r = (Raise e, st').

(** The response carries a [url] that is not null. *)
Definition has_url (d : list (string * pyval)) : bool :=
  match sget "url" d with
  | Some v => negb (is_None v)
  | None => false
  end.

(** An East Rail Line route queried at Mong Kok East. *)
Definition eal_sample_route (l : Locale) : Route :=
  mkRoute (RouteQuery.mk MTRTRAIN "EAL" OUTBOUND "MKK" "default" l)
          (sample_transport MTRTrain)
          (stops_indexed
             [stop_dict "ADM" 1 "金鐘" "Admiralty";
              stop_dict "MKK" 5 "旺角東" "Mong Kok East";
              stop_dict "LOW" 14 "羅湖" "Lo Wu"]).




(** ** refresher.py *)

(** The columns of [database.Schedule] that [partial_tracker] reads. *)
Record Schedule := mkSchedule {
  schedule_id : Z;
  is_partial : bool;
  partial_cycle : option Z
}.

(** The dictionary [log] of the closure: [id] and [count]. *)
Record tracker_log := mkLog {
  log_id : option Z;
  log_count : Z
}.

(** [partial_tracker()]: the log the closure starts with. *)
Definition partial_tracker : tracker_log := mkLog None 0.

(** The closure [wrap] that [partial_tracker] returns: its answer and the
    log after the call.  The column [partial_cycle] is nullable; comparing
    [None] with 0 is a [TypeError]. *)
Definition wrap (schedule : Schedule) (log : tracker_log)
  : res bool * tracker_log :=
  if negb (is_partial schedule) then (Ok false, log)
  else
    match partial_cycle schedule with
    | None => (Raise TypeError, log)
    | Some cycle =>
        if cycle <=? 0 then (Ok true, log)
        else if negb (match log_id log with
                      | Some i => i =? schedule_id schedule
                      | None => false
                      end)
        then (Ok false, mkLog (Some (schedule_id schedule)) 1)
        else
          let count := log_count log + 1 in
          if cycle <? count then (Ok false, mkLog (log_id log) 0)
          else (Ok true, mkLog (log_id log) count)
    end.

(** [n] refreshes of the same schedule in a row: the answers of [wrap] and
    the log after the last one. *)
Fixpoint wrap_calls (schedule : Schedule) (n : nat) (log : tracker_log)
  : list (res bool) * tracker_log :=
  match n with
  | O => ([], log)
  | S k =>
      let '(r, log') := wrap schedule log in
      let '(rs, log'') := wrap_calls schedule k log' in
      (r :: rs, log'')
  end.

(** ** transport.py: the stop list of [MTRBus] *)

(** [c in chars]. *)
Fixpoint str_has (chars : string) (c : ascii) : bool :=
  match chars with
  | EmptyString => false
  | String c' r => Ascii.eqb c c' || str_has r c
  end.

(** [s.lstrip(chars)], [s.rstrip(chars)] and [s.strip(chars)]: the
    characters of the set [chars] are removed from the ends of [s]. *)
Fixpoint str_lstrip (chars s : string) : string :=
  match s with
  | EmptyString => EmptyString
  | String c r => if str_has chars c then str_lstrip chars r else s
  end.

Fixpoint str_rstrip (chars s : string) : string :=
  match s with
  | EmptyString => EmptyString
  | String c r =>
      match str_rstrip chars r with
      | EmptyString =>
          if str_has chars c then EmptyString else String c EmptyString
      | r' => String c r'
      end
  end.

Definition str_strip (chars s : string) : string :=
  str_rstrip chars (str_lstrip chars s).

(** [row[i]] on a row that [csv.reader] yields. *)
Definition row_item (row : list string) (i : nat) : res string :=
  of_option IndexError (nth_error row i).

(** [int(text.strip(".00"))]. *)
Definition stripped_seq (text : string) : res Z :=
  py_int (VStr (str_strip ".00" text)).

(** [MTRBus._bound_map[k]]. *)
Definition MTRBus_bound_map (k : string) : res string :=
  if String.eqb k "O" then Ok (Direction_value OUTBOUND)
  else if String.eqb k "I" then Ok (Direction_value INBOUND)
  else Raise (KeyError k).

(** The condition of the comprehension:
    [stop[0] == route_no and self._bound_map[stop[1]] == direction]. *)
Definition MTRBus_selects (route_no : string) (direction : Direction)
  (stop : list string) : res bool :=
  r ← row_item stop 0;
  if negb (String.eqb r route_no) then Ok false
  else
    b ← row_item stop 1;
    d ← MTRBus_bound_map b;
    Ok (String.eqb d (Direction_value direction)).

(** [[row for row in rows if cond(row)]]. *)
Fixpoint select_rows (cond : list string -> res bool)
  (rows : list (list string)) : res (list (list string)) :=
  match rows with
  | [] => Ok []
  | row :: rest =>
      keep ← cond row;
      rest' ← select_rows cond rest;
      Ok (if keep : bool then row :: rest' else rest')
  end.

(** The [RouteInfo.Stop] built for a selected row. *)
Definition MTRBus_stop (stop : list string) : res pyval :=
  id ← row_item stop 3;
  text ← row_item stop 2;
  seq ← stripped_seq text;
  tc ← row_item stop 6;
  en ← row_item stop 7;
  Ok (RouteInfo_Stop
        [("id", VStr id); ("seq", VInt seq);
         ("name", VDict [("tc", VStr tc); ("en", VStr en)])]).

(** [tuple(f(x) for x in l)]. *)
Fixpoint map_res {A B} (f : A -> res B) (l : list A) : res (list B) :=
  match l with
  | [] => Ok []
  | x :: r =>
      y ← f x;
      ys ← map_res f r;
      Ok (y :: ys)
  end.

(** [MTRBus._fetch_stop_list], with the generator it returns read to its
    end (as [stop_list] does with [tuple]); [api] is what reading
    [api.mtr_bus_stop_list()] with [csv.reader] gave or raised. *)
Definition MTRBus_fetch_stop_list (api : res (list (list string)))
  (route_no : string) (direction : Direction) (service_type : string)
  : res (list pyval) :=
  if negb (String.eqb service_type "default")
  then Raise (ServiceTypeNotExist service_type)
  else
    rows ← api;
    stops ← select_rows (MTRBus_selects route_no direction) rows;
    if Nat.eqb (List.length stops) 0 then Raise (RouteNotExist route_no)
    else map_res MTRBus_stop stops.

(** *** Notions for the sequence numbers *)

(** The text of a stop number that does not end in 0: decimal digits, the
    first and the last of them not 0. *)
Fixpoint all_digits (s : string) : bool :=
  match s with
  | EmptyString => true
  | String c r =>
      match digit_of_ascii c with
      | Some _ => all_digits r
      | None => false
      end
  end.

Fixpoint last_char (s : string) : option ascii :=
  match s with
  | EmptyString => None
  | String c EmptyString => Some c
  | String _ r => last_char r
  end.

Definition stop_number (d : string) : bool :=
  all_digits d
  && match d with
     | String c _ => negb (Ascii.eqb c "0"%char)
     | EmptyString => false
     end
  && match last_char d with
     | Some c => negb (Ascii.eqb c "0"%char)
     | None => false
     end.

(** [k] zeros. *)
Fixpoint zeros (k : nat) : string :=
  match k with
  | O => EmptyString
  | S n => String "0"%char (zeros n)
  end.

(** The header and some rows of the bus stop file. *)
Definition mtr_bus_rows : list (list string) :=
  [ ["ROUTE_ID"; "DIRECTION"; "STATION_SEQNO"; "STATION_ID";
     "STATION_LATITUDE"; "STATION_LONGITUDE"; "STATION_NAME_CHI";
     "STATION_NAME_ENG"];
    ["K12"; "O"; "1.00"; "K12-U010"; "22.44"; "114.16"; "大埔墟站";
     "Tai Po Market Station"];
    ["K12"; "O"; "10.00"; "K12-U100"; "22.45"; "114.17"; "八號花園";
     "Eightland Gardens"];
    ["K12"; "I"; "1.00"; "K12-D010"; "22.45"; "114.17"; "八號花園";
     "Eightland Gardens"] ].

(** Every character of [s] is in the set [chars]. *)
Fixpoint str_all_in (chars s : string) : bool :=
  match s with
  | EmptyString => true
  | String c r => str_has chars c && str_all_in chars r
  end.

(** ** transport.py: the stop list of [MTRTrain] *)

(** [s.split(sep)] for a separator of one character. *)
Fixpoint str_split (sep : ascii) (s : string) : list string :=
  match s with
  | EmptyString => [EmptyString]
  | String c r =>
      if Ascii.eqb c sep then EmptyString :: str_split sep r
      else match str_split sep r with
           | p :: ps => String c p :: ps
           | [] => [String c EmptyString]
           end
  end.

(** [MTRTrain._bound_map[k]]: [DOWNLINK] and [UPLINK] are aliases of
    [INBOUND] and [OUTBOUND]. *)
Definition MTRTrain_bound_map (k : string) : res string :=
  if String.eqb k "DT" then Ok (Direction_value INBOUND)
  else if String.eqb k "UT" then Ok (Direction_value OUTBOUND)
  else Raise (KeyError k).

(** The condition of the comprehension for a route with a branch:
    [stop[0] == rt_name and rt_type in stop[1]]. *)
Definition MTRTrain_selects_branch (rt_name rt_type : string)
  (stop : list string) : res bool :=
  r ← row_item stop 0;
  if negb (String.eqb r rt_name) then Ok false
  else
    d ← row_item stop 1;
    Ok (str_contains rt_type d).

(** The condition of the comprehension for any other route:
    [stop[0] == route_no
     and self._bound_map[stop[1].split("-")[-1]] == direction]. *)
Definition MTRTrain_selects (route_no : string) (direction : Direction)
  (stop : list string) : res bool :=
  r ← row_item stop 0;
  if negb (String.eqb r route_no) then Ok false
  else
    d ← row_item stop 1;
    b ← MTRTrain_bound_map (List.last (str_split "-" d) EmptyString);
    Ok (String.eqb b (Direction_value direction)).

(** The [RouteInfo.Stop] built for a selected row; [stop[-1]] is the last
    column. *)
Definition MTRTrain_stop (stop : list string) : res pyval :=
  id ← row_item stop 2;
  text ← of_option IndexError (last stop);
  seq ← stripped_seq text;
  tc ← row_item stop 4;
  en ← row_item stop 5;
  Ok (RouteInfo_Stop
        [("id", VStr id); ("seq", VInt seq);
         ("name", VDict [("tc", VStr tc); ("en", VStr en)])]).

(** The part of [MTRTrain._fetch_stop_list] that reads the file, with the
    generator it returns read to its end. *)
Definition MTRTrain_stops (api : res (list (list string)))
  (route_no : string) (direction : Direction) : res (list pyval) :=
  rows ← api;
  stops ← (if str_contains "-" route_no then
             match str_split "-" route_no with
             | [rt_name; rt_type] =>
                 select_rows (MTRTrain_selects_branch rt_name rt_type) rows
             | _ => Raise ValueError
             end
           else select_rows (MTRTrain_selects route_no direction) rows);
  if Nat.eqb (List.length stops) 0 then Raise (RouteNotExist route_no)
  else map_res MTRTrain_stop stops.

(** [MTRTrain._fetch_stop_list]. *)
Definition MTRTrain_fetch_stop_list (self : Transport)
  (api : res (list (list string))) (route_no : string)
  (direction : Direction) (service_type : string) : M (list pyval) :=
  check_service_type service_type;;
  check_route self route_no;;
  lift (MTRTrain_stops api route_no direction).

(** Rows of the train station file for the Lok Ma Chau branch of the East
    Rail Line, and a route list that knows the branch. *)
Definition mtr_train_rows : list (list string) :=
  [ ["Line Code"; "Direction"; "Station Code"; "Station ID";
     "Chinese Name"; "English Name"; "Sequence"];
    ["EAL"; "LMC-DT"; "LMC"; "78"; "落馬洲"; "Lok Ma Chau"; "1.00"];
    ["EAL"; "LMC-DT"; "SHS"; "75"; "上水"; "Sheung Shui"; "2.00"];
    ["EAL"; "LMC-UT"; "SHS"; "75"; "上水"; "Sheung Shui"; "13.00"];
    ["EAL"; "LMC-UT"; "LMC"; "78"; "落馬洲"; "Lok Ma Chau"; "14.00"] ].

Definition train_routes : pyval :=
  VDict [("EAL-LMC", VDict [("inbound", VList []); ("outbound", VList [])])].

Definition train_state : State :=
  mkState sample_clock 0 ∅ []
          (wrapper (mkdt 2024 2 23 9 0 0 0 None) train_routes).

(** States in which a cache file of the KMB provider was cut short: the
    route list file in a process that has not read it yet, and the stop
    list file of route 1. *)
Definition truncated_routes_state : State :=
  mkState sample_clock 0 {[ route_list_path kmb_transport := Partial ]} []
          VNone.

Definition truncated_stops_state : State :=
  mkState sample_clock 0
          {[ stop_list_path kmb_transport "1" OUTBOUND "1" := Partial ]} []
          (wrapper (memo_time 30 8) kmb_routes).

(** *** Notions for the fetch of a stop list *)

(** How many times the provider's [_fetch_stop_list] reads the route list
    before it calls the operator. *)
Definition prelude_reads (p : Provider) : nat :=
  match p with
  | MTRBus => 0
  | NewLantaoBus => 2
  | _ => 1
  end.

(** The guards of the provider's [_fetch_stop_list] let the query through:
    the service type is ["default"] where the provider knows no other,
    and for [NewLantaoBus] the bound of the route has a service of the
    queried type, whose route id is [id_]. *)
Definition guards_pass (self : Transport) (routes : pyval) (no : string)
  (dir : Direction) (svc : string) (id_ : pyval) : Prop :=
  match cls self with
  | KowloonMotorBus => True
  | NewLantaoBus =>
      exists info bounds services,
        py_item routes no = Ok info
        /\ py_item info (Direction_value dir) = Ok bounds
        /\ py_iter bounds = Ok services
        /\ NewLantaoBus_route_id svc services = Ok id_
  | _ => svc = "default"
  end.

(** What the operator answers to the provider's [n]-th call, made for the
    stops of the query. *)
Definition stops_upstream (self : Transport) (no : string) (dir : Direction)
  (svc : string) (id_ : pyval) (n : nat) : res (list pyval) :=
  match cls self with
  | NewLantaoBus => upstream_stops_by_id self id_ n
  | _ => upstream_stop_list self no dir svc n
  end.

(** The state after [k] more readings of the clock and the upstream call
    [c]. *)
Definition after_fetch (st : State) (k : nat) (c : fetch_call) : State :=
  mkState (clock st) (ticks st + k) (fs st) (fetched st ++ [c])%list
          (_routes st).


(** *** Fixtures for the destination of a route *)

(** A KMB provider whose operator lists the terminus of route 1 twice, and
    a light-rail provider that knows the circular route 705. *)
Definition loop_transport : Transport :=
  mkTransport KowloonMotorBus "/data" 30
    (fun _ => Ok kmb_routes)
    (fun _ _ _ _ => Ok loop_stops)
    (fun _ _ => Raise TransportError)
    (Ok (VBytes "BM")).

Definition loop_query : RouteQuery.t :=
  RouteQuery.mk KMB "1" OUTBOUND "S2" "1" EN.

Definition lrt_routes : pyval :=
  VDict [("705", VDict [("inbound", VList []); ("outbound", VList [])])].

Definition lrt_transport : Transport :=
  mkTransport MTRLightRail "/data" 30
    (fun _ => Ok lrt_routes)
    (fun _ _ _ _ => Ok tsw_stops)
    (fun _ _ => Raise TransportError)
    (Ok (VBytes "BM")).

Definition lrt_state : State :=
  mkState sample_clock 0 ∅ []
          (wrapper (mkdt 2024 2 23 9 0 0 0 None) lrt_routes).

Definition tsw_query (l : Locale) : RouteQuery.t :=
  RouteQuery.mk MTRLRT "705" OUTBOUND "435" "default" l.

(** The circular label of [Route.destination]. *)
Definition circular_label (l : Locale) : string :=
  match l with
  | EN => "TSW Circular"
  | TC => "天水圍循環綫"
  end.
(** * Properties *)

(** ** Basic facts about dictionaries and results *)

Lemma sget_not_key {A} (k : string) (d : list (string * A)) :
  ~ In k (dict_keys d) -> sget k d = None.
Proof.
  induction d as [|[k' v] d IH]; simpl; intros Hk; [reflexivity|].
  destruct (String.eqb_spec k k') as [->|Hne].
  - exfalso. apply Hk. now left.
  - apply IH. intros Hin. apply Hk. now right.
Qed.

Lemma pydantic_fields_keys schema kwargs fs :
  pydantic_fields schema kwargs = Ok fs ->
  dict_keys fs = map fname schema.
Proof.
  revert fs. induction schema as [|f rest IH]; simpl; intros fs H.
  - now inversion H.
  - unfold mbind, res_bind in H.
    destruct (match sget (fname f) kwargs with
              | Some v => of_option (ValidationError (fname f))
                                    (validate (ftyp f) v)
              | None => of_option (ValidationError (fname f)) (fdefault f)
              end) as [v|e]; [|discriminate].
    destruct (pydantic_fields rest kwargs) as [fs'|e]; [|discriminate].
    inversion H; subst. simpl. f_equal. now apply IH.
Qed.

Lemma pydantic_init_inv cls schema kwargs v :
  pydantic_init cls schema kwargs = Ok v ->
  exists fs, v = VObj cls fs /\ pydantic_fields schema kwargs = Ok fs.
Proof.
  unfold pydantic_init, mbind, res_bind. intros H.
  destruct (pydantic_fields schema kwargs) as [fs|e]; [|discriminate].
  inversion H. eauto.
Qed.

(** ** C9: the display name of a route *)

Lemma provider_not_a_metaclass (p : Provider) (q : Provider) :
  isinstance (CProvider p) (type_of_class (CProvider q)) = false.
Proof. destruct p; reflexivity. Qed.

(** C9.  [Route.name] tests [isinstance(self.provider, type(MTRTrain))];
    [type(MTRTrain)] is the metaclass [ABCMeta], of which no provider
    object is an instance, so for every route, heavy rail included, the
    operation returns the query's route number unchanged and never a line
    name from [MTR_TRAIN_NAMES]: over the heavy-rail provider the line
    [EAL] is named "EAL", not "East Rail Line". *)
Theorem Route_name_is_route_number :
  (forall self : Route,
      Route_name self = VStr (RouteQuery.no (entry self)))
  /\ cls (provider (eal_route (sample_transport MTRTrain))) = MTRTrain
  /\ Route_name (eal_route (sample_transport MTRTrain)) = VStr "EAL".
Proof.
  split; [|split; reflexivity].
  intros self. unfold Route_name.
  now rewrite provider_not_a_metaclass.
Qed.

(** ** C8: the fields of a time entry *)

(** C8.  [Eta.Time] declares the fields [destination], [is_arriving],
    [is_scheduled], [eta], [remark] and [extras] only, so whatever keyword
    arguments a processor passes, [eta_minute] among them, the entry that
    is built has no [eta_minute] attribute: reading it raises
    [AttributeError], while [eta] and [remark] can be read. *)
Theorem Eta_Time_drops_eta_minute :
  forall (kwargs : list (string * pyval)) (t : pyval),
    Eta_Time kwargs = Ok t ->
    py_getattr t "eta_minute" = Raise (AttributeError "eta_minute")
    /\ (exists e, py_getattr t "eta" = Ok e)
    /\ (exists r, py_getattr t "remark" = Ok r).
Proof.
  intros kwargs t H.
  apply pydantic_init_inv in H as (fs & -> & Hfs).
  pose proof (pydantic_fields_keys _ _ _ Hfs) as Hk.
  split.
  - simpl. rewrite sget_not_key; [reflexivity|].
    rewrite Hk. simpl. intros Hin.
    repeat (destruct Hin as [Hin|Hin]; [discriminate|]). exact Hin.
  - destruct fs as [|[k1 v1] [|[k2 v2] [|[k3 v3] [|[k4 v4] [|[k5 v5] fs]]]]];
      try discriminate.
    simpl in Hk. injection Hk as -> -> -> -> -> _.
    split; eexists; reflexivity.
Qed.

Lemma Eta_Time_drops_eta_minute_witness :
  exists t,
    Eta_Time sample_time_kwargs = Ok t
    /\ py_getattr t "eta_minute" = Raise (AttributeError "eta_minute")
    /\ (exists e, py_getattr t "eta" = Ok e)
    /\ (exists r, py_getattr t "remark" = Ok r).
Proof.
  eexists. split; [vm_compute; reflexivity|].
  apply (Eta_Time_drops_eta_minute sample_time_kwargs).
  vm_compute; reflexivity.
Defined.

(** ** C10: stop type on the circular light-rail routes *)

Lemma destination_circular self d id seq :
  is_circular_lrt self = true ->
  last (dict_values (_stop_list self)) = Some d ->
  py_item d "id" = Ok id ->
  py_item d "seq" = Ok seq ->
  Route_destination self
  = Ok (VDict [("stop_id", id); ("seq", seq);
               ("name", VDict [("en", VStr "TSW Circular");
                               ("tc", VStr "天水圍循環綫")])]).
Proof.
  intros Hc Hl Hid Hseq. unfold Route_destination, is_circular_lrt in *.
  rewrite Hl, Hc. simpl. rewrite Hid, Hseq. reflexivity.
Qed.

Lemma destination_plain self d :
  is_circular_lrt self = false ->
  last (dict_values (_stop_list self)) = Some d ->
  Route_destination self = Ok d.
Proof.
  intros Hc Hl. unfold Route_destination, is_circular_lrt in *.
  rewrite Hl, Hc. reflexivity.
Qed.

(** As the specification states it, the property fails at the first stop
    of route 705: the origin is compared before the destination is read,
    and [ORIG] is returned. *)
Lemma circular_stop_type_counterexample :
  RouteQuery.transport (entry (tsw_route "430" EN)) = MTRLRT
  /\ RouteQuery.no (entry (tsw_route "430" EN)) = "705"
  /\ Route_stop_type (tsw_route "430" EN) = Ok ORIG.
Proof. repeat split. Qed.

(** C10 (amended).  On the light-rail routes 705 and 706 the synthetic
    destination record has the key [stop_id] and no key [id].
    [Route.stop_type] compares the origin first: it returns [ORIG] when the
    queried stop is the first stop of the route, and for every other
    queried stop it goes on to read [destination()["id"]] and raises
    [KeyError('id')].  [dest_name], which reads only [name], returns the
    circular label. *)
Theorem circular_stop_type :
  forall (self : Route) (o oid d id seq : pyval),
    is_circular_lrt self = true ->
    Route_origin self = Ok o ->
    py_item o "id" = Ok oid ->
    last (dict_values (_stop_list self)) = Some d ->
    py_item d "id" = Ok id ->
    py_item d "seq" = Ok seq ->
    Route_stop_type self
    = (if py_eq oid (VStr (RouteQuery.stop_id (entry self)))
       then Ok ORIG else Raise (KeyError "id"))
    /\ Route_dest_name self
       = Ok (VStr (match RouteQuery.locale (entry self) with
                   | EN => "TSW Circular"
                   | TC => "天水圍循環綫"
                   end)).
Proof.
  intros self o oid d id seq Hc Ho Hoid Hl Hid Hseq.
  pose proof (destination_circular _ _ _ _ Hc Hl Hid Hseq) as Hd.
  split.
  - unfold Route_stop_type. rewrite Ho. simpl. rewrite Hoid. simpl.
    destruct (py_eq oid _); [reflexivity|].
    rewrite Hd. reflexivity.
  - unfold Route_dest_name. rewrite Hd. simpl.
    destruct (RouteQuery.locale (entry self)); reflexivity.
Qed.

Lemma circular_stop_type_witness :
  Route_stop_type (tsw_route "435" TC) = Raise (KeyError "id")
  /\ Route_dest_name (tsw_route "435" TC) = Ok (VStr "天水圍循環綫").
Proof.
  exact (circular_stop_type (tsw_route "435" TC)
           (stop_dict "430" 1 "天水圍" "Tin Shui Wai") (VStr "430")
           (stop_dict "445" 3 "天湖" "Tin Wu") (VStr "445") (VInt 3)
           eq_refl eq_refl eq_refl eq_refl eq_refl eq_refl).
Defined.

(** ** C7: the destination name *)

Lemma seq_lt_trans (a b c : pyval) : seq_lt a b -> seq_lt b c -> seq_lt a c.
Proof.
  intros (x & y & Hx & Hy & Hxy) (y' & z & Hy' & Hz & Hyz).
  rewrite Hy in Hy'. inversion Hy'; subst.
  exists x, z. repeat split; auto. lia.
Qed.

Lemma ascending_seq_cons (s t : pyval) (r : list pyval) :
  ascending_seq (s :: t :: r)
  = match stop_seq_of s, stop_seq_of t with
    | Ok a, Ok b => (a <? b) && ascending_seq (t :: r)
    | _, _ => false
    end.
Proof. reflexivity. Qed.

Lemma ascending_last_highest (stops : list pyval) (d : pyval) :
  ascending_seq stops = true ->
  last stops = Some d ->
  In d stops /\ forall s, In s stops -> s = d \/ seq_lt s d.
Proof.
  induction stops as [|s r IH]; [discriminate|].
  destruct r as [|t r'].
  - intros _ Hl. inversion Hl; subst. split; [now left|].
    intros x [->|[]]. now left.
  - intros Ha Hl.
    assert (Hst : seq_lt s t /\ ascending_seq (t :: r') = true).
    { rewrite ascending_seq_cons in Ha.
      destruct (stop_seq_of s) as [a|] eqn:Es; [|discriminate].
      destruct (stop_seq_of t) as [b|] eqn:Et; [|discriminate].
      apply andb_prop in Ha as [Hab Hr]. split; [|exact Hr].
      exists a, b. repeat split; auto. now apply Z.ltb_lt. }
    destruct Hst as [Hst Hr].
    change (last (s :: t :: r')) with (last (t :: r')) in Hl.
    destruct (IH Hr Hl) as [Hin Hall]. split; [now right|].
    intros x [<-|Hx]; [|now apply Hall].
    right. destruct (Hall t (or_introl eq_refl)) as [->|Htd]; [exact Hst|].
    eapply seq_lt_trans; eauto.
Qed.

(** ** C1: what the light-rail processor returns *)

(** C1.  [MtrLrtEta.etas] has no [return] for a response that passes the
    API-error and end-of-service checks, yields no entry for the queried
    route, carries no [red_alert_status] and has no stopped platform: the
    method runs off its end and the caller gets [None], not a unified ETA
    (here a platform that only serves route 614, queried for route 610). *)
Theorem MtrLrtEta_etas_returns_None :
  forall (class_time : datetime) (local : Z) (self : Route)
         (response : pyval) (st : State)
         (n : Z) (status pl ts : pyval) (platforms : list pyval)
         (parsed : datetime),
    py_len response = Ok n -> n <> 0 ->
    py_get response "status" (VInt 0) = Ok status ->
    py_eq status (VInt 0) = false ->
    py_item response "platform_list" = Ok pl ->
    py_iter pl = Ok platforms ->
    all_end_service platforms = Ok false ->
    py_item response "system_time" = Ok ts ->
    py_fromisoformat ts = Ok parsed ->
    MtrLrtEta_loop self (astimezone local parsed HKT)
      (MtrLrtEta_locale_map (RouteQuery.locale (entry self)))
      platforms ([], 0) = Ok ([], 0) ->
    py_has_key response "red_alert_status" = Ok false ->
    MtrLrtEta_etas class_time local self (Ok response) st = (Ok VNone, st).
Proof.
  intros ct local self response st n status pl ts platforms parsed
         Hn Hn0 Hst Hs0 Hpl Hit Hend Hts Hp Hloop Hred.
  unfold MtrLrtEta_etas, mbind, M_bind, lift.
  rewrite Hn. apply Z.eqb_neq in Hn0. rewrite Hn0, Hst. simpl.
  rewrite Hs0, Hpl, Hit, Hend, Hts, Hp, Hloop. simpl.
  rewrite Hred. reflexivity.
Qed.

Lemma MtrLrtEta_etas_returns_None_witness :
  MtrLrtEta_etas (sample_clock 0) HKT lrt610_route
    (Ok (lrt_response [lrt_train "614" "Tuen Mun Ferry Pier" "5 min"]))
    sample_state
  = (Ok VNone, sample_state).
Proof.
  eapply (MtrLrtEta_etas_returns_None (sample_clock 0) HKT lrt610_route
            (lrt_response [lrt_train "614" "Tuen Mun Ferry Pier" "5 min"])
            sample_state 3 (VInt 1));
    try (vm_compute; reflexivity).
  vm_compute. discriminate.
Defined.

(** ** C3: constructing a route *)

Lemma py_eq_str (s : string) (k : pyval) :
  py_eq (VStr s) k = true <-> k = VStr s.
Proof.
  destruct k; simpl; try (split; [discriminate|discriminate]).
  split.
  - intros H. apply String.eqb_eq in H. now subst.
  - intros H. inversion H. apply String.eqb_refl.
Qed.

Lemma dict_mem_set_str (s : string) (k v : pyval) (d : list (pyval * pyval)) :
  dict_mem py_eq (VStr s) (dict_set py_eq k v d)
  = dict_mem py_eq (VStr s) d || py_eq (VStr s) k.
Proof.
  unfold dict_mem.
  induction d as [|[k' v'] d IH]; cbn [dict_get dict_set].
  - destruct (py_eq (VStr s) k); reflexivity.
  - destruct (py_eq k k') eqn:Ekk'; cbn [dict_get dict_set].
    + destruct (py_eq (VStr s) k') eqn:Esk'; [reflexivity|].
      destruct (py_eq (VStr s) k) eqn:Esk.
      * apply py_eq_str in Esk. subst k. congruence.
      * now rewrite orb_false_r.
    + destruct (py_eq (VStr s) k'); [reflexivity|]. exact IH.
Qed.

Lemma index_stops_mem (s : string) (l : list pyval) :
  forall acc d,
    index_stops l acc = Ok d ->
    dict_mem py_eq (VStr s) d
    = dict_mem py_eq (VStr s) acc || existsb (id_is s) l.
Proof.
  induction l as [|stop l IH]; cbn [index_stops existsb]; intros acc d H.
  - inversion H. now rewrite orb_false_r.
  - unfold mbind, res_bind in H. unfold id_is at 1.
    destruct (py_item stop "id") as [k|e]; [|discriminate].
    destruct (py_hashable k); [|discriminate].
    rewrite (IH _ _ H), dict_mem_set_str. now rewrite orb_assoc.
Qed.

Lemma index_stops_total (l : list pyval) :
  stops_have_ids l -> forall acc, exists d, index_stops l acc = Ok d.
Proof.
  induction 1 as [|stop l (k & Hk & Hh) _ IH]; intros acc;
    cbn [index_stops].
  - eauto.
  - rewrite Hk. unfold mbind, res_bind. rewrite Hh. apply IH.
Qed.

Lemma has_stop_existsb (s : string) (l : list pyval) :
  has_stop s l <-> existsb (id_is s) l = true.
Proof.
  rewrite existsb_exists. unfold has_stop, id_is. split.
  - intros (x & Hin & Hid). exists x. split; [exact Hin|].
    rewrite Hid. now apply py_eq_str.
  - intros (x & Hin & Hid). exists x. split; [exact Hin|].
    destruct (py_item x "id") as [k|]; [|discriminate].
    apply py_eq_str in Hid. now subst.
Qed.

Lemma Route_init_after_stop_list entry transport_ st l st1 d :
  stop_list transport_ (RouteQuery.no entry) (RouteQuery.direction entry)
            (RouteQuery.service_type entry) st = (Ok (VTuple l), st1) ->
  index_stops l [] = Ok d ->
  Route_init entry transport_ st
  = if existsb (id_is (RouteQuery.stop_id entry)) l
    then (Ok (mkRoute entry transport_ d), st1)
    else (Raise (StopNotExist (RouteQuery.stop_id entry)), st1).
Proof.
  intros Hsl Hd. unfold Route_init, mbind, M_bind, lift.
  rewrite Hsl. cbn [py_iter]. rewrite Hd.
  rewrite (index_stops_mem _ _ _ _ Hd). cbn [dict_mem dict_get orb].
  destruct (existsb _ l); reflexivity.
Qed.

(** C3.  When the query's route number, direction and service type resolve
    to a stop list, constructing the [Route] succeeds exactly when the
    query's [stop_id] occurs among the ids of the resolved stops and raises
    [StopNotExist] exactly when it does not.  A route number that is not a
    key of the provider's route list raises [RouteNotExist] as soon as the
    route list has been read, before any stop is resolved. *)
Theorem Route_init_validates_stop :
  forall (entry : RouteQuery.t) (transport_ : Transport) (st : State),
    (forall (l : list pyval) (st1 : State),
        stop_list transport_ (RouteQuery.no entry)
                  (RouteQuery.direction entry)
                  (RouteQuery.service_type entry) st
        = (Ok (VTuple l), st1) ->
        stops_have_ids l ->
        ((exists r, Route_init entry transport_ st = (Ok r, st1))
         <-> has_stop (RouteQuery.stop_id entry) l)
        /\ (Route_init entry transport_ st
            = (Raise (StopNotExist (RouteQuery.stop_id entry)), st1)
            <-> ~ has_stop (RouteQuery.stop_id entry) l))
    /\ (forall (routes : pyval) (st1 : State),
           route_list transport_ st = (Ok routes, st1) ->
           py_has_key routes (RouteQuery.no entry) = Ok false ->
           Route_init entry transport_ st
           = (Raise (RouteNotExist (RouteQuery.no entry)), st1)).
Proof.
  intros entry transport_ st. split.
  - intros l st1 Hsl Hids.
    destruct (index_stops_total l Hids []) as [d Hd].
    rewrite (Route_init_after_stop_list _ _ _ _ _ _ Hsl Hd).
    rewrite has_stop_existsb.
    destruct (existsb _ l); split; split; intros H;
      try discriminate; try congruence; eauto.
    destruct H as [r H]. discriminate.
  - intros routes st1 Hrl Hkey.
    unfold Route_init, stop_list, mbind, M_bind, lift.
    rewrite Hrl, Hkey. reflexivity.
Qed.

Lemma Route_init_validates_stop_witness :
  (exists r, fst (Route_init (kmb1_query "S5") kmb_transport sample_state)
             = Ok r)
  /\ fst (Route_init (kmb1_query "S7") kmb_transport sample_state)
     = Raise (StopNotExist "S7")
  /\ fst (Route_init (RouteQuery.mk KMB "2" OUTBOUND "S5" "1" EN)
                     kmb_transport sample_state)
     = Raise (RouteNotExist "2").
Proof.
  assert (Hids : stops_have_ids kmb1_stops).
  { repeat constructor; eexists; split; reflexivity. }
  assert (Hsl : forall s,
             stop_list kmb_transport (RouteQuery.no (kmb1_query s))
               (RouteQuery.direction (kmb1_query s))
               (RouteQuery.service_type (kmb1_query s)) sample_state
             = (Ok (VTuple kmb1_stops),
                snd (stop_list kmb_transport "1" OUTBOUND "1" sample_state))).
  { intros s. cbn [kmb1_query RouteQuery.no RouteQuery.direction
                   RouteQuery.service_type].
    rewrite (surjective_pairing (stop_list _ _ _ _ _)) at 1.
    f_equal; vm_compute; reflexivity. }
  split; [|split].
  - destruct (Route_init_validates_stop (kmb1_query "S5") kmb_transport
                sample_state) as [H _].
    destruct (H _ _ (Hsl "S5") Hids) as [[_ Hok] _].
    destruct Hok as [r Hr].
    + exists (stop_dict "S5" 5 "康強苑" "Hong Keung Court").
      split; [right; left; reflexivity | reflexivity].
    + exists r. now rewrite Hr.
  - destruct (Route_init_validates_stop (kmb1_query "S7") kmb_transport
                sample_state) as [H _].
    destruct (H _ _ (Hsl "S7") Hids) as [_ [_ Hno]].
    rewrite Hno; [reflexivity|].
    intros (s & Hin & Hid).
    repeat (destruct Hin as [<-|Hin]; [discriminate Hid|]). exact Hin.
  - destruct (Route_init_validates_stop
                (RouteQuery.mk KMB "2" OUTBOUND "S5" "1" EN) kmb_transport
                sample_state) as [_ H].
    rewrite (H kmb_routes (snd (route_list kmb_transport sample_state)));
      [reflexivity| |reflexivity].
    rewrite (surjective_pairing (route_list _ _)) at 1.
    f_equal; vm_compute; reflexivity.
Defined.

(** ** The KMB processor (C4, C5) *)

Lemma sget_in_keys {A} (k : string) (d : list (string * A)) v :
  sget k d = Some v -> In k (dict_keys d).
Proof.
  induction d as [|[k' v'] d IH]; simpl; [discriminate|].
  destruct (String.eqb_spec k k') as [->|Hne]; intros H.
  - now left.
  - right. now apply IH.
Qed.

Lemma pydantic_fields_get schema kwargs fs :
  pydantic_fields schema kwargs = Ok fs ->
  NoDup (map fname schema) ->
  forall f, In f schema ->
    exists v, sget (fname f) fs = Some v
      /\ match sget (fname f) kwargs with
         | Some x => validate (ftyp f) x = Some v
         | None => fdefault f = Some v
         end.
Proof.
  revert fs. induction schema as [|g rest IH]; intros fs H Hnd f Hin.
  - destruct Hin.
  - cbn [pydantic_fields] in H. unfold mbind, res_bind in H.
    destruct (match sget (fname g) kwargs with
              | Some v => of_option (ValidationError (fname g))
                                    (validate (ftyp g) v)
              | None => of_option (ValidationError (fname g)) (fdefault g)
              end) as [v|e] eqn:Ev; [|discriminate].
    destruct (pydantic_fields rest kwargs) as [fs'|e] eqn:Efs;
      [|discriminate].
    inversion H; subst fs. inversion Hnd as [|? ? Hnotin Hnd']; subst.
    destruct Hin as [->|Hin].
    + exists v. cbn [dict_get]. rewrite String.eqb_refl. split; [reflexivity|].
      destruct (sget (fname f) kwargs) as [x|].
      * destruct (validate (ftyp f) x); [now inversion Ev|discriminate].
      * destruct (fdefault f); [now inversion Ev|discriminate].
    + destruct (IH fs' eq_refl Hnd' f Hin) as (w & Hw & Hv).
      exists w. split; [|exact Hv]. cbn [dict_get].
      destruct (String.eqb_spec (fname f) (fname g)) as [E|_]; [|exact Hw].
      exfalso. apply Hnotin. rewrite <- E.
      apply list_elem_of_In. now apply in_map.
Qed.

Lemma validate_FEtas p v : validate FEtas p = Some v -> v = p.
Proof.
  destruct p as [| | | | | |l|l|d|c fs]; simpl; try discriminate.
  - destruct (forallb _ l); [now intros [= <-]|discriminate].
  - destruct (String.eqb c "Eta.Error"); [now intros [= <-]|discriminate].
Qed.

Lemma Eta_fields_nodup ct : NoDup (map fname (Eta_fields ct)).
Proof.
  cbn. repeat constructor; intros H%list_elem_of_In; cbn in H;
    repeat (destruct H as [H|H]; [discriminate|]); exact H.
Qed.

(** The payload handed to [_g_eta] is the [etas] field of what it
    returns. *)
Lemma g_eta_etas ct self p st v st' :
  _g_eta ct self p st = (Ok v, st') -> py_getattr v "etas" = Ok p.
Proof.
  unfold _g_eta, mbind, M_bind, lift, datetime_now.
  destruct (Route_orig_name self) as [o|]; [|discriminate].
  destruct (Route_dest_name self) as [d|]; [|discriminate].
  destruct (Route_stop_name self) as [s|]; [|discriminate].
  destruct (Route_logo self) as [lg|]; [|discriminate].
  intros H. injection H as H _.
  apply pydantic_init_inv in H as (fs & -> & Hfs).
  destruct (pydantic_fields_get _ _ _ Hfs (Eta_fields_nodup ct)
              (mkField "etas" FEtas None)) as (w & Hw & Hv).
  { cbn. do 6 right. now left. }
  cbn in Hv. apply validate_FEtas in Hv. subst w.
  cbn [py_getattr]. cbn [fname] in Hw. now rewrite Hw.
Qed.

Lemma error_eta_etas ct self code st v st' :
  error_eta ct self code st = (Ok v, st') ->
  exists msg, _em self code = Ok msg
              /\ py_getattr v "etas" = Ok (error_payload msg).
Proof.
  unfold error_eta, mbind, M_bind, lift.
  destruct (_em self code) as [msg|]; [|discriminate].
  cbn. intros H. exists msg. split; [reflexivity|].
  now apply g_eta_etas in H.
Qed.

Lemma message_eta_etas ct self m st v st' :
  message_eta ct self m st = (Ok v, st') ->
  exists msg, py_getattr v "etas" = Ok (error_payload msg).
Proof.
  unfold message_eta, mbind, M_bind, lift.
  destruct (Eta_Error [("message", m)]) as [e|] eqn:Ee; [|discriminate].
  intros H. apply g_eta_etas in H.
  destruct m; try discriminate Ee. cbn in Ee. injection Ee as <-.
  eexists. exact H.
Qed.

Lemma kmb_matches_skips self stop :
  kmb_matches self stop = true <-> KmbEta_skips self stop = Ok false.
Proof.
  unfold kmb_matches.
  destruct (KmbEta_skips self stop) as [[|]|]; split; congruence.
Qed.

Lemma kmb_skips_same_stop self stop :
  KmbEta_skips self stop = Ok false -> kmb_same_stop self stop.
Proof.
  unfold KmbEta_skips, kmb_same_stop, mbind, res_bind.
  destruct (py_item stop "seq") as [seq|]; [|discriminate].
  destruct (Route_stop_seq self) as [mine|]; [|discriminate].
  destruct (py_eq seq (VInt mine)) eqn:Eseq; [|discriminate].
  cbn [negb].
  destruct (py_item stop "dir") as [dir|]; [|discriminate].
  intros H. exists seq, mine, dir. repeat split; auto.
  destruct (RouteQuery.direction (entry self)); cbn in H;
    injection H as H; now apply negb_false_iff in H.
Qed.

Lemma Time_fields_nodup : NoDup (map fname Time_fields).
Proof.
  cbn. repeat constructor; intros H%list_elem_of_In; cbn in H;
    repeat (destruct H as [H|H]; [discriminate|]); exact H.
Qed.

Lemma Eta_Time_get kwargs t f :
  Eta_Time kwargs = Ok t ->
  In f Time_fields ->
  exists v, py_getattr t (fname f) = Ok v
    /\ match sget (fname f) kwargs with
       | Some x => validate (ftyp f) x = Some v
       | None => fdefault f = Some v
       end.
Proof.
  intros H Hin. apply pydantic_init_inv in H as (fs & -> & Hfs).
  destruct (pydantic_fields_get _ _ _ Hfs Time_fields_nodup f Hin)
    as (v & Hv & Hval).
  exists v. split; [|exact Hval]. cbn [py_getattr]. now rewrite Hv.
Qed.

Lemma validate_FOptStr x v : validate FOptStr x = Some v -> v = x.
Proof. destruct x; simpl; congruence. Qed.

Lemma KmbEta_time_entry self timestamp stop eta t :
  KmbEta_skips self stop = Ok false ->
  py_item stop "eta" = Ok eta ->
  KmbEta_time timestamp
    (KmbEta_locale_map (RouteQuery.locale (entry self))) stop eta = Ok t ->
  kmb_entry_of self timestamp stop t.
Proof.
  intros Hs He Ht. split; [now apply kmb_skips_same_stop|].
  unfold KmbEta_time, mbind, res_bind in Ht.
  destruct eta as [| | |eta_s| | | | | |]; try discriminate Ht.
  cbn [py_fromisoformat] in Ht.
  destruct (fromisoformat eta_s) as [eta_dt|] eqn:Ep; [|discriminate].
  cbn [of_option] in Ht.
  destruct (py_item stop ("dest_" ++ _)) as [dest|]; [|discriminate].
  unfold py_datetime_sub in Ht.
  destruct (datetime_sub eta_dt timestamp) as [td|] eqn:Etd; [|discriminate].
  cbn [of_option] in Ht.
  destruct (py_get stop _ VNone) as [rmk|]; [|discriminate].
  destruct (py_item stop ("rmk_" ++ _)) as [remark|] eqn:Er; [|discriminate].
  exists eta_s, eta_dt, td, remark, (total_seconds_lt td 30).
  destruct (Eta_Time_get _ _ (mkField "is_arriving" FBool None) Ht)
    as (va & Hva & Ea); [cbn; tauto|].
  destruct (Eta_Time_get _ _ (mkField "remark" FOptStr (Some VNone)) Ht)
    as (vr & Hvr & Er'); [cbn; tauto|].
  destruct (Eta_Time_get _ _ (mkField "eta" FOptDatetime (Some VNone)) Ht)
    as (ve & Hve & Ee); [cbn; tauto|].
  cbn [fname ftyp fdefault dict_get String.eqb Ascii.eqb Bool.eqb] in *.
  cbn [validate] in Ea, Ee. injection Ea as <-.
  apply validate_FOptStr in Er'. subst vr.
  repeat split; auto.
  - unfold total_seconds_lt. apply Z.ltb_lt.
  - unfold total_seconds_lt. apply Z.ltb_lt.
  - rewrite Hve, Ee. reflexivity.
Qed.

Lemma payload_not_list v msg l :
  py_getattr v "etas" = Ok (error_payload msg) ->
  py_getattr v "etas" = Ok (VList l) -> False.
Proof. intros H1 H2. rewrite H1 in H2. discriminate. Qed.

(** What the loop returns when it returns a list: the entries collected
    before, followed by the time entries of the next matching upstream
    entries, in upstream order, up to three in all. *)
Lemma KmbEta_loop_list ct self ts (data : list pyval) :
  forall etas st v st' l,
    (List.length etas < 3)%nat ->
    KmbEta_loop ct self ts
      (KmbEta_locale_map (RouteQuery.locale (entry self))) data etas st
    = (Ok v, st') ->
    py_getattr v "etas" = Ok (VList l) ->
    exists new,
      l = (etas ++ new)%list
      /\ Forall2 (kmb_timed self ts)
           (List.firstn (3 - List.length etas)
                        (List.filter (kmb_matches self) data))
           new.
Proof.
  induction data as [|stop rest IH]; intros etas st v st' l Hlen Hrun Hl.
  - cbn [KmbEta_loop] in Hrun. apply g_eta_etas in Hrun.
    rewrite Hrun in Hl. injection Hl as <-.
    exists []. rewrite app_nil_r. split; [reflexivity|].
    cbn. rewrite firstn_nil. constructor.
  - cbn [KmbEta_loop] in Hrun. unfold mbind, M_bind, lift in Hrun.
    cbn [List.filter]. unfold kmb_matches at 1.
    destruct (KmbEta_skips self stop) as [[|]|] eqn:Es; [| |discriminate].
    + eapply IH; eauto.
    + destruct (py_item stop "eta") as [eta|] eqn:Ee; [|discriminate].
      destruct (is_None eta) eqn:En.
      * exfalso.
        destruct (py_item stop "rmk_en") as [r|]; [|discriminate].
        destruct (py_eq r (VStr final_bus_remark)).
        { apply error_eta_etas in Hrun as (m & _ & Hm).
          eapply payload_not_list; eauto. }
        destruct (py_eq r (VStr "")).
        { apply error_eta_etas in Hrun as (m & _ & Hm).
          eapply payload_not_list; eauto. }
        destruct (py_item stop ("rmk_" ++ _)) as [rm|]; [|discriminate].
        apply message_eta_etas in Hrun as (m & Hm).
        eapply payload_not_list; eauto.
      * destruct (KmbEta_time ts _ stop eta) as [t|] eqn:Et; [|discriminate].
        assert (Htimed : kmb_timed self ts stop t).
        { split; [exact Es|]. exists eta. auto. }
        rewrite length_app in Hrun. cbn [List.length] in Hrun.
        destruct (Nat.eqb_spec (List.length etas + 1) 3) as [E3|N3].
        -- apply g_eta_etas in Hrun. rewrite Hrun in Hl. injection Hl as <-.
           exists [t]. split; [reflexivity|].
           replace (3 - List.length etas)%nat with 1%nat by lia.
           cbn. constructor; [exact Htimed|constructor].
        -- destruct (IH (etas ++ [t])%list st v st' l) as (new & -> & HF).
           { rewrite length_app. cbn. lia. }
           { exact Hrun. }
           { exact Hl. }
           exists (t :: new). split; [now rewrite <- app_assoc|].
           rewrite length_app in HF. cbn [List.length] in HF.
           replace (3 - List.length etas)%nat
             with (S (3 - (List.length etas + 1)))%nat by lia.
           cbn [List.firstn]. constructor; assumption.
Qed.

(** The loop reaches an entry that is not skipped and has no [eta]: it
    returns at once, with the end-of-service message when the English
    remark says that the final bus has departed. *)
Lemma KmbEta_loop_final ct self ts (pre : list pyval) e post r :
  KmbEta_skips self e = Ok false ->
  py_item e "eta" = Ok VNone ->
  py_item e "rmk_en" = Ok r ->
  py_eq r (VStr final_bus_remark) = true ->
  forall etas st,
    Forall (kmb_passes self ts) pre ->
    (List.length etas + List.length (List.filter (kmb_matches self) pre)
     < 3)%nat ->
    KmbEta_loop ct self ts
      (KmbEta_locale_map (RouteQuery.locale (entry self)))
      (pre ++ e :: post) etas st
    = error_eta ct self "eos" st.
Proof.
  intros Hs He Hr Hfinal.
  induction pre as [|stop pre IH]; intros etas st Hpre Hcnt.
  - cbn [app KmbEta_loop]. unfold mbind, M_bind, lift.
    rewrite Hs, He. cbn [is_None]. rewrite Hr, Hfinal. reflexivity.
  - inversion Hpre as [|? ? Hstop Hpre']; subst.
    cbn [app KmbEta_loop]. unfold mbind, M_bind, lift.
    cbn [List.filter] in Hcnt. unfold kmb_matches at 1 in Hcnt.
    destruct Hstop as [Hskip|(t & Hskip & eta & Heta & Hnn & Ht)];
      rewrite Hskip in *.
    + apply IH; assumption.
    + rewrite Heta, Hnn, Ht. cbn [List.length] in Hcnt.
      rewrite length_app. cbn [List.length].
      destruct (Nat.eqb_spec (List.length etas + 1) 3) as [E3|N3]; [lia|].
      apply IH; [assumption|]. rewrite length_app. cbn [List.length]. lia.
Qed.

Lemma kmb_same_stop_skips self stop :
  kmb_same_stop self stop <-> KmbEta_skips self stop = Ok false.
Proof.
  split; [|apply kmb_skips_same_stop].
  intros (seq & mine & dir & Hseq & Hmine & Eseq & Hdir & Edir).
  unfold KmbEta_skips, mbind, res_bind.
  rewrite Hseq, Hmine, Eseq. cbn [negb]. rewrite Hdir.
  destruct (RouteQuery.direction (entry self));
    [change (str_first (Direction_value OUTBOUND)) with (Ok "o")
    |change (str_first (Direction_value INBOUND)) with (Ok "i")];
    cbv beta iota;
    [change (str_upper "o") with "O" | change (str_upper "i") with "I"];
    now rewrite Edir.
Qed.

Lemma kmb_response_loop ct self response ts data st :
  kmb_response response ts data ->
  KmbEta_etas ct self (Ok response) st
  = KmbEta_loop ct self ts
      (KmbEta_locale_map (RouteQuery.locale (entry self))) data [] st.
Proof.
  intros (d & s & -> & Hdata & Hts & Hparse).
  unfold KmbEta_etas, mbind, M_bind, lift.
  cbn [py_len py_get py_item dict_item].
  destruct d as [|kv d']; [discriminate|].
  cbn [List.length]. rewrite Hdata. unfold dict_item. rewrite Hdata, Hts.
  cbn [of_option is_None py_fromisoformat]. rewrite Hparse.
  cbn [of_option py_iter].
  destruct (Z.eqb_spec (Z.of_nat (S (List.length d'))) 0) as [E|_]; [lia|].
  reflexivity.
Qed.

Lemma g_eta_renderable ct self p st :
  renderable self ->
  validate FEtas p = Some p ->
  exists v st', _g_eta ct self p st = (Ok v, st')
                /\ py_getattr v "etas" = Ok p.
Proof.
  intros (o & d & s & lg & Ho & Hd & Hs & Hlg & Hshape) Hp.
  assert (Hrun : exists v st', _g_eta ct self p st = (Ok v, st')).
  { unfold _g_eta, mbind, M_bind, lift, datetime_now.
    rewrite Ho, Hd, Hs, Hlg.
    unfold Eta, pydantic_init, mbind, res_bind.
    cbn [pydantic_fields Eta_fields fname ftyp fdefault dict_get
         String.eqb Ascii.eqb Bool.eqb].
    rewrite Hp.
    destruct Hshape as [->|[b ->]]; destruct (RouteQuery.locale (entry self));
      cbn; eauto. }
  destruct Hrun as (v & st' & Hrun). exists v, st'. split; [exact Hrun|].
  eapply g_eta_etas; eauto.
Qed.

Lemma error_eta_renderable ct self code msg st :
  renderable self ->
  _em self code = Ok msg ->
  exists v st', error_eta ct self code st = (Ok v, st')
                /\ py_getattr v "etas" = Ok (error_payload msg).
Proof.
  intros Hr Hm. unfold error_eta, mbind, M_bind, lift. rewrite Hm.
  cbn. apply g_eta_renderable; [exact Hr|reflexivity].
Qed.

(** As the specification states it, the property fails when the final-bus
    entry is not the first entry without an [eta] that the loop reaches:
    after three timed entries
    for the stop the loop has already returned a list of time entries, and
    after an entry without [eta] and with an empty remark it has returned
    "No Data". *)
Lemma KmbEta_final_bus_counterexample :
  kmb_same_stop (kmb1_route EN) kmb_final_entry
  /\ py_item kmb_final_entry "eta" = Ok VNone
  /\ py_item kmb_final_entry "rmk_en" = Ok (VStr final_bus_remark)
  /\ (exists eta t1 t2 t3,
         fst (KmbEta_etas (sample_clock 0) (kmb1_route EN)
                (Ok (kmb_reply (kmb_fixture ++ [kmb_final_entry])))
                sample_state) = Ok eta
         /\ py_getattr eta "etas" = Ok (VList [t1; t2; t3]))
  /\ (exists eta,
         fst (KmbEta_etas (sample_clock 0) (kmb1_route EN)
                (Ok (kmb_reply [kmb_entry VNone "" ""; kmb_final_entry]))
                sample_state) = Ok eta
         /\ py_getattr eta "etas" = Ok (error_payload "No Data")).
Proof.
  split; [|split; [reflexivity|split; [reflexivity|split]]].
  - apply kmb_same_stop_skips. reflexivity.
  - do 4 eexists. split; vm_compute; reflexivity.
  - eexists. split; vm_compute; reflexivity.
Qed.

Lemma em_eos self :
  _em self "eos" = Ok (not_in_service (RouteQuery.locale (entry self))).
Proof.
  unfold _em. cbn. destruct (RouteQuery.locale (entry self)); reflexivity.
Qed.

(** C4 (amended).  For the KMB provider, when the first entry of the
    response that is for the queried stop sequence and direction and has a
    null [eta] carries the English remark "The final bus has departed from
    this stop", and fewer than three entries with an [eta] for that stop
    and direction come before it, [KmbEta.etas] returns a unified ETA whose
    payload is the error payload with the "Not in Service" message of the
    query's locale, and no list of time entries. *)
Theorem KmbEta_final_bus_departed :
  forall (ct : datetime) (self : Route) (response : pyval)
         (timestamp : datetime) (pre post : list pyval) (e : pyval)
         (st : State),
    renderable self ->
    kmb_response response timestamp (pre ++ e :: post) ->
    Forall (kmb_passes self timestamp) pre ->
    (List.length (List.filter (kmb_matches self) pre) < 3)%nat ->
    kmb_same_stop self e ->
    py_item e "eta" = Ok VNone ->
    py_item e "rmk_en" = Ok (VStr final_bus_remark) ->
    exists eta st',
      KmbEta_etas ct self (Ok response) st = (Ok eta, st')
      /\ py_getattr eta "etas"
         = Ok (error_payload
                 (not_in_service (RouteQuery.locale (entry self))))
      /\ forall l, py_getattr eta "etas" <> Ok (VList l).
Proof.
  intros ct self response timestamp pre post e st
         Hr Hresp Hpre Hcnt He Heta Hrmk.
  rewrite (kmb_response_loop _ _ _ _ _ _ Hresp).
  rewrite (KmbEta_loop_final ct self timestamp pre e post
             (VStr final_bus_remark));
    [|now apply kmb_same_stop_skips|assumption|assumption|
      apply String.eqb_refl|assumption|cbn [List.length]; lia].
  destruct (error_eta_renderable ct self "eos" _ st Hr (em_eos self))
    as (v & st' & Hrun & Hp).
  exists v, st'. repeat split; auto.
  intros l Hl. rewrite Hp in Hl. discriminate.
Qed.

Lemma kmb1_renderable l : renderable (kmb1_route l).
Proof.
  destruct l; do 4 eexists;
    (split; [reflexivity|split; [reflexivity|split; [reflexivity|
      split; [reflexivity|right; eexists; reflexivity]]]]).
Qed.

Lemma KmbEta_final_bus_departed_witness :
  exists eta st',
    KmbEta_etas (sample_clock 0) (kmb1_route TC)
      (Ok (kmb_reply [kmb_entry (VStr "2024-03-01T07:36:00+08:00") "" "";
                      kmb_final_entry]))
      sample_state = (Ok eta, st')
    /\ py_getattr eta "etas" = Ok (error_payload "服務時間已過")
    /\ forall l, py_getattr eta "etas" <> Ok (VList l).
Proof.
  apply (KmbEta_final_bus_departed (sample_clock 0) (kmb1_route TC)
           (kmb_reply [kmb_entry (VStr "2024-03-01T07:36:00+08:00") "" "";
                       kmb_final_entry])
           kmb_generated
           [kmb_entry (VStr "2024-03-01T07:36:00+08:00") "" ""] []
           kmb_final_entry sample_state).
  - apply kmb1_renderable.
  - do 2 eexists. repeat split; reflexivity.
  - constructor; [|constructor]. right. eexists. split; [reflexivity|].
    eexists. split; [reflexivity|]. split; [reflexivity|].
    vm_compute. reflexivity.
  - vm_compute. lia.
  - apply kmb_same_stop_skips. reflexivity.
  - reflexivity.
  - reflexivity.
Defined.

(** ** C5: the time entries of the KMB processor *)

(** C5.  When [KmbEta.etas] returns a list of time entries for a KMB
    response, the list is built, in upstream order, from the first three
    (or fewer) upstream entries whose [seq] equals the route's stop
    sequence and whose [dir] equals the first letter, in upper case, of the
    queried direction: it has at most three entries, each one comes from
    such an upstream entry with an [eta], and its [is_arriving] holds
    exactly when the [eta] is less than 30 seconds after
    [generated_timestamp].  On three entries 6, 15 and 23 minutes out, the
    first remarked as delayed, the result has exactly three entries; the
    first is not arriving and carries its remark. *)
Theorem KmbEta_time_entries :
  (forall (ct : datetime) (self : Route) (response : pyval)
          (timestamp : datetime) (data : list pyval) (st st' : State)
          (eta : pyval) (l : list pyval),
      kmb_response response timestamp data ->
      KmbEta_etas ct self (Ok response) st = (Ok eta, st') ->
      py_getattr eta "etas" = Ok (VList l) ->
      (List.length l <= 3)%nat
      /\ Forall2 (kmb_entry_of self timestamp)
           (List.firstn 3 (List.filter (kmb_matches self) data)) l)
  /\ (exists eta t1 t2 t3,
         fst (KmbEta_etas (sample_clock 0) (kmb1_route TC)
                (Ok (kmb_reply kmb_fixture)) sample_state) = Ok eta
         /\ py_getattr eta "etas" = Ok (VList [t1; t2; t3])
         /\ py_getattr t1 "is_arriving" = Ok (VBool false)
         /\ py_getattr t1 "remark" = Ok (VStr "行車受阻")).
Proof.
  split.
  - intros ct self response timestamp data st st' eta l Hresp Hrun Hl.
    rewrite (kmb_response_loop _ _ _ _ _ _ Hresp) in Hrun.
    destruct (KmbEta_loop_list ct self timestamp data [] st eta st' l)
      as (new & -> & HF); [cbn; lia|exact Hrun|exact Hl|].
    cbn [app List.length] in *.
    assert (HF' : Forall2 (kmb_entry_of self timestamp)
                    (List.firstn 3 (List.filter (kmb_matches self) data))
                    new).
    { eapply Forall2_impl; [exact HF|].
      intros s t (Hs & x & Hx & _ & Ht).
      eapply KmbEta_time_entry; eauto. }
    split; [|exact HF'].
    apply Forall2_length in HF'. rewrite <- HF'.
    rewrite length_firstn. lia.
  - do 4 eexists. repeat split; vm_compute; reflexivity.
Qed.

Lemma KmbEta_time_entries_witness :
  exists l,
    (List.length l <= 3)%nat
    /\ Forall2 (kmb_entry_of (kmb1_route TC) kmb_generated)
         (List.firstn 3 (List.filter (kmb_matches (kmb1_route TC))
                                     kmb_fixture)) l.
Proof.
  destruct KmbEta_time_entries as [H _].
  destruct (KmbEta_etas (sample_clock 0) (kmb1_route TC)
              (Ok (kmb_reply kmb_fixture)) sample_state)
    as [r st'] eqn:Erun.
  assert (Hr : exists eta l, r = Ok eta /\ py_getattr eta "etas" = Ok (VList l)).
  { assert (E : r = fst (KmbEta_etas (sample_clock 0) (kmb1_route TC)
                           (Ok (kmb_reply kmb_fixture)) sample_state))
      by now rewrite Erun.
    rewrite E. do 2 eexists. split; vm_compute; reflexivity. }
  destruct Hr as (eta & l & -> & Hl).
  exists l.
  apply (H (sample_clock 0) (kmb1_route TC) (kmb_reply kmb_fixture)
           kmb_generated kmb_fixture sample_state st' eta l).
  - do 2 eexists. repeat split; reflexivity.
  - exact Erun.
  - exact Hl.
Defined.

(** ** ISO-8601 text round trip *)

Lemma digit_round_trip (d : Z) :
  0 <= d < 10 -> digit_of_ascii (ascii_of_digit d) = Some d.
Proof.
  intros H.
  assert (E : d = 0 \/ d = 1 \/ d = 2 \/ d = 3 \/ d = 4 \/ d = 5 \/ d = 6
              \/ d = 7 \/ d = 8 \/ d = 9) by lia.
  repeat (destruct E as [->|E]; [reflexivity|]). subst. reflexivity.
Qed.

Lemma read_digits_snoc (w : nat) :
  forall acc s,
    read_digits (S w) acc s
    = match read_digits w acc s with
      | Some (v, String c r) =>
          match digit_of_ascii c with
          | Some d => Some (10 * v + d, r)
          | None => None
          end
      | _ => None
      end.
Proof.
  induction w as [|w IH]; intros acc s.
  - cbn [read_digits]. destruct s as [|c r]; [reflexivity|].
    destruct (digit_of_ascii c); reflexivity.
  - remember (S w) as w' eqn:Ew. cbn [read_digits].
    destruct s as [|c r]; [subst; reflexivity|].
    destruct (digit_of_ascii c) as [d|] eqn:Ed; subst w'.
    + rewrite IH.
      change (read_digits (S w) acc (String c r))
        with (match digit_of_ascii c with
              | Some d => read_digits w (10 * acc + d) r
              | None => None
              end).
      now rewrite Ed.
    + change (read_digits (S w) acc (String c r))
        with (match digit_of_ascii c with
              | Some d => read_digits w (10 * acc + d) r
              | None => None
              end).
      now rewrite Ed.
Qed.

Lemma read_fmt_digits (w : nat) :
  forall n rest,
    0 <= n < 10 ^ Z.of_nat w ->
    read_digits w 0 (fmt_digits w n rest) = Some (n, rest).
Proof.
  induction w as [|w IH]; intros n rest Hn.
  - cbn. f_equal. f_equal. cbn in Hn. lia.
  - rewrite read_digits_snoc. cbn [fmt_digits].
    rewrite Nat2Z.inj_succ, Z.pow_succ_r in Hn by lia.
    rewrite IH by (split; [apply Z.div_pos; lia
                          |apply Z.div_lt_upper_bound; lia]).
    rewrite digit_round_trip by (apply Z.mod_pos_bound; lia).
    f_equal. f_equal. pose proof (Z.div_mod n 10). lia.
Qed.

Lemma days_in_month_le (y m : Z) : days_in_month y m <= 31.
Proof.
  unfold days_in_month.
  destruct (m =? 2); [destruct (is_leap y); lia|].
  destruct ((m =? 4) || (m =? 6) || (m =? 9) || (m =? 11)); lia.
Qed.

(** A naive [datetime] written by [isoformat(timespec='seconds')] is read
    back by [fromisoformat] with its microseconds dropped. *)
Lemma isoformat_round_trip (d : datetime) :
  valid_datetime d = true ->
  tzinfo d = None ->
  fromisoformat (isoformat_seconds d) = Some (replace_microsecond d 0).
Proof.
  intros Hv Htz. pose proof Hv as Hv'. unfold valid_datetime in Hv'.
  repeat (apply andb_prop in Hv' as [Hv' ?]).
  repeat match goal with
         | H : (_ <=? _) = true |- _ => apply Z.leb_le in H
         | H : (_ <? _) = true |- _ => apply Z.ltb_lt in H
         end.
  pose proof (days_in_month_le (year d) (month d)).
  unfold fromisoformat, isoformat_seconds.
  rewrite read_fmt_digits by (cbn; lia). cbn [expect Ascii.eqb Bool.eqb].
  rewrite read_fmt_digits by (cbn; lia). cbn [expect Ascii.eqb Bool.eqb].
  rewrite read_fmt_digits by (cbn; lia).
  rewrite read_fmt_digits by (cbn; lia). cbn [expect Ascii.eqb Bool.eqb].
  rewrite read_fmt_digits by (cbn; lia). cbn [expect Ascii.eqb Bool.eqb].
  rewrite read_fmt_digits by (cbn; lia).
  rewrite Htz. cbn [fmt_offset read_offset].
  assert (E : valid_datetime
                (mkdt (year d) (month d) (day d) (hour d) (minute d)
                      (second d) 0 None) = true).
  { unfold valid_datetime in *. cbn [year month day hour minute second
                                      microsecond].
    repeat (apply andb_prop in Hv as [Hv ?]).
    repeat (apply andb_true_intro; split); auto. }
  rewrite E. unfold replace_microsecond. now rewrite Htz.
Qed.

(** ** JSON round trip *)


Lemma sset_fresh {A} (k : string) (v : A) (acc : list (string * A)) :
  sget k acc = None -> sset k v acc = (acc ++ [(k, v)])%list.
Proof.
  induction acc as [|[k' v'] acc IH]; cbn [dict_get dict_set app];
    [reflexivity|].
  destruct (String.eqb k k'); [discriminate|].
  intros H. now rewrite IH.
Qed.

Lemma sget_snoc_other {A} (k k' : string) (v : A) (acc : list (string * A)) :
  String.eqb k k' = false ->
  sget k (acc ++ [(k', v)])%list = sget k acc.
Proof.
  intros Hne. induction acc as [|[k0 v0] acc IH]; cbn [dict_get app].
  - now rewrite Hne.
  - destruct (String.eqb k k0); [reflexivity|exact IH].
Qed.

(** Reading the members of an object whose keys are distinct and new. *)
Lemma load_members {A B} (f : A -> B) (m : list (string * A)) :
  forall acc : list (string * B),
    distinct (dict_keys m) = true ->
    (forall k, In k (dict_keys m) -> sget k acc = None) ->
    fold_left (fun acc kx => sset (fst kx) (f (snd kx)) acc) m acc
    = (acc ++ map (fun kx => (fst kx, f (snd kx))) m)%list.
Proof.
  induction m as [|[k x] m IH]; intros acc Hd Hnew; cbn [fold_left map].
  - now rewrite app_nil_r.
  - cbn [dict_keys map fst distinct] in Hd.
    apply andb_prop in Hd as [Hk Hd]. apply negb_true_iff in Hk.
    cbn [fst snd]. rewrite sset_fresh by (apply Hnew; now left).
    rewrite IH; [now rewrite <- app_assoc|exact Hd|].
    intros k' Hin. rewrite sget_snoc_other.
    + apply Hnew. now right.
    + destruct (String.eqb k' k) eqn:E; [|reflexivity].
      apply String.eqb_eq in E. subst k'.
      assert (existsb (String.eqb k) (dict_keys m) = true).
      { apply existsb_exists. exists k. split; [exact Hin|].
        apply String.eqb_refl. }
      unfold dict_keys in *. congruence.
Qed.

Lemma dump_seq (l : list pyval) :
  List.Forall (fun v => json_serialisable v = true ->
                        exists j, json_dump v = Ok j
                                  /\ json_load j = listify v) l ->
  forallb json_serialisable l = true ->
  exists js, res_map json_dump l = Ok js
             /\ map json_load js = map listify l.
Proof.
  induction 1 as [|x r Hx _ IH]; cbn [forallb res_map map]; intros Hs.
  - exists []. split; reflexivity.
  - apply andb_prop in Hs as [Hsx Hsr].
    destruct (Hx Hsx) as (j & Hj & Hl). destruct (IH Hsr) as (js & Hjs & Hls).
    exists (j :: js). rewrite Hj. fold (res_map json_dump). rewrite Hjs.
    split; [reflexivity|]. cbn [map]. now rewrite Hl, Hls.
Qed.

Lemma dump_members (d : list (string * pyval)) :
  List.Forall (fun kv => json_serialisable (snd kv) = true ->
                         exists j, json_dump (snd kv) = Ok j
                                   /\ json_load j = listify (snd kv)) d ->
  forallb (fun kx => json_serialisable (snd kx)) d = true ->
  exists js,
    res_map (fun kx => match json_dump (snd kx) with
                       | Ok j => Ok (fst kx, j)
                       | Raise e => Raise e
                       end) d = Ok js
    /\ dict_keys js = dict_keys d
    /\ map (fun kx => (fst kx, json_load (snd kx))) js
       = map (fun kx => (fst kx, listify (snd kx))) d.
Proof.
  induction 1 as [|[k x] r Hx _ IH]; cbn [forallb res_map map]; intros Hs.
  - exists []. repeat split; reflexivity.
  - apply andb_prop in Hs as [Hsx Hsr]. cbn [fst snd] in *.
    destruct (Hx Hsx) as (j & Hj & Hl). destruct (IH Hsr) as (js & Hjs & Hk & Hls).
    exists ((k, j) :: js). rewrite Hj.
    match goal with
    | |- context [match ?t with Ok _ => _ | Raise _ => _ end] =>
        change t with (res_map (fun kx => match json_dump (snd kx) with
                                          | Ok j => Ok (fst kx, j)
                                          | Raise e => Raise e
                                          end) r)
    end.
    rewrite Hjs. repeat split.
    + unfold dict_keys in *. cbn [map fst]. now rewrite Hk.
    + cbn [map fst snd]. now rewrite Hl, Hls.
Qed.

(** What [json.dump] writes, [json.load] reads back, tuples as lists. *)
Lemma json_round_trip (v : pyval) :
  json_serialisable v = true ->
  exists j, json_dump v = Ok j /\ json_load j = listify v.
Proof.
  induction v as [| | | | | |l IH|l IH|d IH|c fs IH] using pyval_induction;
    cbn [json_serialisable]; intros Hs; try discriminate;
    try (eexists; split; reflexivity).
  - destruct (dump_seq l IH Hs) as (js & Hjs & Hl).
    exists (JArr js). cbn [json_dump]. rewrite Hjs.
    split; [reflexivity|]. cbn [json_load listify]. now rewrite Hl.
  - destruct (dump_seq l IH Hs) as (js & Hjs & Hl).
    exists (JArr js). cbn [json_dump]. rewrite Hjs.
    split; [reflexivity|]. cbn [json_load listify]. now rewrite Hl.
  - apply andb_prop in Hs as [Hd Hs].
    destruct (dump_members d IH Hs) as (js & Hjs & Hk & Hl).
    exists (JObj js). cbn [json_dump]. rewrite Hjs.
    split; [reflexivity|]. cbn [json_load listify].
    rewrite load_members; [now rewrite Hl|now rewrite Hk|reflexivity].
Qed.

Lemma tuple_free_listify (v : pyval) :
  tuple_free v = true -> listify v = v.
Proof.
  induction v as [| | | | | |l IH|l IH|d IH|c fs IH] using pyval_induction;
    cbn [tuple_free listify]; intros Hs; try reflexivity; try discriminate.
  - f_equal. induction IH as [|x r Hx _ IHr]; [reflexivity|].
    cbn [forallb] in Hs. apply andb_prop in Hs as [Hsx Hsr].
    cbn [map]. now rewrite Hx, IHr.
  - f_equal. induction IH as [|[k x] r Hx _ IHr]; [reflexivity|].
    cbn [forallb snd] in Hs. apply andb_prop in Hs as [Hsx Hsr].
    cbn [map fst snd] in *. now rewrite Hx, IHr.
Qed.

(** ** C6: the catalog wrapper on disk *)

Lemma tuple_free_listify_all (l : list pyval) :
  forallb tuple_free l = true -> map listify l = l.
Proof.
  induction l as [|x r IH]; [reflexivity|].
  cbn [forallb map]. intros H. apply andb_prop in H as [Hx Hr].
  now rewrite (tuple_free_listify x Hx), IH.
Qed.



(** ** C2: staleness of the catalog records *)

Lemma datetime_sub_naive (a b : datetime) :
  tzinfo a = None -> tzinfo b = None ->
  datetime_sub a b = Some (naive_sub a b).
Proof. intros Ha Hb. unfold datetime_sub. now rewrite Ha, Hb. Qed.

Lemma older_than_threshold_naive self lastupd st :
  naive_clock st -> tzinfo lastupd = None ->
  older_than_threshold self lastupd st
  = (Ok (threshold self <? whole_days (clock st (ticks st)) lastupd),
     tick st).
Proof.
  intros Hc Hl.
  unfold older_than_threshold, mbind, M_bind, datetime_now, lift, mret, M_ret.
  rewrite datetime_sub_naive by auto. reflexivity.
Qed.

Lemma is_outdated_record self record lastupd data st :
  naive_clock st ->
  cache_record record lastupd data ->
  _is_outdated self record st
  = (Ok (threshold self <? whole_days (clock st (ticks st)) lastupd),
     tick st).
Proof.
  intros Hc (d & lu & -> & Hlu & Hparse & Htz & _).
  unfold _is_outdated, mbind, M_bind, lift.
  cbn [py_item]. unfold dict_item. rewrite Hlu. cbn [of_option].
  cbn [py_fromisoformat]. rewrite Hparse. cbn [of_option].
  now apply older_than_threshold_naive.
Qed.

Lemma is_outdated_missing self path st :
  fs st !! path = None ->
  _is_outdated self (VStr path) st = (Ok true, st).
Proof.
  intros Hf. unfold _is_outdated, mbind, M_bind, lookup_file.
  now rewrite Hf.
Qed.

Lemma load_file_doc path j st :
  fs st !! path = Some (Doc j) ->
  load_file path st = (Ok (json_load j), st).
Proof.
  intros Hf. unfold load_file, mbind, M_bind, lookup_file. now rewrite Hf.
Qed.

Lemma is_outdated_file self path j lastupd data st :
  naive_clock st ->
  fs st !! path = Some (Doc j) ->
  cache_record (json_load j) lastupd data ->
  _is_outdated self (VStr path) st
  = (Ok (threshold self <? whole_days (clock st (ticks st)) lastupd),
     tick st).
Proof.
  intros Hc Hf (d & lu & Hd & Hlu & Hparse & Htz & _).
  unfold _is_outdated, mbind, M_bind. unfold lookup_file at 1. rewrite Hf.
  rewrite (load_file_doc _ _ _ Hf). unfold lift. rewrite Hd.
  cbn [py_item]. unfold dict_item. rewrite Hlu. cbn [of_option].
  cbn [py_fromisoformat]. rewrite Hparse. cbn [of_option].
  now apply older_than_threshold_naive.
Qed.

Lemma wrapper_serialisable now data :
  json_serialisable data = true ->
  json_serialisable (wrapper now data) = true.
Proof.
  intros H. unfold wrapper.
  cbn [json_serialisable dict_keys map fst snd forallb]. now rewrite H.
Qed.

Lemma put_data_file_wrapper path now data st :
  json_serialisable data = true ->
  exists j,
    json_load j = listify (wrapper now data)
    /\ _put_data_file path (wrapper now data) st
       = (Ok tt,
          mkState (clock st) (ticks st) (<[path := Doc j]> (fs st))
                  (fetched st) (_routes st)).
Proof.
  intros H.
  destruct (json_round_trip _ (wrapper_serialisable now data H))
    as (j & Hj & Hl).
  exists j. split; [exact Hl|].
  unfold _put_data_file. now rewrite Hj.
Qed.


Lemma cache_record_not_None record lastupd data :
  cache_record record lastupd data -> is_None record = false.
Proof. intros (d & lu & -> & _). reflexivity. Qed.

Lemma cache_record_data record lastupd data :
  cache_record record lastupd data -> py_item record "data" = Ok data.
Proof.
  intros (d & lu & -> & _ & _ & _ & Hd).
  cbn [py_item]. unfold dict_item. now rewrite Hd.
Qed.

Lemma wrapper_record now data :
  valid_datetime now = true -> tzinfo now = None ->
  cache_record (wrapper now data) (replace_microsecond now 0) data.
Proof.
  intros Hv Htz. exists [("last_update", VStr (isoformat_seconds now));
                         ("data", data)], (isoformat_seconds now).
  repeat split; try reflexivity.
  - now apply isoformat_round_trip.
  - exact Htz.
Qed.

(** The route list is memoised and fresh: it is served from memory. *)
Lemma route_list_memo_fresh self st record lastupd data :
  naive_clock st ->
  _routes st = record ->
  cache_record record lastupd data ->
  whole_days (clock st (ticks st)) lastupd <= threshold self ->
  route_list self st = (Ok data, tick st).
Proof.
  intros Hc Hm Hrec Hfresh.
  unfold route_list, mbind, M_bind, get_routes. rewrite Hm.
  rewrite (cache_record_not_None _ _ _ Hrec).
  unfold mret at 1, M_ret at 1. rewrite Hm.
  rewrite (is_outdated_record self record lastupd data st Hc Hrec).
  destruct (Z.ltb_spec (threshold self)
              (whole_days (clock st (ticks st)) lastupd)) as [H|_]; [lia|].
  unfold mret, M_ret, lift. cbn [_routes tick]. rewrite Hm.
  now rewrite (cache_record_data _ _ _ Hrec).
Qed.


(** The route list is not memoised and its file exists: the file is loaded
    and the read goes on as for a memoised record. *)
Lemma route_list_from_file self st j0 :
  _routes st = VNone ->
  fs st !! route_list_path self = Some (Doc j0) ->
  is_None (json_load j0) = false ->
  route_list self st
  = route_list self
      (mkState (clock st) (ticks st) (fs st) (fetched st) (json_load j0)).
Proof.
  intros Hm Hf Hn.
  unfold route_list, mbind, M_bind, get_routes. rewrite Hm.
  cbn [is_None _routes]. rewrite Hn.
  unfold lookup_file at 1. rewrite Hf.
  rewrite (load_file_doc _ _ _ Hf).
  unfold set_routes, mret, M_ret. cbn [_routes]. reflexivity.
Qed.


Section StopListRead.
Variables (self : Transport) (st : State).
Variables (rrecord routes : pyval) (rlast : datetime).
Variables (no : string) (dir : Direction) (svc : string).
Hypothesis Hclock : naive_clock st.
Hypothesis Hmemo : _routes st = rrecord.
Hypothesis Hrrecord : cache_record rrecord rlast routes.
Hypothesis Hrfresh :
  whole_days (clock st (ticks st)) rlast <= threshold self.
Hypothesis Hknown : py_has_key routes no = Ok true.

Lemma stop_list_after_route_list :
  stop_list self no dir svc st
  = (outdated ← _is_outdated self (VStr (stop_list_path self no dir svc));
     if outdated : bool then
       stops ← _fetch_stop_list self no dir svc;
       record ← _append_timestamp (VTuple stops);
       _put_data_file (stop_list_path self no dir svc) record;;
       mret (VTuple stops)
     else
       doc ← load_file (stop_list_path self no dir svc);
       stops ← lift (py_item doc "data");
       lift (py_tuple stops)) (tick st).
Proof using Hclock Hmemo Hrrecord Hrfresh Hknown.
  unfold stop_list. unfold mbind at 1, M_bind at 1.
  rewrite (route_list_memo_fresh self st rrecord rlast routes
             Hclock Hmemo Hrrecord Hrfresh).
  unfold mbind at 1, M_bind at 1, lift at 1. rewrite Hknown.
  reflexivity.
Qed.

(** The stop list file is fresh: it is served from disk. *)
Lemma stop_list_fresh j lastupd data stops :
  fs st !! stop_list_path self no dir svc = Some (Doc j) ->
  cache_record (json_load j) lastupd data ->
  whole_days (clock st (S (ticks st))) lastupd <= threshold self ->
  py_tuple data = Ok stops ->
  stop_list self no dir svc st = (Ok stops, tick (tick st)).
Proof using Hclock Hmemo Hrrecord Hrfresh Hknown.
  intros Hf Hrec Hfresh Htuple.
  rewrite stop_list_after_route_list. unfold mbind at 1, M_bind at 1.
  rewrite (is_outdated_file self _ j lastupd data (tick st) Hclock Hf Hrec).
  cbn [tick clock ticks].
  destruct (Z.ltb_spec (threshold self)
              (whole_days (clock st (S (ticks st))) lastupd)) as [H|_];
    [lia|].
  unfold mbind, M_bind.
  rewrite (load_file_doc _ j (tick (tick st)) Hf). unfold lift.
  now rewrite (cache_record_data _ _ _ Hrec), Htuple.
Qed.

End StopListRead.

Lemma sample_clock_naive (d h : Z) : naive_clock (memo_state d h).
Proof. intros n. reflexivity. Qed.

Lemma memo_record (d h : Z) :
  valid_datetime (memo_time d h) = true ->
  cache_record (wrapper (memo_time d h) kmb_routes) (memo_time d h)
               kmb_routes.
Proof. intros Hv. now apply (wrapper_record (memo_time d h) kmb_routes). Qed.

(** ** Reads served from the memoised route list *)

Lemma routes_memoised_read self st routes n :
  routes_memoised self st routes (S n) ->
  route_list self st = (Ok routes, tick st)
  /\ routes_memoised self (tick st) routes n.
Proof.
  intros (Hc & lastupd & Hrec & Hfresh). split.
  - apply (route_list_memo_fresh self st (_routes st) lastupd routes);
      auto.
    specialize (Hfresh 0%nat). rewrite Nat.add_0_r in Hfresh.
    apply Hfresh. lia.
  - split; [exact Hc|]. exists lastupd. split; [exact Hrec|].
    intros k Hk. cbn [tick clock ticks].
    replace (S (ticks st) + k)%nat with (ticks st + S k)%nat by lia.
    apply Hfresh. lia.
Qed.

Lemma check_route_memoised self st routes no n :
  routes_memoised self st routes (S n) ->
  py_has_key routes no = Ok true ->
  check_route self no st = (Ok tt, tick st).
Proof.
  intros Hm Hknown. unfold check_route, mbind, M_bind, lift.
  destruct (routes_memoised_read _ _ _ _ Hm) as [-> _].
  now rewrite Hknown.
Qed.

Lemma NewLantaoBus_service_memoised self st routes no dir svc n
  info bounds services id_ :
  routes_memoised self st routes (S n) ->
  py_item routes no = Ok info ->
  py_item info (Direction_value dir) = Ok bounds ->
  py_iter bounds = Ok services ->
  NewLantaoBus_route_id svc services = Ok id_ ->
  NewLantaoBus_service self no dir svc st = (Ok id_, tick st).
Proof.
  intros Hm Hinfo Hb Hit Hid.
  unfold NewLantaoBus_service, mbind, M_bind, lift.
  destruct (routes_memoised_read _ _ _ _ Hm) as [-> _].
  now rewrite Hinfo, Hb, Hit, Hid.
Qed.

Lemma fetch_stops_ok self no dir svc new st :
  upstream_stop_list self no dir svc (List.length (fetched st)) = Ok new ->
  fetch_stops self no dir svc st
  = (Ok new, after_fetch st 0 (FetchStopList no dir svc)).
Proof.
  intros Hup. unfold fetch_stops, mbind, M_bind, log_fetch, lift, after_fetch.
  cbn [fetched]. now rewrite Hup, Nat.add_0_r.
Qed.

(** The provider's [_fetch_stop_list] while the route list is memoised and
    fresh: the guards read the route list from memory, and the operator is
    called once. *)
Lemma fetch_stop_list_memoised self st routes no dir svc id_ new :
  routes_memoised self st routes (prelude_reads (cls self)) ->
  py_has_key routes no = Ok true ->
  guards_pass self routes no dir svc id_ ->
  stops_upstream self no dir svc id_ (List.length (fetched st)) = Ok new ->
  _fetch_stop_list self no dir svc st
  = (Ok new,
     after_fetch st (prelude_reads (cls self)) (FetchStopList no dir svc)).
Proof.
  unfold _fetch_stop_list, guards_pass, stops_upstream.
  destruct (cls self); cbn [prelude_reads]; intros Hm Hknown Hg Hup.
  - unfold mbind at 1, M_bind at 1.
    rewrite (check_route_memoised _ _ _ _ _ Hm Hknown).
    rewrite (fetch_stops_ok self no dir svc new (tick st) Hup).
    unfold after_fetch. cbn [tick clock ticks fs fetched _routes].
    now rewrite Nat.add_0_r, Nat.add_1_r.
  - subst svc. unfold check_service_type.
    cbn [String.eqb Ascii.eqb Bool.eqb negb].
    unfold mbind at 1, M_bind at 1, mret at 1, M_ret at 1.
    now rewrite (fetch_stops_ok self no dir "default" new st Hup).
  - subst svc. unfold check_service_type.
    cbn [String.eqb Ascii.eqb Bool.eqb negb].
    unfold mbind at 1, M_bind at 1, mret at 1, M_ret at 1.
    unfold mbind at 1, M_bind at 1.
    rewrite (check_route_memoised _ _ _ _ _ Hm Hknown).
    rewrite (fetch_stops_ok self no dir "default" new (tick st) Hup).
    unfold after_fetch. cbn [tick clock ticks fs fetched _routes].
    now rewrite Nat.add_0_r, Nat.add_1_r.
  - subst svc. unfold check_service_type.
    cbn [String.eqb Ascii.eqb Bool.eqb negb].
    unfold mbind at 1, M_bind at 1, mret at 1, M_ret at 1.
    unfold mbind at 1, M_bind at 1.
    rewrite (check_route_memoised _ _ _ _ _ Hm Hknown).
    rewrite (fetch_stops_ok self no dir "default" new (tick st) Hup).
    unfold after_fetch. cbn [tick clock ticks fs fetched _routes].
    now rewrite Nat.add_0_r, Nat.add_1_r.
  - subst svc. unfold check_service_type.
    cbn [String.eqb Ascii.eqb Bool.eqb negb].
    unfold mbind at 1, M_bind at 1, mret at 1, M_ret at 1.
    unfold mbind at 1, M_bind at 1.
    rewrite (check_route_memoised _ _ _ _ _ Hm Hknown).
    rewrite (fetch_stops_ok self no dir "default" new (tick st) Hup).
    unfold after_fetch. cbn [tick clock ticks fs fetched _routes].
    now rewrite Nat.add_0_r, Nat.add_1_r.
  - destruct Hg as (info & bounds & services & Hinfo & Hb & Hit & Hid).
    destruct (routes_memoised_read _ _ _ _ Hm) as [_ Hm'].
    unfold mbind at 1, M_bind at 1.
    rewrite (check_route_memoised _ _ _ _ _ Hm Hknown).
    unfold mbind at 1, M_bind at 1.
    rewrite (NewLantaoBus_service_memoised _ _ _ _ _ _ _ _ _ _ _
               Hm' Hinfo Hb Hit Hid).
    unfold mbind, M_bind, log_fetch, lift, after_fetch.
    cbn [tick clock ticks fs fetched _routes]. rewrite Hup.
    now replace (ticks st + 2)%nat with (S (S (ticks st))) by lia.
Qed.

(** The record of a stop list is written with the reading of the clock. *)
Lemma write_stops_ok path new st :
  forallb json_serialisable new = true ->
  exists j,
    json_load j = listify (wrapper (clock st (ticks st)) (VTuple new))
    /\ (record ← _append_timestamp (VTuple new);
        _put_data_file path record;;
        mret (VTuple new)) st
       = (Ok (VTuple new),
          mkState (clock st) (S (ticks st)) (<[path := Doc j]> (fs st))
                  (fetched st) (_routes st)).
Proof.
  intros Hs.
  assert (Hs' : json_serialisable (VTuple new) = true) by exact Hs.
  destruct (json_round_trip _ (wrapper_serialisable (clock st (ticks st))
                                 (VTuple new) Hs')) as (j & Hj & Hl).
  exists j. split; [exact Hl|].
  unfold _append_timestamp, _put_data_file, mbind, M_bind,
    datetime_now, mret, M_ret, write_file.
  fold (wrapper (clock st (ticks st)) (VTuple new)). rewrite Hj.
  reflexivity.
Qed.

(** The refresh of a stop list while the route list is memoised and fresh:
    one upstream call, then the tuple of stops is written with the reading
    of the clock. *)
Lemma refresh_stop_list_ok self st routes no dir svc id_ new :
  routes_memoised self st routes (prelude_reads (cls self)) ->
  py_has_key routes no = Ok true ->
  guards_pass self routes no dir svc id_ ->
  stops_upstream self no dir svc id_ (List.length (fetched st)) = Ok new ->
  forallb json_serialisable new = true ->
  exists j,
    json_load j
    = listify (wrapper (clock st (ticks st + prelude_reads (cls self)))
                       (VTuple new))
    /\ (stops ← _fetch_stop_list self no dir svc;
        record ← _append_timestamp (VTuple stops);
        _put_data_file (stop_list_path self no dir svc) record;;
        mret (VTuple stops)) st
       = (Ok (VTuple new),
          mkState (clock st) (S (ticks st + prelude_reads (cls self)))
                  (<[stop_list_path self no dir svc := Doc j]> (fs st))
                  (fetched st ++ [FetchStopList no dir svc])
                  (_routes st)).
Proof.
  intros Hm Hknown Hg Hup Hs.
  destruct (write_stops_ok (stop_list_path self no dir svc) new
              (after_fetch st (prelude_reads (cls self))
                           (FetchStopList no dir svc)) Hs)
    as (j & Hj & Hrun).
  exists j. split; [exact Hj|].
  unfold mbind at 1, M_bind at 1.
  rewrite (fetch_stop_list_memoised _ _ _ _ _ _ _ _ Hm Hknown Hg Hup).
  exact Hrun.
Qed.

(** The stop list file is missing: the stops are fetched once and the
    file is written. *)
Lemma stop_list_missing self st routes no dir svc id_ new :
  routes_memoised self st routes (S (prelude_reads (cls self))) ->
  py_has_key routes no = Ok true ->
  guards_pass self routes no dir svc id_ ->
  fs st !! stop_list_path self no dir svc = None ->
  stops_upstream self no dir svc id_ (List.length (fetched st)) = Ok new ->
  forallb json_serialisable new = true ->
  exists j,
    json_load j
    = listify (wrapper (clock st (ticks st + S (prelude_reads (cls self))))
                       (VTuple new))
    /\ stop_list self no dir svc st
       = (Ok (VTuple new),
          mkState (clock st) (ticks st + S (S (prelude_reads (cls self))))
                  (<[stop_list_path self no dir svc := Doc j]> (fs st))
                  (fetched st ++ [FetchStopList no dir svc])
                  (_routes st)).
Proof.
  intros Hm Hknown Hg Hf Hup Hs.
  destruct (routes_memoised_read _ _ _ _ Hm) as [_ Hm'].
  destruct (refresh_stop_list_ok self (tick st) routes no dir svc id_ new
              Hm' Hknown Hg Hup Hs) as (j & Hj & Hrun).
  exists j. cbn [tick clock ticks fs fetched _routes] in Hj, Hrun.
  replace (ticks st + S (prelude_reads (cls self)))%nat
    with (S (ticks st) + prelude_reads (cls self))%nat by lia.
  replace (ticks st + S (S (prelude_reads (cls self))))%nat
    with (S (S (ticks st) + prelude_reads (cls self))) by lia.
  split; [exact Hj|].
  destruct Hm as (Hc & lastupd & Hrec & Hfresh).
  rewrite (stop_list_after_route_list self st (_routes st) routes lastupd
             no dir svc Hc eq_refl Hrec).
  - unfold mbind at 1, M_bind at 1.
    rewrite (is_outdated_missing self _ (tick st) Hf).
    exact Hrun.
  - specialize (Hfresh 0%nat). rewrite Nat.add_0_r in Hfresh.
    apply Hfresh. lia.
  - exact Hknown.
Qed.


Lemma routes_memoised_le self st routes n m :
  (m <= n)%nat ->
  routes_memoised self st routes n ->
  routes_memoised self st routes m.
Proof.
  intros Hle (Hc & lastupd & Hrec & Hfresh). split; [exact Hc|].
  exists lastupd. split; [exact Hrec|]. intros k Hk. apply Hfresh. lia.
Qed.



Lemma memo_state_memoised (self : Transport) (d h : Z) (n : nat) :
  valid_datetime (memo_time d h) = true ->
  (forall k, (k < n)%nat ->
             whole_days (sample_clock k) (memo_time d h) <= threshold self) ->
  routes_memoised self (memo_state d h) kmb_routes n.
Proof.
  intros Hv Hfresh. split; [apply sample_clock_naive|].
  exists (memo_time d h). split; [now apply memo_record|].
  intros k Hk. cbn [memo_state clock ticks Nat.add]. now apply Hfresh.
Qed.


(** * Further properties *)

Lemma Route_bounds_memoised self st routes n info bounds :
  routes_memoised (provider self) st routes (S n) ->
  py_item routes (RouteQuery.no (entry self)) = Ok info ->
  py_item info (Direction_value (RouteQuery.direction (entry self)))
  = Ok bounds ->
  Route_bounds self st = (Ok bounds, tick st).
Proof.
  intros Hm Hinfo Hb. unfold Route_bounds, mbind, M_bind, lift.
  destruct (routes_memoised_read _ _ _ _ Hm) as [-> _].
  now rewrite Hinfo, Hb.
Qed.

(** ** [Route.id] and [NlbEta] *)

Lemma Route_id_loop_list self services :
  Forall (fun s => exists v, py_item s "service_type" = Ok v) services ->
  forall st bounds,
    Route_bounds self st = (Ok (VList bounds), tick st) ->
    Route_id_loop self services st
    = if existsb (service_is (RouteQuery.service_type (entry self)))
                 services
      then (Raise TypeError, tick st)
      else (Raise (ServiceTypeNotExist
                     (RouteQuery.service_type (entry self))), st).
Proof.
  induction 1 as [|s rest (v & Hv) _ IH]; intros st bounds Hb;
    cbn [Route_id_loop existsb].
  - reflexivity.
  - unfold mbind at 1, M_bind at 1, lift at 1. unfold service_is at 1.
    rewrite Hv.
    destruct (py_eq v _); cbn [orb].
    + unfold mbind, M_bind. rewrite Hb. reflexivity.
    + now apply (IH st bounds).
Qed.

Lemma Route_id_run :
  forall (self : Route) (st : State) (routes info : pyval)
         (bounds : list pyval),
    routes_memoised (provider self) st routes 2 ->
    py_item routes (RouteQuery.no (entry self)) = Ok info ->
    py_item info (Direction_value (RouteQuery.direction (entry self)))
    = Ok (VList bounds) ->
    Forall (fun s => exists v, py_item s "service_type" = Ok v) bounds ->
    Route_id self st
    = if existsb (service_is (RouteQuery.service_type (entry self))) bounds
      then (Raise TypeError, tick (tick st))
      else (Raise (ServiceTypeNotExist
                     (RouteQuery.service_type (entry self))), tick st).
Proof.
  intros self st routes info bounds Hm Hinfo Hb Hsvc.
  unfold Route_id, mbind, M_bind, lift.
  rewrite (Route_bounds_memoised self st routes 1 info (VList bounds)
             Hm Hinfo Hb).
  cbn [py_iter].
  destruct (routes_memoised_read _ _ _ _ Hm) as [_ Hm1].
  exact (Route_id_loop_list self bounds Hsvc (tick st) bounds
           (Route_bounds_memoised self (tick st) routes 0 info
              (VList bounds) Hm1 Hinfo Hb)).
Qed.

(** [Route.id] never returns the route id.  It indexes the list of bounds
    of the route, not the bound it found, with ['route_id']: when a bound
    of the queried service type exists the method raises [TypeError], and
    otherwise [ServiceTypeNotExist]. *)
Theorem Route_id_never_returns :
  forall (self : Route) (st : State) (routes info : pyval)
         (bounds : list pyval),
    routes_memoised (provider self) st routes 2 ->
    py_item routes (RouteQuery.no (entry self)) = Ok info ->
    py_item info (Direction_value (RouteQuery.direction (entry self)))
    = Ok (VList bounds) ->
    Forall (fun s => exists v, py_item s "service_type" = Ok v) bounds ->
    fst (Route_id self st)
    = if existsb (service_is (RouteQuery.service_type (entry self))) bounds
      then Raise TypeError
      else Raise (ServiceTypeNotExist
                    (RouteQuery.service_type (entry self))).
Proof.
  intros self st routes info bounds Hm Hinfo Hb Hsvc.
  rewrite (Route_id_run self st routes info bounds Hm Hinfo Hb Hsvc).
  destruct (existsb _ bounds); reflexivity.
Qed.

Lemma nlb_state_memoised n :
  (n <= 100)%nat ->
  routes_memoised (sample_transport NewLantaoBus) nlb_state nlb_routes n.
Proof.
  intros Hn. split; [intros k; reflexivity|].
  exists (mkdt 2024 2 23 9 0 0 0 None). split.
  - apply (wrapper_record (mkdt 2024 2 23 9 0 0 0 None) nlb_routes);
      reflexivity.
  - intros k Hk. cbn [nlb_state clock ticks Nat.add threshold
                      sample_transport].
    unfold whole_days, timedelta_days, naive_sub, timedelta_of, sample_clock,
      us_per_day, us_per_second.
    cbn [year month day hour minute second microsecond].
    change (toordinal (mkdt 2024 3 1 7 30 (Z.of_nat k) 250000 None))
      with (toordinal (mkdt 2024 3 1 7 30 0 0 None)).
    unfold day_seconds. cbn [year month day hour minute second microsecond].
    assert (E : toordinal (mkdt 2024 3 1 7 30 0 0 None)
                - toordinal (mkdt 2024 2 23 9 0 0 0 None) = 7)
      by (vm_compute; reflexivity).
    rewrite E. apply Z.lt_succ_r. apply Z.div_lt_upper_bound; lia.
Qed.

Lemma Route_id_never_returns_witness :
  fst (Route_id (nlb_route "1") nlb_state) = Raise TypeError
  /\ fst (Route_id (nlb_route "2") nlb_state)
     = Raise (ServiceTypeNotExist "2").
Proof.
  split.
  - apply (Route_id_never_returns (nlb_route "1") nlb_state nlb_routes
             (VDict [("outbound", VList [nlb_bound]); ("inbound", VList [])])
             [nlb_bound]);
      [apply nlb_state_memoised; lia|reflexivity|reflexivity|].
    repeat constructor. eexists. reflexivity.
  - apply (Route_id_never_returns (nlb_route "2") nlb_state nlb_routes
             (VDict [("outbound", VList [nlb_bound]); ("inbound", VList [])])
             [nlb_bound]);
      [apply nlb_state_memoised; lia|reflexivity|reflexivity|].
    repeat constructor. eexists. reflexivity.
Defined.

(** [NlbEta.etas] asks [Route.id] for the route id before it calls the
    operator, so it never gets as far as a response: whatever the operator
    would answer, it raises what [Route.id] raises. *)
Theorem NlbEta_etas_never_returns :
  forall (class_time : datetime) (local : Z) (self : Route)
         (api : pyval -> res pyval) (st : State) (routes info : pyval)
         (bounds : list pyval),
    routes_memoised (provider self) st routes 2 ->
    py_item routes (RouteQuery.no (entry self)) = Ok info ->
    py_item info (Direction_value (RouteQuery.direction (entry self)))
    = Ok (VList bounds) ->
    Forall (fun s => exists v, py_item s "service_type" = Ok v) bounds ->
    fst (NlbEta_etas class_time local self api st)
    = if existsb (service_is (RouteQuery.service_type (entry self))) bounds
      then Raise TypeError
      else Raise (ServiceTypeNotExist
                    (RouteQuery.service_type (entry self))).
Proof.
  intros ct local self api st routes info bounds Hm Hinfo Hb Hsvc.
  unfold NlbEta_etas. unfold mbind at 1, M_bind at 1.
  rewrite (Route_id_run self st routes info bounds Hm Hinfo Hb Hsvc).
  destruct (existsb _ bounds); reflexivity.
Qed.

Lemma NlbEta_etas_never_returns_witness :
  fst (NlbEta_etas (sample_clock 0) HKT (nlb_route "1")
         (fun _ => Ok (VDict [("estimatedArrivals", VList [])])) nlb_state)
  = Raise TypeError.
Proof.
  apply (NlbEta_etas_never_returns (sample_clock 0) HKT (nlb_route "1")
           (fun _ => Ok (VDict [("estimatedArrivals", VList [])]))
           nlb_state nlb_routes
           (VDict [("outbound", VList [nlb_bound]); ("inbound", VList [])])
           [nlb_bound]);
    [apply nlb_state_memoised; lia|reflexivity|reflexivity|].
  repeat constructor. eexists. reflexivity.
Defined.

(** ** How [KmbEta] classifies a response without arrivals *)

Lemma em_api_error self :
  _em self "api-error"
  = Ok (api_error_message (RouteQuery.locale (entry self))).
Proof.
  unfold _em. cbn. destruct (RouteQuery.locale (entry self)); reflexivity.
Qed.

Lemma em_empty self :
  _em self "empty" = Ok (no_data_message (RouteQuery.locale (entry self))).
Proof.
  unfold _em. cbn. destruct (RouteQuery.locale (entry self)); reflexivity.
Qed.

Lemma error_eta_is_error ct self code msg st :
  renderable self ->
  _em self code = Ok msg ->
  is_error_eta (error_eta ct self code st) msg.
Proof.
  intros Hr Hm.
  destruct (error_eta_renderable ct self code msg st Hr Hm)
    as (v & st' & Hrun & Hp).
  exists v, st'. auto.
Qed.

Lemma message_eta_is_error ct self msg st :
  renderable self ->
  is_error_eta (message_eta ct self (VStr msg) st) msg.
Proof.
  intros Hr. unfold message_eta, mbind, M_bind, lift. cbn.
  destruct (g_eta_renderable ct self (error_payload msg) st Hr eq_refl)
    as (v & st' & Hrun & Hp).
  exists v, st'. auto.
Qed.

(** An empty response object is reported as "API Error"; a response whose
    [data] is missing or null is reported as "No Data", whatever else it
    holds: [generated_timestamp] is not even looked at. *)
Theorem KmbEta_without_data :
  forall (ct : datetime) (self : Route) (d : list (string * pyval))
         (st : State),
    renderable self ->
    (d = [] ->
     is_error_eta (KmbEta_etas ct self (Ok (VDict d)) st)
                  (api_error_message (RouteQuery.locale (entry self))))
    /\ (d <> [] ->
        sget "data" d = None \/ sget "data" d = Some VNone ->
        is_error_eta (KmbEta_etas ct self (Ok (VDict d)) st)
                     (no_data_message (RouteQuery.locale (entry self)))).
Proof.
  intros ct self d st Hr. split.
  - intros ->. unfold KmbEta_etas, mbind, M_bind, lift. cbn.
    apply error_eta_is_error; [exact Hr|apply em_api_error].
  - intros Hd Hdata. unfold KmbEta_etas, mbind, M_bind, lift.
    cbn [py_len py_get].
    destruct d as [|kv d']; [congruence|]. cbn [List.length].
    destruct (Z.eqb_spec (Z.of_nat (S (List.length d'))) 0) as [E|_]; [lia|].
    destruct Hdata as [-> | ->]; cbn [is_None];
      (apply error_eta_is_error; [exact Hr|apply em_empty]).
Qed.

Lemma KmbEta_without_data_witness :
  is_error_eta (KmbEta_etas (sample_clock 0) (kmb1_route TC)
                  (Ok (VDict [])) sample_state) "API 錯誤"
  /\ is_error_eta (KmbEta_etas (sample_clock 0) (kmb1_route EN)
                     (Ok (VDict [("type", VStr "RouteETA");
                                 ("data", VNone)])) sample_state)
                  "No Data".
Proof.
  split.
  - apply (KmbEta_without_data (sample_clock 0) (kmb1_route TC) []
             sample_state (kmb1_renderable TC)). reflexivity.
  - apply (KmbEta_without_data (sample_clock 0) (kmb1_route EN)
             [("type", VStr "RouteETA"); ("data", VNone)]
             sample_state (kmb1_renderable EN)).
    + discriminate.
    + right. reflexivity.
Defined.

(** The loop reaches its first entry without an [eta]. *)
Lemma KmbEta_loop_null ct self ts (pre : list pyval) e post :
  KmbEta_skips self e = Ok false ->
  py_item e "eta" = Ok VNone ->
  forall etas st,
    Forall (kmb_passes self ts) pre ->
    (List.length etas + List.length (List.filter (kmb_matches self) pre)
     < 3)%nat ->
    KmbEta_loop ct self ts
      (KmbEta_locale_map (RouteQuery.locale (entry self)))
      (pre ++ e :: post) etas st
    = (rmk_en ← lift (py_item e "rmk_en");
       if py_eq rmk_en (VStr final_bus_remark) then
         error_eta ct self "eos"
       else if py_eq rmk_en (VStr "") then error_eta ct self "empty"
       else
         rmk ← lift (py_item e
                       ("rmk_" ++ KmbEta_locale_map
                                    (RouteQuery.locale (entry self))));
         message_eta ct self rmk) st.
Proof.
  intros Hs He.
  induction pre as [|stop pre IH]; intros etas st Hpre Hcnt.
  - cbn [app KmbEta_loop]. unfold mbind, M_bind, lift.
    rewrite Hs, He. reflexivity.
  - inversion Hpre as [|? ? Hstop Hpre']; subst.
    cbn [app KmbEta_loop]. unfold mbind, M_bind, lift in *.
    cbn [List.filter] in Hcnt. unfold kmb_matches at 1 in Hcnt.
    destruct Hstop as [Hskip|(t & Hskip & eta & Heta & Hnn & Ht)];
      rewrite Hskip in *.
    + apply IH; assumption.
    + rewrite Heta, Hnn, Ht. cbn [List.length] in Hcnt.
      rewrite length_app. cbn [List.length].
      destruct (Nat.eqb_spec (List.length etas + 1) 3) as [E3|N3]; [lia|].
      apply IH; [assumption|]. rewrite length_app. cbn [List.length]. lia.
Qed.

(** The first entry for the queried stop and direction that has no [eta]
    ends the processing, whatever comes after it, and every time entry
    collected before it is dropped: with an empty English remark the result
    is "No Data"; with any other remark than the final-bus one, the result
    carries the entry's own remark in the language of the query. *)
Theorem KmbEta_remark_without_eta :
  forall (ct : datetime) (self : Route) (response : pyval)
         (timestamp : datetime) (pre post : list pyval) (e : pyval)
         (rmk_en rmk : string) (st : State),
    renderable self ->
    kmb_response response timestamp (pre ++ e :: post) ->
    Forall (kmb_passes self timestamp) pre ->
    (List.length (List.filter (kmb_matches self) pre) < 3)%nat ->
    kmb_same_stop self e ->
    py_item e "eta" = Ok VNone ->
    py_item e "rmk_en" = Ok (VStr rmk_en) ->
    py_item e ("rmk_" ++ KmbEta_locale_map (RouteQuery.locale (entry self)))
    = Ok (VStr rmk) ->
    rmk_en <> final_bus_remark ->
    is_error_eta (KmbEta_etas ct self (Ok response) st)
      (if String.eqb rmk_en ""
       then no_data_message (RouteQuery.locale (entry self))
       else rmk).
Proof.
  intros ct self response timestamp pre post e rmk_en rmk st
         Hr Hresp Hpre Hcnt He Heta Hen Hrmk Hnf.
  rewrite (kmb_response_loop _ _ _ _ _ _ Hresp).
  rewrite (KmbEta_loop_null ct self timestamp pre e post);
    [|now apply kmb_same_stop_skips|assumption|assumption
     |cbn [List.length]; lia].
  unfold mbind at 1, M_bind at 1, lift at 1. rewrite Hen.
  cbn [py_eq].
  destruct (String.eqb_spec rmk_en final_bus_remark) as [E|_]; [congruence|].
  destruct (String.eqb rmk_en "").
  - apply error_eta_is_error; [exact Hr|apply em_empty].
  - unfold mbind, M_bind, lift. rewrite Hrmk.
    now apply message_eta_is_error.
Qed.

Lemma KmbEta_remark_without_eta_witness :
  is_error_eta
    (KmbEta_etas (sample_clock 0) (kmb1_route TC)
       (Ok (kmb_reply
              [kmb_entry (VStr "2024-03-01T07:36:00+08:00") "" "";
               kmb_entry VNone "Service suspended (typhoon)" "暫停服務";
               kmb_entry (VStr "2024-03-01T07:53:00+08:00") "" ""]))
       sample_state)
    "暫停服務".
Proof.
  apply (KmbEta_remark_without_eta (sample_clock 0) (kmb1_route TC)
           (kmb_reply
              [kmb_entry (VStr "2024-03-01T07:36:00+08:00") "" "";
               kmb_entry VNone "Service suspended (typhoon)" "暫停服務";
               kmb_entry (VStr "2024-03-01T07:53:00+08:00") "" ""])
           kmb_generated
           [kmb_entry (VStr "2024-03-01T07:36:00+08:00") "" ""]
           [kmb_entry (VStr "2024-03-01T07:53:00+08:00") "" ""]
           (kmb_entry VNone "Service suspended (typhoon)" "暫停服務")
           "Service suspended (typhoon)" "暫停服務" sample_state).
  - apply kmb1_renderable.
  - do 2 eexists. repeat split; reflexivity.
  - constructor; [|constructor]. right. eexists. split; [reflexivity|].
    eexists. split; [reflexivity|]. split; [reflexivity|].
    vm_compute. reflexivity.
  - vm_compute. lia.
  - apply kmb_same_stop_skips. reflexivity.
  - reflexivity.
  - reflexivity.
  - reflexivity.
  - discriminate.
Defined.

(** ** How [MtrLrtEta] classifies a response *)

Lemma all_end_service_true (platforms : list pyval) :
  Forall (fun p => exists v,
              py_get p "end_service_status" (VBool false) = Ok v
              /\ py_truthy v = true) platforms ->
  all_end_service platforms = Ok true.
Proof.
  induction 1 as [|p r (v & Hv & Ht) _ IH]; cbn [all_end_service].
  - reflexivity.
  - rewrite Hv. cbn. now rewrite Ht.
Qed.

(** A light-rail response without a [status], or with status 0, is
    reported as "API Error".  When every platform of the response reports
    [end_service_status], and also when the response lists no platform at
    all, the result is "Not in Service" in the language of the query; the
    rest of the response is not looked at. *)
Theorem MtrLrtEta_not_in_service :
  forall (ct : datetime) (local : Z) (self : Route)
         (d : list (string * pyval)) (st : State),
    renderable self ->
    d <> [] ->
    (sget "status" d = None \/ sget "status" d = Some (VInt 0) ->
     is_error_eta (MtrLrtEta_etas ct local self (Ok (VDict d)) st)
                  (api_error_message (RouteQuery.locale (entry self))))
    /\ (forall status platforms,
           sget "status" d = Some status ->
           py_eq status (VInt 0) = false ->
           sget "platform_list" d = Some (VList platforms) ->
           Forall (fun p => exists v,
                       py_get p "end_service_status" (VBool false) = Ok v
                       /\ py_truthy v = true) platforms ->
           is_error_eta (MtrLrtEta_etas ct local self (Ok (VDict d)) st)
                        (not_in_service (RouteQuery.locale (entry self)))).
Proof.
  intros ct local self d st Hr Hd.
  assert (Hlen : (Z.of_nat (List.length d) =? 0) = false).
  { destruct d; [congruence|]. cbn [List.length]. apply Z.eqb_neq. lia. }
  split.
  - intros Hs. unfold MtrLrtEta_etas, mbind, M_bind, lift.
    cbn [py_len py_get]. rewrite Hlen.
    destruct Hs as [-> | ->]; cbn [orb py_eq Z.eqb];
      (apply error_eta_is_error; [exact Hr|apply em_api_error]).
  - intros status platforms Hs Hne Hpl Hall.
    unfold MtrLrtEta_etas, mbind, M_bind, lift.
    cbn [py_len py_get py_item]. rewrite Hlen, Hs. cbn [orb]. rewrite Hne.
    unfold dict_item. rewrite Hpl. cbn [of_option py_iter].
    rewrite (all_end_service_true platforms Hall).
    apply error_eta_is_error; [exact Hr|apply em_eos].
Qed.

Lemma lrt610_renderable : renderable lrt610_route.
Proof.
  do 4 eexists.
  split; [reflexivity|split; [reflexivity|split; [reflexivity|
    split; [reflexivity|right; eexists; reflexivity]]]].
Qed.

Lemma MtrLrtEta_not_in_service_witness :
  is_error_eta
    (MtrLrtEta_etas (sample_clock 0) HKT lrt610_route
       (Ok (VDict [("status", VInt 1); ("platform_list", VList [])]))
       sample_state)
    "Not in Service"
  /\ is_error_eta
       (MtrLrtEta_etas (sample_clock 0) HKT lrt610_route
          (Ok (VDict [("message", VStr "busy")])) sample_state)
       "API Error".
Proof.
  split.
  - destruct (MtrLrtEta_not_in_service (sample_clock 0) HKT lrt610_route
                [("status", VInt 1); ("platform_list", VList [])]
                sample_state lrt610_renderable) as [_ H]; [discriminate|].
    apply (H (VInt 1) []); try reflexivity. constructor.
  - destruct (MtrLrtEta_not_in_service (sample_clock 0) HKT lrt610_route
                [("message", VStr "busy")]
                sample_state lrt610_renderable) as [H _]; [discriminate|].
    apply H. left. reflexivity.
Defined.

(** ** A refresh that fails *)

Lemma refresh_route_list_fails self e st :
  upstream_route_list self (List.length (fetched st)) = Raise e ->
  refresh_route_list self st
  = (Raise e,
     mkState (clock st) (ticks st) (fs st)
             (fetched st ++ [FetchRouteList]) (_routes st)).
Proof.
  intros Hup.
  unfold refresh_route_list, _fetch_route_list, mbind, M_bind, log_fetch,
    lift.
  cbn [fetched]. now rewrite Hup.
Qed.

(** When the route list is stale and the operator cannot be reached, the
    read raises the operator's error: the stale data is not served.  The
    failed refresh costs one upstream call and changes neither the file
    nor the record held in memory, so the next read tries again. *)
Theorem route_list_refresh_failure :
  forall (self : Transport) (st : State) (record : pyval)
         (lastupd : datetime) (data : pyval) (e : exn),
    naive_clock st ->
    cache_record record lastupd data ->
    route_list_cached self st record ->
    threshold self < whole_days (clock st (ticks st)) lastupd ->
    upstream_route_list self (List.length (fetched st)) = Raise e ->
    exists st',
      route_list self st = (Raise e, st')
      /\ fs st' = fs st
      /\ _routes st' = record
      /\ fetched st' = (fetched st ++ [FetchRouteList])%list.
Proof.
  intros self st record lastupd data e Hc Hrec Hcached Hstale Hup.
  assert (Hst0 : exists st0,
             route_list self st = route_list self st0
             /\ naive_clock st0 /\ _routes st0 = record
             /\ clock st0 = clock st /\ ticks st0 = ticks st
             /\ fs st0 = fs st /\ fetched st0 = fetched st).
  { destruct Hcached as [Hm|(Hm & j & Hf & Hj)].
    - exists st. repeat split; auto.
    - eexists. split.
      + apply (route_list_from_file self st j Hm Hf).
        rewrite Hj. eapply cache_record_not_None; eauto.
      + rewrite Hj. repeat split; auto. }
  destruct Hst0 as (st0 & -> & Hc0 & Hm0 & Eclock & Eticks & Efs & Efetched).
  rewrite <- Eclock, <- Eticks in Hstale. rewrite <- Efetched in Hup.
  eexists. split.
  - unfold route_list, mbind, M_bind, get_routes. rewrite Hm0.
    rewrite (cache_record_not_None _ _ _ Hrec).
    unfold mret at 1, M_ret at 1. rewrite Hm0.
    rewrite (is_outdated_record self record lastupd data st0 Hc0 Hrec).
    destruct (Z.ltb_spec (threshold self)
                (whole_days (clock st0 (ticks st0)) lastupd)) as [_|H];
      [|lia].
    rewrite (refresh_route_list_fails self e (tick st0) Hup). reflexivity.
  - cbn [fs _routes fetched tick]. repeat split; congruence.
Qed.

Lemma route_list_refresh_failure_witness :
  exists st',
    route_list (sample_transport KowloonMotorBus) (memo_state 30 7)
    = (Raise TransportError, st')
    /\ fs st' = fs (memo_state 30 7)
    /\ _routes st' = wrapper (memo_time 30 7) kmb_routes
    /\ fetched st' = [FetchRouteList].
Proof.
  apply (route_list_refresh_failure (sample_transport KowloonMotorBus)
           (memo_state 30 7) (wrapper (memo_time 30 7) kmb_routes)
           (memo_time 30 7) kmb_routes TransportError).
  - intros n. reflexivity.
  - apply memo_record. reflexivity.
  - left. reflexivity.
  - reflexivity.
  - reflexivity.
Defined.

(** ** Reading a stop list twice *)

(** A stop list that is not on disk is fetched by the first read, which
    writes the file; a second read while that file and the memoised route
    list are fresh makes no further upstream call, leaves the file as it
    is, and returns the same tuple of stops, provided the stops hold no
    tuple (JSON has none: the file gives a tuple back as a list). *)
Theorem stop_list_read_twice :
  forall (self : Transport) (st : State) (routes : pyval) (no : string)
         (dir : Direction) (svc : string) (id_ : pyval) (new : list pyval),
    routes_memoised self st routes (S (S (S (prelude_reads (cls self))))) ->
    py_has_key routes no = Ok true ->
    guards_pass self routes no dir svc id_ ->
    fs st !! stop_list_path self no dir svc = None ->
    stops_upstream self no dir svc id_ (List.length (fetched st)) = Ok new ->
    forallb json_serialisable new = true ->
    forallb tuple_free new = true ->
    valid_datetime (clock st (ticks st + S (prelude_reads (cls self))))
    = true ->
    whole_days
      (clock st (ticks st + S (S (S (prelude_reads (cls self))))))
      (replace_microsecond
         (clock st (ticks st + S (prelude_reads (cls self)))) 0)
    <= threshold self ->
    exists st1 st2,
      stop_list self no dir svc st = (Ok (VTuple new), st1)
      /\ stop_list self no dir svc st1 = (Ok (VTuple new), st2)
      /\ fetched st2 = (fetched st ++ [FetchStopList no dir svc])%list
      /\ fs st2 = fs st1.
Proof.
  intros self st routes no dir svc id_ new Hmemo Hknown Hg Hmissing Hup Hs
    Htf Hvalid Hfresh.
  assert (Hmemo1 : routes_memoised self st routes
                     (S (prelude_reads (cls self))))
    by (apply (routes_memoised_le self st routes
                 (S (S (S (prelude_reads (cls self)))))); [lia|exact Hmemo]).
  destruct (stop_list_missing self st routes no dir svc id_ new
              Hmemo1 Hknown Hg Hmissing Hup Hs) as (j & Hj & Hrun).
  rewrite Hrun. eexists. eexists. split; [reflexivity|].
  match goal with
  | |- stop_list _ _ _ _ ?s = _ /\ _ => set (st1 := s)
  end.
  destruct Hmemo as (Hclock & rlast & Hrrec & Hrfresh).
  assert (Hrec : cache_record (json_load j)
                   (replace_microsecond
                      (clock st (ticks st + S (prelude_reads (cls self))))
                      0)
                   (VList new)).
  { rewrite Hj. unfold wrapper. cbn [listify map fst snd].
    rewrite (tuple_free_listify_all new Htf).
    apply (wrapper_record _ (VList new) Hvalid). apply Hclock. }
  rewrite (stop_list_fresh self st1 (_routes st) routes rlast no dir svc
             Hclock eq_refl Hrrec
             (Hrfresh (S (S (prelude_reads (cls self))))
                      (Nat.lt_succ_diag_r _)) Hknown j
             (replace_microsecond
                (clock st (ticks st + S (prelude_reads (cls self)))) 0)
             (VList new) (VTuple new)).
  - split; [reflexivity|]. split; reflexivity.
  - subst st1. cbn [fs]. apply lookup_insert_eq.
  - exact Hrec.
  - subst st1. cbn [clock ticks].
    replace (S (ticks st + S (S (prelude_reads (cls self)))))
      with (ticks st + S (S (S (prelude_reads (cls self)))))%nat by lia.
    exact Hfresh.
  - reflexivity.
Qed.

Lemma stop_list_read_twice_witness :
  exists st1 st2,
    stop_list kmb_transport "1" OUTBOUND "1" (memo_state 30 8)
    = (Ok (VTuple kmb1_stops), st1)
    /\ stop_list kmb_transport "1" OUTBOUND "1" st1
       = (Ok (VTuple kmb1_stops), st2)
    /\ fetched st2 = [FetchStopList "1" OUTBOUND "1"]
    /\ fs st2 = fs st1.
Proof.
  apply (stop_list_read_twice kmb_transport (memo_state 30 8) kmb_routes
           "1" OUTBOUND "1" VNone kmb1_stops).
  - apply memo_state_memoised; [reflexivity|].
    intros k Hk. cbn [prelude_reads cls kmb_transport] in Hk.
    destruct k as [|[|[|[|k]]]]; [..|lia]; vm_compute; discriminate.
  - reflexivity.
  - exact I.
  - reflexivity.
  - reflexivity.
  - reflexivity.
  - reflexivity.
  - reflexivity.
  - vm_compute. discriminate.
Defined.

(** ** The stop dictionary of a route *)

Lemma dict_get_set_str (s t : string) (v : pyval)
  (d : list (pyval * pyval)) :
  dict_get py_eq (VStr s) (dict_set py_eq (VStr t) v d)
  = if String.eqb s t then Some v else dict_get py_eq (VStr s) d.
Proof.
  induction d as [|[k' v'] d IH]; cbn [dict_get dict_set].
  - cbn [py_eq]. reflexivity.
  - destruct (py_eq (VStr t) k') eqn:Etk; cbn [dict_get].
    + apply py_eq_str in Etk. subst k'. cbn [py_eq].
      destruct (String.eqb s t); reflexivity.
    + destruct (py_eq (VStr s) k') eqn:Esk; [|exact IH].
      apply py_eq_str in Esk. subst k'. cbn [py_eq] in Etk.
      rewrite String.eqb_sym, Etk. reflexivity.
Qed.

Lemma dict_set_fresh_str (t : string) (v : pyval)
  (d : list (pyval * pyval)) :
  dict_get py_eq (VStr t) d = None ->
  dict_set py_eq (VStr t) v d = (d ++ [(VStr t, v)])%list.
Proof.
  induction d as [|[k' v'] d IH]; cbn [dict_get dict_set app];
    [reflexivity|].
  destruct (py_eq (VStr t) k'); [discriminate|].
  intros H. now rewrite IH.
Qed.

Lemma find_snoc {A} (f : A -> bool) (l : list A) (x : A) :
  find f (l ++ [x]) = match find f l with
                      | Some y => Some y
                      | None => if f x then Some x else None
                      end.
Proof.
  induction l as [|y l IH]; cbn [app find]; [reflexivity|].
  destruct (f y); [reflexivity|exact IH].
Qed.

Lemma index_stops_get (id : string) (l : list pyval) :
  forall ids acc d,
    stop_ids l = Some ids ->
    index_stops l acc = Ok d ->
    dict_get py_eq (VStr id) d
    = match last_with_id id l with
      | Some s => Some s
      | None => dict_get py_eq (VStr id) acc
      end.
Proof.
  unfold last_with_id.
  induction l as [|stop l IH]; intros ids acc d Hids Hd.
  - cbn in Hd. inversion Hd. reflexivity.
  - cbn [stop_ids] in Hids. cbn [index_stops] in Hd.
    unfold mbind, res_bind in Hd.
    destruct (py_item stop "id") as [k|] eqn:Ek; [|discriminate].
    destruct k; try discriminate.
    destruct (stop_ids l) as [ids'|] eqn:El; [|discriminate].
    cbn [py_hashable] in Hd.
    rewrite (IH ids' _ d eq_refl Hd). cbn [rev]. rewrite find_snoc.
    destruct (find (id_is id) (rev l)); [reflexivity|].
    rewrite dict_get_set_str. unfold id_is. rewrite Ek. cbn [py_eq].
    destruct (String.eqb id s); reflexivity.
Qed.

(** The dictionary [Route.__init__] builds from the stops keeps, under each
    id, the last stop of the list that has it: an earlier stop with the
    same id is replaced, and an id that no stop has is not a key. *)
Theorem index_stops_last_wins :
  forall (stops : list pyval) (ids : list string),
    stop_ids stops = Some ids ->
    exists d,
      index_stops stops [] = Ok d
      /\ forall id, dict_get py_eq (VStr id) d = last_with_id id stops.
Proof.
  intros stops ids Hids.
  assert (Hhave : stops_have_ids stops).
  { clear - Hids. revert ids Hids.
    induction stops as [|stop l IH]; intros ids Hids; constructor.
    - cbn [stop_ids] in Hids.
      destruct (py_item stop "id") as [k|]; [|discriminate].
      destruct k; try discriminate. eexists. split; reflexivity.
    - cbn [stop_ids] in Hids.
      destruct (py_item stop "id") as [k|]; [|discriminate].
      destruct k; try discriminate.
      destruct (stop_ids l) as [ids'|]; [|discriminate].
      now apply (IH ids'). }
  destruct (index_stops_total stops Hhave []) as [d Hd].
  exists d. split; [exact Hd|]. intros id.
  rewrite (index_stops_get id stops ids [] d Hids Hd).
  destruct (last_with_id id stops); reflexivity.
Qed.

Lemma index_stops_last_wins_witness :
  exists d,
    index_stops loop_stops [] = Ok d
    /\ forall id, dict_get py_eq (VStr id) d = last_with_id id loop_stops.
Proof.
  apply (index_stops_last_wins loop_stops ["T1"; "S2"; "T1"]).
  reflexivity.
Defined.

Lemma distinct_head (s : string) (ids : list string) :
  distinct (s :: ids) = true ->
  (forall id, In id ids -> String.eqb id s = false) /\ distinct ids = true.
Proof.
  cbn [distinct]. intros H. apply andb_prop in H as [Hs Hd].
  split; [|exact Hd]. intros id Hin.
  destruct (String.eqb id s) eqn:E; [|reflexivity].
  apply String.eqb_eq in E. subst id.
  apply negb_true_iff in Hs.
  assert (existsb (String.eqb s) ids = true) as Hex.
  { apply existsb_exists. exists s. split; [exact Hin|].
    apply String.eqb_refl. }
  congruence.
Qed.

Lemma index_stops_distinct_acc (l : list pyval) :
  forall ids acc,
    stop_ids l = Some ids ->
    distinct ids = true ->
    (forall id, In id ids -> dict_get py_eq (VStr id) acc = None) ->
    index_stops l acc = Ok (acc ++ combine (map VStr ids) l)%list.
Proof.
  induction l as [|stop l IH]; intros ids acc Hids Hd Hnew.
  - cbn [stop_ids] in Hids. inversion Hids. cbn. now rewrite app_nil_r.
  - cbn [stop_ids] in Hids. cbn [index_stops]. unfold mbind, res_bind.
    destruct (py_item stop "id") as [k|]; [|discriminate].
    destruct k; try discriminate.
    destruct (stop_ids l) as [ids'|] eqn:El; [|discriminate].
    inversion Hids; subst ids. cbn [py_hashable].
    destruct (distinct_head _ _ Hd) as [Hne Hd'].
    rewrite (dict_set_fresh_str s stop acc (Hnew s (or_introl eq_refl))).
    rewrite (IH ids' _ eq_refl Hd').
    + cbn [map combine]. now rewrite <- app_assoc.
    + intros id Hin.
      rewrite <- (dict_set_fresh_str s stop acc
                    (Hnew s (or_introl eq_refl))).
      rewrite dict_get_set_str, (Hne id Hin).
      apply Hnew. now right.
Qed.

Lemma index_stops_distinct (l : list pyval) (ids : list string) :
  stop_ids l = Some ids ->
  distinct ids = true ->
  index_stops l [] = Ok (combine (map VStr ids) l).
Proof.
  intros Hids Hd.
  now rewrite (index_stops_distinct_acc l ids [] Hids Hd (fun _ _ => eq_refl)).
Qed.

Lemma stop_ids_length (l : list pyval) :
  forall ids, stop_ids l = Some ids -> List.length ids = List.length l.
Proof.
  induction l as [|stop l IH]; intros ids Hids; cbn [stop_ids] in Hids.
  - now inversion Hids.
  - destruct (py_item stop "id") as [k|]; [|discriminate].
    destruct k; try discriminate.
    destruct (stop_ids l) as [ids'|]; [|discriminate].
    inversion Hids. cbn [List.length]. now rewrite (IH ids' eq_refl).
Qed.

Lemma values_combine {K A} (ks : list K) (l : list A) :
  List.length ks = List.length l -> dict_values (combine ks l) = l.
Proof.
  unfold dict_values. revert l.
  induction ks as [|k ks IH]; intros [|x l] H; try discriminate;
    [reflexivity|].
  cbn [combine map snd]. f_equal. apply IH. now inversion H.
Qed.

Lemma index_stops_app (l1 l2 : list pyval) :
  forall acc,
    index_stops (l1 ++ l2) acc
    = (d ← index_stops l1 acc; index_stops l2 d).
Proof.
  induction l1 as [|stop l1 IH]; intros acc; cbn [app index_stops].
  - reflexivity.
  - unfold mbind, res_bind.
    destruct (py_item stop "id") as [k|]; [|reflexivity].
    destruct (py_hashable k); [|reflexivity]. apply IH.
Qed.

(** When the terminus of a route is listed twice, as its first and as its
    last stop, and the other ids are distinct, the dictionary of the route
    has one entry fewer than the list: its first value is the terminus as
    listed last (with the last sequence number), followed by the stops in
    between, so the final value is the stop before the terminus. *)
Theorem index_stops_repeated_terminus :
  forall (first last_ : pyval) (mid : list pyval) (t : string)
         (ids : list string),
    stop_ids (first :: mid) = Some (t :: ids) ->
    distinct (t :: ids) = true ->
    py_item last_ "id" = Ok (VStr t) ->
    exists d,
      index_stops (first :: mid ++ [last_]) [] = Ok d
      /\ dict_values d = last_ :: mid.
Proof.
  intros first last_ mid t ids Hids Hd Hlast.
  pose proof (stop_ids_length _ _ Hids) as Hlen.
  eexists. split.
  - change (first :: mid ++ [last_])%list
      with ((first :: mid) ++ [last_])%list.
    rewrite index_stops_app, (index_stops_distinct _ _ Hids Hd).
    unfold mbind, res_bind. cbn [index_stops]. rewrite Hlast.
    unfold mbind, res_bind. cbn [py_hashable map combine dict_set py_eq].
    rewrite String.eqb_refl. reflexivity.
  - cbn [List.length] in Hlen. inversion Hlen as [Hlen'].
    unfold dict_values. cbn [map snd]. f_equal.
    now apply (values_combine (map VStr ids) mid); rewrite length_map.
Qed.

Lemma index_stops_repeated_terminus_witness :
  exists d,
    index_stops loop_stops [] = Ok d
    /\ dict_values d
       = [stop_dict "T1" 3 "總站" "Terminus";
          stop_dict "S2" 2 "街市" "Market"].
Proof.
  apply (index_stops_repeated_terminus
           (stop_dict "T1" 1 "總站" "Terminus")
           (stop_dict "T1" 3 "總站" "Terminus")
           [stop_dict "S2" 2 "街市" "Market"] "T1" ["S2"]);
    reflexivity.
Defined.

Lemma stop_ids_existsb (s : string) (l : list pyval) :
  forall ids,
    stop_ids l = Some ids ->
    existsb (id_is s) l = existsb (String.eqb s) ids.
Proof.
  induction l as [|stop l IH]; intros ids Hids; cbn [stop_ids] in Hids.
  - now inversion Hids.
  - destruct (py_item stop "id") as [k|] eqn:Ek; [|discriminate].
    destruct k; try discriminate.
    destruct (stop_ids l) as [ids'|]; [|discriminate].
    inversion Hids. cbn [existsb]. rewrite (IH ids' eq_refl).
    unfold id_is. rewrite Ek. reflexivity.
Qed.

Lemma stop_ids_In (l : list pyval) :
  forall ids s,
    stop_ids l = Some ids -> In s l ->
    exists t, py_item s "id" = Ok (VStr t).
Proof.
  induction l as [|stop l IH]; intros ids s Hids Hin; [destruct Hin|].
  cbn [stop_ids] in Hids.
  destruct (py_item stop "id") as [k|] eqn:Ek; [|discriminate].
  destruct k; try discriminate.
  destruct (stop_ids l) as [ids'|]; [|discriminate].
  destruct Hin as [<-|Hin]; [eauto|]. now apply (IH ids').
Qed.

Lemma last_default {A} (z x y : A) (l : list A) :
  List.last (z :: l) x = List.last (z :: l) y.
Proof.
  revert z. induction l as [|w l IH]; intros z; [reflexivity|].
  change (List.last (z :: w :: l) x) with (List.last (w :: l) x).
  change (List.last (z :: w :: l) y) with (List.last (w :: l) y).
  apply IH.
Qed.

Lemma last_shift {A} (x y : A) (l : list A) :
  List.last (y :: l) x = List.last l y.
Proof.
  destruct l as [|z l]; [reflexivity|].
  change (List.last (y :: z :: l) x) with (List.last (z :: l) x).
  apply last_default.
Qed.

Lemma last_cons_some {A} (x : A) (l : list A) :
  last (x :: l) = Some (List.last l x).
Proof.
  revert x. induction l as [|y l IH]; intros x; [reflexivity|].
  change (last (x :: y :: l)) with (last (y :: l)).
  now rewrite IH, last_shift.
Qed.

Lemma last_In {A} (x : A) (l : list A) : In (List.last l x) (x :: l).
Proof.
  revert x. induction l as [|y l IH]; intros x; [now left|].
  right. rewrite last_shift. apply IH.
Qed.

Lemma id_is_sym (s : string) (stop : pyval) (t : string) :
  py_item stop "id" = Ok (VStr t) ->
  py_eq (VStr t) (VStr s) = id_is s stop.
Proof.
  intros H. unfold id_is. rewrite H. cbn [py_eq]. apply String.eqb_sym.
Qed.

(** A route built over a stop list whose ids are distinct strings, one of
    them the queried stop's, keeps the stops in the order of the list: its
    origin is the first stop and, unless the route is one of the circular
    light-rail routes, its destination is the last one; the queried stop is
    typed [ORIG] when it is the first stop, [DEST] when it is the last
    stop, and [STOP] otherwise. *)
Theorem Route_init_stop_type :
  forall (entry : RouteQuery.t) (transport_ : Transport) (st st1 : State)
         (first : pyval) (rest : list pyval) (ids : list string),
    stop_list transport_ (RouteQuery.no entry) (RouteQuery.direction entry)
              (RouteQuery.service_type entry) st
    = (Ok (VTuple (first :: rest)), st1) ->
    stop_ids (first :: rest) = Some ids ->
    distinct ids = true ->
    In (RouteQuery.stop_id entry) ids ->
    circular_query entry = false ->
    exists self,
      Route_init entry transport_ st = (Ok self, st1)
      /\ Route_origin self = Ok first
      /\ Route_destination self = Ok (List.last rest first)
      /\ Route_stop_type self
         = Ok (position_type (RouteQuery.stop_id entry) first rest).
Proof.
  intros q transport_ st st1 first rest ids Hsl Hids Hd Hin Hc.
  pose proof (index_stops_distinct _ _ Hids Hd) as Hidx.
  pose proof (values_combine (map VStr ids) (first :: rest)) as Hval.
  rewrite length_map, (stop_ids_length _ _ Hids) in Hval.
  specialize (Hval eq_refl).
  eexists. split; [|split; [|split]].
  - rewrite (Route_init_after_stop_list q transport_ st _ st1 _ Hsl Hidx).
    rewrite (stop_ids_existsb _ _ _ Hids).
    assert (existsb (String.eqb (RouteQuery.stop_id q)) ids = true)
      as ->; [|reflexivity].
    apply existsb_exists. eexists. split; [exact Hin|].
    apply String.eqb_refl.
  - unfold Route_origin. cbn [_stop_list]. now rewrite Hval.
  - unfold Route_destination. cbn [_stop_list entry]. rewrite Hval.
    rewrite last_cons_some. cbn [of_option]. unfold mbind, res_bind.
    unfold circular_query in Hc. now rewrite Hc.
  - unfold Route_stop_type, Route_origin, Route_destination.
    cbn [_stop_list entry]. rewrite Hval, last_cons_some.
    cbn [head of_option]. unfold mbind, res_bind.
    unfold circular_query in Hc. rewrite Hc.
    destruct (stop_ids_In _ _ first Hids (or_introl eq_refl)) as [t Ht].
    destruct (stop_ids_In _ _ (List.last rest first) Hids
                (last_In first rest)) as [u Hu].
    rewrite Ht, Hu. unfold position_type.
    rewrite (id_is_sym _ _ _ Ht), (id_is_sym _ _ _ Hu).
    destruct (id_is _ first); [reflexivity|].
    destruct (id_is _ (List.last rest first)); reflexivity.
Qed.

Lemma Route_init_stop_type_witness :
  exists self,
    Route_init (kmb1_query "S5") kmb_transport (memo_state 30 8)
    = (Ok self,
       snd (stop_list kmb_transport "1" OUTBOUND "1" (memo_state 30 8)))
    /\ Route_origin self = Ok (stop_dict "S1" 1 "尖沙咀碼頭" "Star Ferry")
    /\ Route_destination self
       = Ok (stop_dict "S9" 9 "竹園邨" "Chuk Yuen Estate")
    /\ Route_stop_type self = Ok STOP.
Proof.
  apply (Route_init_stop_type (kmb1_query "S5") kmb_transport
           (memo_state 30 8)
           (snd (stop_list kmb_transport "1" OUTBOUND "1" (memo_state 30 8)))
           (stop_dict "S1" 1 "尖沙咀碼頭" "Star Ferry")
           [stop_dict "S5" 5 "康強苑" "Hong Keung Court";
            stop_dict "S9" 9 "竹園邨" "Chuk Yuen Estate"]
           ["S1"; "S5"; "S9"]).
  - vm_compute. reflexivity.
  - reflexivity.
  - reflexivity.
  - cbn. tauto.
  - reflexivity.
Defined.

(** ** [BravoBusEta] *)







Lemma ctb_renderable l : renderable (ctb_route l).
Proof.
  destruct l; do 4 eexists;
    (split; [reflexivity|split; [reflexivity|split; [reflexivity|
      split; [reflexivity|right; eexists; reflexivity]]]]).
Qed.


(** An empty response object, and one whose [data] is missing or null, are
    both reported as "API Error"; an empty [data] list is reported as "No
    Data".  In none of these cases is [generated_timestamp] looked at. *)
Theorem BravoBusEta_without_data :
  forall (ct : datetime) (self : Route) (d : list (string * pyval))
         (st : State),
    renderable self ->
    (d = [] \/ sget "data" d = None \/ sget "data" d = Some VNone ->
     is_error_eta (BravoBusEta_etas ct self (Ok (VDict d)) st)
                  (api_error_message (RouteQuery.locale (entry self))))
    /\ (sget "data" d = Some (VList []) ->
        is_error_eta (BravoBusEta_etas ct self (Ok (VDict d)) st)
                     (no_data_message (RouteQuery.locale (entry self)))).
Proof.
  intros ct self d st Hr. split.
  - intros Hd. unfold BravoBusEta_etas, mbind, M_bind, lift.
    cbn [py_len py_get].
    destruct (Z.eqb_spec (Z.of_nat (List.length d)) 0) as [_|_];
      [apply error_eta_is_error; [exact Hr|apply em_api_error]|].
    destruct Hd as [->|[-> | ->]]; cbn [dict_get is_None];
      (apply error_eta_is_error; [exact Hr|apply em_api_error]).
  - intros Hdata. unfold BravoBusEta_etas, mbind, M_bind, lift.
    cbn [py_len py_get py_item]. unfold dict_item. rewrite Hdata.
    cbn [is_None of_option py_len List.length].
    destruct d as [|kv d']; [discriminate|]. cbn [List.length].
    destruct (Z.eqb_spec (Z.of_nat (S (List.length d'))) 0) as [E|_]; [lia|].
    cbn [Z.of_nat Z.eqb].
    apply error_eta_is_error; [exact Hr|apply em_empty].
Qed.

Lemma BravoBusEta_without_data_witness :
  is_error_eta (BravoBusEta_etas (sample_clock 0) (ctb_route EN)
                  (Ok (VDict [("type", VStr "ETA"); ("data", VNone)]))
                  sample_state) "API Error"
  /\ is_error_eta (BravoBusEta_etas (sample_clock 0) (ctb_route TC)
                     (Ok (ctb_reply [])) sample_state) "沒有預報".
Proof.
  split.
  - apply (BravoBusEta_without_data (sample_clock 0) (ctb_route EN)
             [("type", VStr "ETA"); ("data", VNone)] sample_state
             (ctb_renderable EN)).
    right. right. reflexivity.
  - apply (BravoBusEta_without_data (sample_clock 0) (ctb_route TC)
             [("type", VStr "ETA");
              ("generated_timestamp", VStr "2024-03-01T07:30:00+08:00");
              ("data", VList [])] sample_state (ctb_renderable TC)).
    reflexivity.
Defined.

(** ** How [MtrTrainEta] classifies a failed response *)

Lemma em_ss_effect self :
  _em self "ss-effect"
  = Ok (special_service_message (RouteQuery.locale (entry self))).
Proof.
  unfold _em. cbn. destruct (RouteQuery.locale (entry self)); reflexivity.
Qed.

(** A response whose [status] is 0 or missing is a failure.  When its
    [message] mentions a suspension, the message itself is shown;
    otherwise a response with a [url] is reported as "Special Service in
    Effect" and any other as "API Error".  A failed response without a
    [message] is not reported at all: reading the arrivals raises
    [KeyError]. *)
Theorem MtrTrainEta_failed_response :
  forall (ct : datetime) (local : Z) (self : Route)
         (d : list (string * pyval)) (st : State),
    renderable self ->
    mtr_failed d ->
    (forall m,
        sget "message" d = Some (VStr m) ->
        is_error_eta (MtrTrainEta_etas ct local self (Ok (VDict d)) st)
          (if str_contains "suspended" m then m
           else if has_url d
                then special_service_message (RouteQuery.locale (entry self))
                else api_error_message (RouteQuery.locale (entry self))))
    /\ (sget "message" d = None ->
        raises (MtrTrainEta_etas ct local self (Ok (VDict d)) st)
               (KeyError "message")).
Proof.
  intros ct local self d st Hr [Hne Hstatus].
  assert (Hhead : MtrTrainEta_etas ct local self (Ok (VDict d)) st
                  = (message ← lift (py_item (VDict d) "message");
                     suspended ← lift (py_contains "suspended" message);
                     if suspended : bool then
                       message ← lift (py_item (VDict d) "message");
                       message_eta ct self message
                     else
                       url ← lift (py_get (VDict d) "url" VNone);
                       if negb (is_None url)
                       then error_eta ct self "ss-effect"
                       else error_eta ct self "api-error") st).
  { unfold MtrTrainEta_etas. unfold mbind at 1 2, M_bind at 1 2, lift at 1 2.
    cbn [py_len].
    destruct d as [|kv d']; [congruence|]. cbn [List.length].
    destruct (Z.eqb_spec (Z.of_nat (S (List.length d'))) 0) as [E|_]; [lia|].
    unfold mbind at 1, M_bind at 1, lift at 1. cbn [py_get].
    destruct Hstatus as [-> | (v & -> & ->)]; reflexivity. }
  rewrite Hhead. clear Hhead. split.
  - intros m Hm. unfold mbind, M_bind, lift. cbn [py_item py_get].
    unfold dict_item. rewrite Hm. cbn [of_option py_contains].
    destruct (str_contains "suspended" m).
    + now apply message_eta_is_error.
    + unfold has_url. destruct (sget "url" d) as [u|].
      * destruct (negb (is_None u)).
        -- apply error_eta_is_error; [exact Hr|apply em_ss_effect].
        -- apply error_eta_is_error; [exact Hr|apply em_api_error].
      * cbn [is_None negb].
        apply error_eta_is_error; [exact Hr|apply em_api_error].
  - intros Hm. unfold mbind, M_bind, lift. cbn [py_item].
    unfold dict_item. rewrite Hm. cbn [of_option].
    eexists. reflexivity.
Qed.

Lemma eal_sample_renderable l : renderable (eal_sample_route l).
Proof.
  destruct l; do 4 eexists;
    (split; [reflexivity|split; [reflexivity|split; [reflexivity|
      split; [reflexivity|right; eexists; reflexivity]]]]).
Qed.

Lemma MtrTrainEta_failed_response_witness :
  is_error_eta
    (MtrTrainEta_etas (sample_clock 0) HKT (eal_sample_route EN)
       (Ok (VDict [("status", VInt 0);
                   ("message", VStr "Service is suspended (typhoon)")]))
       sample_state)
    "Service is suspended (typhoon)"
  /\ is_error_eta
       (MtrTrainEta_etas (sample_clock 0) HKT (eal_sample_route EN)
          (Ok (VDict [("status", VInt 0);
                      ("message", VStr "special train service arrangement");
                      ("url", VStr "https://www.mtr.com.hk/alert")]))
          sample_state)
       "Special Service in Effect"
  /\ raises
       (MtrTrainEta_etas (sample_clock 0) HKT (eal_sample_route EN)
          (Ok (VDict [("error", VStr "bad gateway")])) sample_state)
       (KeyError "message").
Proof.
  split; [|split].
  - destruct (MtrTrainEta_failed_response (sample_clock 0) HKT
                (eal_sample_route EN)
                [("status", VInt 0);
                 ("message", VStr "Service is suspended (typhoon)")]
                sample_state (eal_sample_renderable EN)) as [H _].
    + split; [discriminate|]. right. eexists. split; reflexivity.
    + exact (H "Service is suspended (typhoon)" eq_refl).
  - destruct (MtrTrainEta_failed_response (sample_clock 0) HKT
                (eal_sample_route EN)
                [("status", VInt 0);
                 ("message", VStr "special train service arrangement");
                 ("url", VStr "https://www.mtr.com.hk/alert")]
                sample_state (eal_sample_renderable EN)) as [H _].
    + split; [discriminate|]. right. eexists. split; reflexivity.
    + exact (H "special train service arrangement" eq_refl).
  - destruct (MtrTrainEta_failed_response (sample_clock 0) HKT
                (eal_sample_route EN) [("error", VStr "bad gateway")]
                sample_state (eal_sample_renderable EN)) as [_ H].
    + split; [discriminate|]. left. reflexivity.
    + exact (H eq_refl).
Defined.






(** ** The tracker of partial refreshes *)

Lemma wrap_calls_partial (schedule : Schedule) (cycle : Z) (k : nat) :
  is_partial schedule = true ->
  partial_cycle schedule = Some cycle ->
  forall c,
    0 <= c ->
    c + Z.of_nat k <= cycle ->
    wrap_calls schedule k (mkLog (Some (schedule_id schedule)) c)
    = (repeat (Ok true) k,
       mkLog (Some (schedule_id schedule)) (c + Z.of_nat k)).
Proof.
  intros Hp Hc. induction k as [|k IH]; intros c Hc0 Hle.
  - cbn. now rewrite Z.add_0_r.
  - cbn [wrap_calls]. unfold wrap at 1. rewrite Hp, Hc. cbn [negb log_id].
    destruct (Z.leb_spec cycle 0) as [H|_]; [lia|].
    rewrite Z.eqb_refl. cbn [negb log_count].
    destruct (Z.ltb_spec cycle (c + 1)) as [H|_]; [lia|].
    rewrite (IH (c + 1)) by lia. cbn [repeat].
    replace (c + 1 + Z.of_nat k) with (c + Z.of_nat (S k)) by lia.
    reflexivity.
Qed.

Lemma wrap_calls_app (schedule : Schedule) (n m : nat) (log : tracker_log) :
  wrap_calls schedule (n + m) log
  = let '(rs, log') := wrap_calls schedule n log in
    let '(rs', log'') := wrap_calls schedule m log' in
    ((rs ++ rs')%list, log'').
Proof.
  revert log. induction n as [|n IH]; intros log; cbn [wrap_calls Nat.add].
  - now destruct (wrap_calls schedule m log).
  - destruct (wrap schedule log) as [r log1]. rewrite IH.
    destruct (wrap_calls schedule n log1) as [rs log2].
    now destruct (wrap_calls schedule m log2).
Qed.

(** Once the tracker has counted a schedule out (its count is back at 0),
    the next [partial_cycle] refreshes of that schedule are partial, the
    one after them is a full refresh, and the tracker is back where it
    was: full refreshes come every [partial_cycle + 1] refreshes. *)
Theorem partial_tracker_period :
  forall (schedule : Schedule) (cycle : Z),
    is_partial schedule = true ->
    partial_cycle schedule = Some cycle ->
    0 < cycle ->
    wrap_calls schedule (Z.to_nat cycle + 1)
               (mkLog (Some (schedule_id schedule)) 0)
    = ((repeat (Ok true) (Z.to_nat cycle) ++ [Ok false])%list,
       mkLog (Some (schedule_id schedule)) 0).
Proof.
  intros schedule cycle Hp Hc Hpos.
  rewrite wrap_calls_app.
  rewrite (wrap_calls_partial schedule cycle (Z.to_nat cycle) Hp Hc 0)
    by lia.
  cbn [wrap_calls]. unfold wrap. rewrite Hp, Hc. cbn [negb log_id log_count].
  destruct (Z.leb_spec cycle 0) as [H|_]; [lia|].
  rewrite Z.eqb_refl. cbn [negb].
  destruct (Z.ltb_spec cycle (0 + Z.of_nat (Z.to_nat cycle) + 1)) as [_|H];
    [reflexivity|lia].
Qed.

Lemma partial_tracker_period_witness :
  wrap_calls (mkSchedule 7 true (Some 3)) (Z.to_nat 3 + 1)
             (mkLog (Some 7) 0)
  = ((repeat (Ok true) (Z.to_nat 3) ++ [Ok false])%list, mkLog (Some 7) 0).
Proof.
  apply (partial_tracker_period (mkSchedule 7 true (Some 3)) 3);
    [reflexivity|reflexivity|lia].
Defined.

(** The first refresh of a schedule the tracker was not counting (a new
    tracker, or one that last saw another schedule) is a full refresh, and
    only [partial_cycle - 1] partial refreshes follow it before the next
    full one: the first round is one refresh shorter than the later
    ones. *)
Theorem partial_tracker_first_round :
  forall (schedule : Schedule) (cycle : Z) (log : tracker_log),
    is_partial schedule = true ->
    partial_cycle schedule = Some cycle ->
    0 < cycle ->
    log_id log <> Some (schedule_id schedule) ->
    wrap_calls schedule (1 + (Z.to_nat cycle - 1) + 1) log
    = ((Ok false :: repeat (Ok true) (Z.to_nat cycle - 1) ++ [Ok false])%list,
       mkLog (Some (schedule_id schedule)) 0).
Proof.
  intros schedule cycle log Hp Hc Hpos Hid.
  change (1 + (Z.to_nat cycle - 1) + 1)%nat
    with (S ((Z.to_nat cycle - 1) + 1)).
  cbn [wrap_calls]. unfold wrap at 1. rewrite Hp, Hc. cbn [negb].
  destruct (Z.leb_spec cycle 0) as [H|_]; [lia|].
  assert (match log_id log with
          | Some i => i =? schedule_id schedule
          | None => false
          end = false) as ->.
  { destruct (log_id log) as [i|]; [|reflexivity].
    apply Z.eqb_neq. congruence. }
  cbn [negb]. rewrite wrap_calls_app.
  rewrite (wrap_calls_partial schedule cycle (Z.to_nat cycle - 1) Hp Hc 1)
    by lia.
  cbn [wrap_calls]. unfold wrap. rewrite Hp, Hc. cbn [negb log_id log_count].
  destruct (Z.leb_spec cycle 0) as [H|_]; [lia|].
  rewrite Z.eqb_refl. cbn [negb].
  destruct (Z.ltb_spec cycle (1 + Z.of_nat (Z.to_nat cycle - 1) + 1))
    as [_|H]; [reflexivity|lia].
Qed.

Lemma partial_tracker_first_round_witness :
  wrap_calls (mkSchedule 7 true (Some 3)) (1 + (Z.to_nat 3 - 1) + 1)
             partial_tracker
  = ((Ok false :: repeat (Ok true) (Z.to_nat 3 - 1) ++ [Ok false])%list,
     mkLog (Some 7) 0).
Proof.
  apply (partial_tracker_first_round (mkSchedule 7 true (Some 3)) 3
           partial_tracker); [reflexivity|reflexivity|lia|discriminate].
Defined.

(** ** The sequence numbers of the MTR stop lists *)

Lemma str_rstrip_all (chars z : string) :
  str_all_in chars z = true -> str_rstrip chars z = EmptyString.
Proof.
  induction z as [|c z IH]; [reflexivity|].
  cbn [str_all_in str_rstrip]. intros H. apply andb_prop in H as [Hc Hz].
  now rewrite (IH Hz), Hc.
Qed.

Lemma str_rstrip_app (chars d z : string) (c : ascii) :
  last_char d = Some c ->
  str_has chars c = false ->
  str_all_in chars z = true ->
  str_rstrip chars (d ++ z) = d.
Proof.
  intros Hl Hc Hz. induction d as [|a d IH]; [discriminate|].
  change (String a d ++ z) with (String a (d ++ z)).
  cbn [str_rstrip]. destruct d as [|b d'].
  - change (EmptyString ++ z) with z. rewrite (str_rstrip_all _ _ Hz).
    cbn in Hl. inversion Hl; subst a. now rewrite Hc.
  - rewrite IH; [reflexivity|exact Hl].
Qed.

Lemma digit_not_stripped (c : ascii) (n : Z) :
  digit_of_ascii c = Some n ->
  Ascii.eqb c "0"%char = false ->
  str_has ".00" c = false.
Proof.
  intros Hd H0. cbn [str_has]. rewrite H0.
  destruct (Ascii.eqb_spec c "."%char) as [->|_]; [discriminate|reflexivity].
Qed.

Lemma all_digits_last (d : string) (c : ascii) :
  all_digits d = true -> last_char d = Some c ->
  exists n, digit_of_ascii c = Some n.
Proof.
  induction d as [|a d IH]; [discriminate|].
  cbn [all_digits]. destruct (digit_of_ascii a) as [n|] eqn:Ea;
    [|discriminate].
  intros Hd Hl. destruct d as [|b d'].
  - cbn in Hl. inversion Hl; subst. eauto.
  - apply IH; assumption.
Qed.

Lemma all_digits_read (d : string) :
  all_digits d = true -> forall acc, exists n, read_decimal acc d = Some n.
Proof.
  induction d as [|a d IH]; intros Hd acc; cbn [read_decimal]; [eauto|].
  cbn [all_digits] in Hd. destruct (digit_of_ascii a); [|discriminate].
  apply IH, Hd.
Qed.

Lemma stop_number_strip (d z : string) :
  stop_number d = true ->
  str_all_in ".00" z = true ->
  str_strip ".00" (d ++ z) = d
  /\ exists n, py_int (VStr d) = Ok n.
Proof.
  unfold stop_number. intros H Hz.
  apply andb_prop in H as [H Hlast]. apply andb_prop in H as [Hd Hfirst].
  destruct d as [|a d]; [discriminate|].
  destruct (last_char (String a d)) as [c|] eqn:El; [|discriminate].
  apply negb_true_iff in Hfirst, Hlast.
  destruct (all_digits_last _ _ Hd El) as [m Hm].
  pose proof Hd as Hd'. cbn [all_digits] in Hd'.
  destruct (digit_of_ascii a) as [n0|] eqn:Ea; [|discriminate].
  split.
  - unfold str_strip. change (String a d ++ z) with (String a (d ++ z)).
    cbn [str_lstrip]. rewrite (digit_not_stripped a n0 Ea Hfirst).
    change (String a (d ++ z)) with (String a d ++ z).
    apply (str_rstrip_app _ _ _ c El (digit_not_stripped c m Hm Hlast) Hz).
  - cbn [py_int]. unfold int_of_string.
    destruct (Ascii.eqb_spec a "-"%char) as [->|_]; [discriminate|].
    destruct (Ascii.eqb_spec a "+"%char) as [->|_]; [discriminate|].
    destruct (all_digits_read _ Hd 0) as [n Hn]. rewrite Hn. eauto.
Qed.

(** The sequence number of a stop is read from the text of the file with
    the characters [.] and [0] stripped from its ends, so the zeros that
    end a stop number are lost with the decimals: for a number that does
    not end in 0, followed by any run of zeros and dots, the stop gets the
    number itself ([10.00] and [100] are read as 1, like [1.00]). *)
Theorem MTRBus_stop_seq_loses_zeros :
  forall (route dir id lat long tc en d z : string) (more : list string),
    stop_number d = true ->
    str_all_in ".00" z = true ->
    exists n,
      py_int (VStr d) = Ok n
      /\ MTRBus_stop
           ([route; dir; d ++ z; id; lat; long; tc; en] ++ more)
         = Ok (VDict [("id", VStr id); ("seq", VInt n);
                      ("name", VDict [("tc", VStr tc); ("en", VStr en)])]).
Proof.
  intros route dir id lat long tc en d z more Hd Hz.
  destruct (stop_number_strip d z Hd Hz) as [Hstrip [n Hn]].
  exists n. split; [exact Hn|].
  unfold MTRBus_stop, row_item, stripped_seq. cbn [app nth_error of_option].
  unfold mbind, res_bind. rewrite Hstrip, Hn. reflexivity.
Qed.

Lemma MTRBus_stop_seq_loses_zeros_witness :
  exists n,
    py_int (VStr "1") = Ok n
    /\ MTRBus_stop
         (["K12"; "O"; "1" ++ "0.00"; "K12-U100"; "22.45"; "114.17";
           "八號花園"; "Eightland Gardens"] ++ [])
       = Ok (VDict [("id", VStr "K12-U100"); ("seq", VInt n);
                    ("name", VDict [("tc", VStr "八號花園");
                                    ("en", VStr "Eightland Gardens")])]).
Proof.
  apply (MTRBus_stop_seq_loses_zeros "K12" "O" "K12-U100" "22.45" "114.17"
           "八號花園" "Eightland Gardens" "1" "0.00" []); reflexivity.
Defined.

(** ** The guards of [MTRBus._fetch_stop_list] *)

Lemma select_rows_none (cond : list string -> res bool)
  (rows : list (list string)) :
  Forall (fun row => cond row = Ok false) rows ->
  select_rows cond rows = Ok [].
Proof.
  induction 1 as [|row rest Hrow _ IH]; [reflexivity|].
  cbn [select_rows]. rewrite Hrow, IH. reflexivity.
Qed.

Lemma select_rows_raise (cond : list string -> res bool)
  (pre post : list (list string)) (row : list string) (e : exn) :
  Forall (fun r => exists b, cond r = Ok b) pre ->
  cond row = Raise e ->
  select_rows cond (pre ++ row :: post) = Raise e.
Proof.
  intros Hpre Hrow. induction Hpre as [|r rest [b Hb] _ IH].
  - cbn [app select_rows]. now rewrite Hrow.
  - cbn [app select_rows]. rewrite Hb, IH. reflexivity.
Qed.

(** The service type is checked first: any other than ["default"] raises
    [ServiceTypeNotExist], whatever the file holds and even when it cannot
    be fetched.  A file without a row whose first column is the route
    raises [RouteNotExist].  An empty row (a blank line of the file) raises
    [IndexError], wherever the rows of the route are. *)
Theorem MTRBus_fetch_stop_list_errors :
  forall (route_no : string) (direction : Direction),
    (forall api service_type,
        service_type <> "default" ->
        MTRBus_fetch_stop_list api route_no direction service_type
        = Raise (ServiceTypeNotExist service_type))
    /\ (forall rows,
           Forall (fun row => exists r more,
                       row = r :: more /\ r <> route_no) rows ->
           MTRBus_fetch_stop_list (Ok rows) route_no direction "default"
           = Raise (RouteNotExist route_no))
    /\ (forall pre post,
           Forall (fun row => exists b,
                       MTRBus_selects route_no direction row = Ok b) pre ->
           MTRBus_fetch_stop_list (Ok (pre ++ [] :: post)%list) route_no
                                  direction "default"
           = Raise IndexError).
Proof.
  intros route_no direction. split; [|split].
  - intros api service_type Hne. unfold MTRBus_fetch_stop_list.
    destruct (String.eqb_spec service_type "default") as [E|_];
      [congruence|reflexivity].
  - intros rows Hrows. unfold MTRBus_fetch_stop_list.
    cbn [String.eqb Ascii.eqb Bool.eqb negb]. unfold mbind, res_bind.
    rewrite select_rows_none; [reflexivity|].
    eapply List.Forall_impl; [|exact Hrows].
    intros row (r & more & -> & Hr). unfold MTRBus_selects, row_item.
    cbn [nth_error of_option]. unfold mbind, res_bind.
    destruct (String.eqb_spec r route_no) as [E|_]; [congruence|reflexivity].
  - intros pre post Hpre. unfold MTRBus_fetch_stop_list.
    cbn [String.eqb Ascii.eqb Bool.eqb negb]. unfold mbind, res_bind.
    now rewrite (select_rows_raise _ pre post [] IndexError Hpre eq_refl).
Qed.

Lemma MTRBus_fetch_stop_list_errors_witness :
  MTRBus_fetch_stop_list (Raise TransportError) "K12" OUTBOUND "1"
  = Raise (ServiceTypeNotExist "1")
  /\ MTRBus_fetch_stop_list (Ok mtr_bus_rows) "K99" OUTBOUND "default"
     = Raise (RouteNotExist "K99")
  /\ MTRBus_fetch_stop_list (Ok (mtr_bus_rows ++ [] :: [])%list) "K12"
                            OUTBOUND "default"
     = Raise IndexError.
Proof.
  destruct (MTRBus_fetch_stop_list_errors "K12" OUTBOUND) as (Ha & _ & Hc).
  destruct (MTRBus_fetch_stop_list_errors "K99" OUTBOUND) as (_ & Hb & _).
  split; [|split].
  - apply Ha. discriminate.
  - apply Hb. repeat constructor; do 2 eexists; (split; [reflexivity|]);
      discriminate.
  - apply Hc. repeat constructor; eexists; reflexivity.
Defined.

(** ** The stop list of a branch of an MTR line *)

Lemma str_prefix_app (a b : string) : String.prefix a (a ++ b) = true.
Proof.
  induction a as [|c a IH]; [destruct b; reflexivity|].
  change (String c a ++ b) with (String c (a ++ b)). cbn [String.prefix].
  destruct (ascii_dec c c) as [_|H]; [exact IH|congruence].
Qed.

Lemma str_contains_prefix (sub s : string) :
  String.prefix sub s = true -> str_contains sub s = true.
Proof.
  intros H. destruct s; cbn [str_contains]; now rewrite H.
Qed.

Lemma str_contains_middle (a sub b : string) :
  str_contains sub (a ++ sub ++ b) = true.
Proof.
  induction a as [|c a IH].
  - change (EmptyString ++ sub ++ b) with (sub ++ b).
    apply str_contains_prefix, str_prefix_app.
  - change (String c a ++ sub ++ b) with (String c (a ++ sub ++ b)).
    cbn [str_contains]. rewrite IH. apply orb_true_r.
Qed.

Lemma str_split_plain (a : string) :
  str_has a "-"%char = false -> str_split "-"%char a = [a].
Proof.
  induction a as [|c a IH]; [reflexivity|].
  cbn [str_has str_split]. intros H. apply orb_false_elim in H as [Hc Ha].
  rewrite Ascii.eqb_sym in Hc. rewrite Hc, (IH Ha). reflexivity.
Qed.

Lemma str_split_branch (a b : string) :
  str_has a "-"%char = false ->
  str_has b "-"%char = false ->
  str_split "-"%char (a ++ "-" ++ b) = [a; b].
Proof.
  intros Ha Hb. induction a as [|c a IH].
  - change (EmptyString ++ "-" ++ b) with (String "-"%char b).
    cbn [str_split]. rewrite Ascii.eqb_refl. now rewrite (str_split_plain b Hb).
  - change (String c a ++ "-" ++ b) with (String c (a ++ "-" ++ b)).
    cbn [str_has] in Ha. apply orb_false_elim in Ha as [Hc Ha].
    cbn [str_split]. rewrite Ascii.eqb_sym in Hc. rewrite Hc, (IH Ha).
    reflexivity.
Qed.

Lemma select_rows_ok (cond : list string -> res bool)
  (rows : list (list string)) :
  Forall (fun row => exists b, cond row = Ok b) rows ->
  exists sel,
    select_rows cond rows = Ok sel
    /\ (forall row, In row rows -> cond row = Ok true -> In row sel)
    /\ (forall row, In row sel -> In row rows /\ cond row = Ok true).
Proof.
  induction 1 as [|r rest [b Hb] _ (sel & Hsel & Hin & Hout)].
  - exists []. split; [reflexivity|]. split.
    + intros row0 Hr. destruct Hr.
    + intros row0 Hr. destruct Hr.
  - cbn [select_rows]. rewrite Hb, Hsel. unfold mbind, res_bind.
    destruct b.
    + exists (r :: sel). split; [reflexivity|]. split.
      * intros row [<-|Hr] Hc; [now left|right; now apply Hin].
      * intros row [<-|Hr]; [split; [now left|exact Hb]|].
        destruct (Hout row Hr). split; [now right|assumption].
    + exists sel. split; [reflexivity|]. split.
      * intros row [<-|Hr] Hc; [congruence|now apply Hin].
      * intros row Hr. destruct (Hout row Hr). split; [now right|assumption].
Qed.

Lemma map_res_ok {A B} (f : A -> res B) (l : list A) :
  Forall (fun x => exists y, f x = Ok y) l ->
  exists ys,
    map_res f l = Ok ys
    /\ forall x y, In x l -> f x = Ok y -> In y ys.
Proof.
  induction 1 as [|x r [y Hy] _ (ys & Hys & Hin)].
  - exists []. split; [reflexivity|]. intros x y [].
  - cbn [map_res]. rewrite Hy, Hys. unfold mbind, res_bind.
    exists (y :: ys). split; [reflexivity|].
    intros x' y' [<-|Hx] Hf; [left; congruence|right; eauto].
Qed.

(** For a route with a branch (as [EAL-LMC]) the direction asked for is
    not looked at: every row of the line whose direction column mentions
    the branch is in the stop list, the rows of the down track as well as
    those of the up track, whichever direction is queried. *)
Theorem MTRTrain_branch_both_tracks :
  forall (self : Transport) (st : State) (routes : pyval)
         (rows : list (list string)) (rt_name rt_type track : string)
         (direction : Direction) (more : list string),
    routes_memoised self st routes 1 ->
    py_has_key routes (rt_name ++ "-" ++ rt_type) = Ok true ->
    str_has rt_name "-"%char = false ->
    str_has rt_type "-"%char = false ->
    Forall (fun row =>
              exists b,
                MTRTrain_selects_branch rt_name rt_type row = Ok b
                /\ (b = true -> exists s, MTRTrain_stop row = Ok s)) rows ->
    In (rt_name :: (rt_type ++ "-" ++ track) :: more) rows ->
    exists stops s,
      MTRTrain_fetch_stop_list self (Ok rows) (rt_name ++ "-" ++ rt_type)
                               direction "default" st
      = (Ok stops, tick st)
      /\ MTRTrain_stop (rt_name :: (rt_type ++ "-" ++ track) :: more) = Ok s
      /\ In s stops.
Proof.
  intros self st routes rows rt_name rt_type track direction more
    Hm Hknown Hn Ht Hrows Hin.
  set (row := rt_name :: (rt_type ++ "-" ++ track) :: more) in *.
  assert (Hsel : MTRTrain_selects_branch rt_name rt_type row = Ok true).
  { unfold MTRTrain_selects_branch, row_item, row.
    cbn [nth_error of_option]. unfold mbind, res_bind.
    rewrite String.eqb_refl. cbn [negb].
    f_equal. exact (str_contains_middle EmptyString rt_type ("-" ++ track)). }
  destruct (select_rows_ok (MTRTrain_selects_branch rt_name rt_type) rows)
    as (sel & Hrun & Hkeep & Hfrom).
  { eapply List.Forall_impl; [|exact Hrows]. intros r (b & Hb & _). eauto. }
  assert (Hstops : Forall (fun r => exists s, MTRTrain_stop r = Ok s) sel).
  { apply List.Forall_forall. intros r Hr. destruct (Hfrom r Hr) as [Hr' Hc].
    rewrite List.Forall_forall in Hrows.
    destruct (Hrows r Hr') as (b & Hb & Hs). apply Hs. congruence. }
  destruct (map_res_ok MTRTrain_stop sel Hstops) as (stops & Hmap & Hall).
  pose proof (Hkeep row Hin Hsel) as Hrow.
  rewrite List.Forall_forall in Hstops. destruct (Hstops row Hrow) as [s Hs].
  exists stops, s. split; [|split; [exact Hs|now apply (Hall row)]].
  unfold MTRTrain_fetch_stop_list, check_service_type.
  cbn [String.eqb Ascii.eqb Bool.eqb negb].
  unfold mbind at 1, M_bind at 1, mret at 1, M_ret at 1.
  unfold mbind at 1, M_bind at 1.
  rewrite (check_route_memoised _ _ _ _ _ Hm Hknown).
  unfold lift, MTRTrain_stops, mbind, res_bind.
  rewrite (str_contains_middle rt_name "-" rt_type).
  rewrite (str_split_branch rt_name rt_type Hn Ht), Hrun.
  destruct sel as [|r0 sel']; [destruct Hrow|].
  cbn [List.length Nat.eqb]. now rewrite Hmap.
Qed.

Lemma train_state_memoised :
  routes_memoised (sample_transport MTRTrain) train_state train_routes 1.
Proof.
  split; [intros k; reflexivity|].
  exists (mkdt 2024 2 23 9 0 0 0 None). split.
  - apply (wrapper_record (mkdt 2024 2 23 9 0 0 0 None) train_routes);
      reflexivity.
  - intros k Hk. assert (k = 0)%nat as -> by lia.
    vm_compute. discriminate.
Qed.

Lemma MTRTrain_branch_both_tracks_witness :
  exists stops s,
    MTRTrain_fetch_stop_list (sample_transport MTRTrain) (Ok mtr_train_rows)
      ("EAL" ++ "-" ++ "LMC") INBOUND "default" train_state
    = (Ok stops, tick train_state)
    /\ MTRTrain_stop
         ("EAL" :: ("LMC" ++ "-" ++ "UT")
            :: ["LMC"; "78"; "落馬洲"; "Lok Ma Chau"; "14.00"]) = Ok s
    /\ In s stops.
Proof.
  apply (MTRTrain_branch_both_tracks (sample_transport MTRTrain) train_state
           train_routes mtr_train_rows "EAL" "LMC" "UT" INBOUND
           ["LMC"; "78"; "落馬洲"; "Lok Ma Chau"; "14.00"]).
  - apply train_state_memoised.
  - reflexivity.
  - reflexivity.
  - reflexivity.
  - apply List.Forall_cons;
      [exists false; split; [reflexivity|discriminate]|].
    repeat (apply List.Forall_cons;
            [exists true; split;
             [reflexivity|intros _; eexists; vm_compute; reflexivity]|]).
    apply List.Forall_nil.
  - cbn. tauto.
Defined.

(** ** A cache file that is not a JSON document *)

(** A cache file that exists but does not hold a complete JSON document
    (a write that was cut short) is never replaced: reading the route list
    in a new process, or the stop list, raises [ValueError] without a call
    to the operator and leaves the file as it is.  Only a missing file is
    fetched again. *)
Theorem truncated_cache_file_not_refetched :
  forall (self : Transport) (st : State),
    (_routes st = VNone ->
     fs st !! route_list_path self = Some Partial ->
     route_list self st = (Raise ValueError, st))
    /\ (forall routes no dir svc,
           routes_memoised self st routes 1 ->
           py_has_key routes no = Ok true ->
           fs st !! stop_list_path self no dir svc = Some Partial ->
           stop_list self no dir svc st = (Raise ValueError, tick st)).
Proof.
  intros self st. split.
  - intros Hm Hf. unfold route_list, mbind, M_bind, get_routes.
    rewrite Hm. cbn [is_None]. unfold lookup_file at 1. rewrite Hf.
    unfold load_file, mbind, M_bind, lookup_file. rewrite Hf. reflexivity.
  - intros routes no dir svc Hmemo Hknown Hf.
    unfold stop_list. unfold mbind at 1, M_bind at 1.
    destruct (routes_memoised_read _ _ _ _ Hmemo) as [-> _].
    unfold mbind at 1, M_bind at 1, lift at 1. rewrite Hknown.
    cbn [negb]. fold (stop_list_path self no dir svc).
    unfold mbind at 1, M_bind at 1. unfold _is_outdated.
    unfold mbind at 1, M_bind at 1, lookup_file at 1.
    cbn [tick fs]. rewrite Hf.
    unfold mbind at 1, M_bind at 1, load_file.
    unfold mbind at 1, M_bind at 1, lookup_file at 1.
    cbn [tick fs]. rewrite Hf. reflexivity.
Qed.

Lemma truncated_cache_file_not_refetched_witness :
  route_list kmb_transport truncated_routes_state
  = (Raise ValueError, truncated_routes_state)
  /\ stop_list kmb_transport "1" OUTBOUND "1" truncated_stops_state
     = (Raise ValueError, tick truncated_stops_state).
Proof.
  split.
  - destruct (truncated_cache_file_not_refetched kmb_transport
                truncated_routes_state) as [H _].
    apply H; [reflexivity|vm_compute; reflexivity].
  - destruct (truncated_cache_file_not_refetched kmb_transport
                truncated_stops_state) as [_ H].
    apply (H kmb_routes "1" OUTBOUND "1").
    + split; [intros k; reflexivity|].
      exists (memo_time 30 8). split.
      * apply memo_record. reflexivity.
      * intros k Hk. assert (k = 0)%nat as -> by lia.
        vm_compute. discriminate.
    + reflexivity.
    + vm_compute. reflexivity.
Defined.

(** * C7: the destination name of a route *)

Lemma dict_set_values {K A} (eqb : K -> K -> bool) (k : K) (x : A)
  (d : list (K * A)) (v : A) :
  In v (dict_values (dict_set eqb k x d)) ->
  v = x \/ In v (dict_values d).
Proof.
  unfold dict_values.
  induction d as [|[k' x'] d IH]; cbn [dict_set map snd In].
  - intros [<-|[]]. now left.
  - destruct (eqb k k'); cbn [map snd In].
    + intros [<-|H]; [now left|right; now right].
    + intros [<-|H]; [right; now left|].
      destruct (IH H) as [->|H']; [now left|right; now right].
Qed.

Lemma index_stops_values (l : list pyval) :
  forall acc d v,
    index_stops l acc = Ok d ->
    In v (dict_values d) ->
    In v l \/ In v (dict_values acc).
Proof.
  induction l as [|stop l IH]; intros acc d v Hd Hv.
  - cbn in Hd. inversion Hd; subst. now right.
  - cbn [index_stops] in Hd. unfold mbind, res_bind in Hd.
    destruct (py_item stop "id") as [k|]; [|discriminate].
    destruct (py_hashable k); [|discriminate].
    destruct (IH _ _ v Hd Hv) as [H|H]; [left; now right|].
    apply dict_set_values in H as [->|H]; [left; now left|now right].
Qed.

Lemma stop_ids_have_ids (l : list pyval) :
  forall ids, stop_ids l = Some ids -> stops_have_ids l.
Proof.
  induction l as [|stop l IH]; intros ids Hids; constructor.
  - cbn [stop_ids] in Hids.
    destruct (py_item stop "id") as [k|]; [|discriminate].
    destruct k; try discriminate. eexists. split; reflexivity.
  - cbn [stop_ids] in Hids.
    destruct (py_item stop "id") as [k|]; [|discriminate].
    destruct k; try discriminate.
    destruct (stop_ids l) as [ids'|]; [|discriminate].
    now apply (IH ids').
Qed.

Lemma last_nonempty {A} (l : list A) :
  l <> [] -> exists x, last l = Some x /\ In x l.
Proof.
  destruct l as [|a l]; [congruence|]. intros _.
  exists (List.last l a). split; [apply last_cons_some|apply last_In].
Qed.

Lemma existsb_In_str (s : string) (ids : list string) :
  In s ids -> existsb (String.eqb s) ids = true.
Proof.
  intros H. apply existsb_exists. exists s. split; [exact H|].
  apply String.eqb_refl.
Qed.

(** As the specification states it, the property fails for a route whose
    resolved stop list names its terminus twice, as the first and as the
    last stop: the dictionary of the route keeps one entry for the terminus,
    at the first position, and [dest_name] returns the name of the stop
    before the terminus, not that of the stop with the highest sequence. *)
Lemma dest_name_highest_counterexample :
  exists self st',
    fst (stop_list loop_transport "1" OUTBOUND "1" (memo_state 30 8))
    = Ok (VTuple loop_stops)
    /\ Route_init loop_query loop_transport (memo_state 30 8) = (Ok self, st')
    /\ is_circular_lrt self = false
    /\ ascending_seq loop_stops = true
    /\ last loop_stops = Some (stop_dict "T1" 3 "總站" "Terminus")
    /\ Route_dest_name self = Ok (VStr "Market").
Proof.
  eexists. eexists. split; [vm_compute; reflexivity|].
  split; [vm_compute; reflexivity|]. repeat split; reflexivity.
Qed.

(** C7 (amended).  A route built over the light-rail routes 705 and 706
    has the circular label of the query's locale for its [dest_name].  For
    every other route, built from a resolved stop list in which no stop id
    occurs twice, [dest_name] is the name of the last stop of that list,
    which is the stop with the highest sequence when the list is in
    ascending sequence order: every other stop comes before it. *)
Theorem dest_name_circular_or_last :
  forall (entry : RouteQuery.t) (transport_ : Transport) (st st1 : State)
         (first : pyval) (rest : list pyval) (ids : list string),
    stop_list transport_ (RouteQuery.no entry) (RouteQuery.direction entry)
              (RouteQuery.service_type entry) st
    = (Ok (VTuple (first :: rest)), st1) ->
    stop_ids (first :: rest) = Some ids ->
    In (RouteQuery.stop_id entry) ids ->
    exists self,
      Route_init entry transport_ st = (Ok self, st1)
      /\ (circular_query entry = true ->
          Forall (fun s => exists v, py_item s "seq" = Ok v)
                 (first :: rest) ->
          Route_dest_name self
          = Ok (VStr (circular_label (RouteQuery.locale entry))))
      /\ (circular_query entry = false ->
          distinct ids = true ->
          Route_dest_name self
          = stop_name_of (List.last rest first) (RouteQuery.locale entry)
          /\ (ascending_seq (first :: rest) = true ->
              forall s, In s (first :: rest) ->
                        s = List.last rest first
                        \/ seq_lt s (List.last rest first))).
Proof.
  intros q transport_ st st1 first rest ids Hsl Hids Hin.
  destruct (index_stops_total _ (stop_ids_have_ids _ _ Hids) [])
    as [d Hd].
  exists (mkRoute q transport_ d). split; [|split].
  - rewrite (Route_init_after_stop_list q transport_ st _ st1 _ Hsl Hd).
    now rewrite (stop_ids_existsb _ _ _ Hids), (existsb_In_str _ _ Hin).
  - intros Hc Hseq.
    assert (Hne : d <> []).
    { pose proof (index_stops_mem (RouteQuery.stop_id q) _ _ _ Hd) as Hm.
      rewrite (stop_ids_existsb _ _ _ Hids), (existsb_In_str _ _ Hin) in Hm.
      intros ->. discriminate Hm. }
    destruct (last_nonempty (dict_values d)) as (x & Hx & Hxin).
    { unfold dict_values. destruct d; [congruence|discriminate]. }
    destruct (index_stops_values _ _ _ x Hd Hxin) as [Hxl|[]].
    destruct (stop_ids_In _ _ x Hids Hxl) as [t Ht].
    rewrite List.Forall_forall in Hseq. destruct (Hseq x Hxl) as [v Hv].
    unfold Route_dest_name.
    rewrite (destination_circular (mkRoute q transport_ d) x (VStr t) v
               Hc Hx Ht Hv).
    unfold mbind, res_bind. cbn [py_item dict_item dict_get String.eqb
      Ascii.eqb Bool.eqb of_option].
    unfold locale_item, circular_label. cbn [entry].
    destruct (RouteQuery.locale q); reflexivity.
  - intros Hc Hdist.
    pose proof (index_stops_distinct _ _ Hids Hdist) as Hidx.
    rewrite Hd in Hidx. inversion Hidx; subst d.
    pose proof (values_combine (map VStr ids) (first :: rest)) as Hval.
    rewrite length_map, (stop_ids_length _ _ Hids) in Hval.
    specialize (Hval eq_refl).
    assert (Hlast : last (dict_values
                            (_stop_list
                               (mkRoute q transport_
                                  (combine (map VStr ids) (first :: rest)))))
                    = Some (List.last rest first)).
    { cbn [_stop_list]. rewrite Hval. apply last_cons_some. }
    split.
    + unfold Route_dest_name.
      rewrite (destination_plain
                 (mkRoute q transport_
                    (combine (map VStr ids) (first :: rest)))
                 (List.last rest first) Hc Hlast).
      reflexivity.
    + intros Ha s Hs.
      destruct (ascending_last_highest (first :: rest)
                  (List.last rest first) Ha (last_cons_some first rest))
        as [_ Hall].
      now apply Hall.
Qed.

Lemma dest_name_circular_or_last_witness :
  (exists self,
      Route_init (tsw_query TC) lrt_transport lrt_state
      = (Ok self,
         snd (stop_list lrt_transport "705" OUTBOUND "default" lrt_state))
      /\ Route_dest_name self = Ok (VStr "天水圍循環綫"))
  /\ (exists self,
         Route_init (kmb1_query "S5") kmb_transport (memo_state 30 8)
         = (Ok self,
            snd (stop_list kmb_transport "1" OUTBOUND "1" (memo_state 30 8)))
         /\ Route_dest_name self = Ok (VStr "Chuk Yuen Estate")
         /\ seq_lt (stop_dict "S5" 5 "康強苑" "Hong Keung Court")
                   (stop_dict "S9" 9 "竹園邨" "Chuk Yuen Estate")).
Proof.
  split.
  - destruct (dest_name_circular_or_last (tsw_query TC) lrt_transport
                lrt_state
                (snd (stop_list lrt_transport "705" OUTBOUND "default"
                        lrt_state))
                (stop_dict "430" 1 "天水圍" "Tin Shui Wai")
                [stop_dict "435" 2 "天慈" "Tin Tsz";
                 stop_dict "445" 3 "天湖" "Tin Wu"]
                ["430"; "435"; "445"])
      as (self & Hinit & Hcirc & _).
    + vm_compute. reflexivity.
    + reflexivity.
    + cbn. tauto.
    + exists self. split; [exact Hinit|].
      apply Hcirc; [reflexivity|].
      repeat constructor; eexists; reflexivity.
  - destruct (dest_name_circular_or_last (kmb1_query "S5") kmb_transport
                (memo_state 30 8)
                (snd (stop_list kmb_transport "1" OUTBOUND "1"
                        (memo_state 30 8)))
                (stop_dict "S1" 1 "尖沙咀碼頭" "Star Ferry")
                [stop_dict "S5" 5 "康強苑" "Hong Keung Court";
                 stop_dict "S9" 9 "竹園邨" "Chuk Yuen Estate"]
                ["S1"; "S5"; "S9"])
      as (self & Hinit & _ & Hplain).
    + vm_compute. reflexivity.
    + reflexivity.
    + cbn. tauto.
    + destruct (Hplain eq_refl eq_refl) as [Hname Hhigh].
      exists self. split; [exact Hinit|]. split; [exact Hname|].
      destruct (Hhigh eq_refl
                  (stop_dict "S5" 5 "康強苑" "Hong Keung Court")) as [E|L].
      * right. left. reflexivity.
      * discriminate E.
      * exact L.
Defined.
